(** * Subspace: pacing, rate limiting and the profile life cycle

    A shallow embedding of the Go packages [storage], [stealth], [connect]
    and [messaging] of the Subspace automation proof of concept, followed by
    the properties of the rate limiter, the action ledger, the activity gate,
    the motion generator and the profile state machine.

    Conventions of the embedding:
    - a Go [int], [int64] or [time.Duration] is a [Z] kept inside the signed
      64-bit range by [wrap64] after every arithmetic operation;
    - a [float64] is a [spec_float] at precision 53 and maximal exponent 1024,
      with the operations of the IEEE 754 specification of the standard
      library;
    - a [string] is a [string] of bytes; Go compares strings bytewise;
    - a [time.Time] is the number of nanoseconds since the zero [Time]
      (January 1 of year 1, 00:00 UTC), so that [IsZero] is a test against 0;
    - a [*Profile] is an address into a heap of profiles, so that the store
      and its callers share the records they mutate;
    - the clock, the pseudo random generator, the disk and the iteration order
      of Go maps are driven by oracles carried in the state. *)

From Stdlib Require Import ZArith String Ascii List Lia Bool DecimalString.
From Stdlib Require Import Floats.SpecFloat.
From stdpp Require Import base option list gmap strings.

Local Open Scope Z_scope.

(** ** Machine integers *)

Module goint.

Definition min_int : Z := - 2 ^ 63.
Definition max_int : Z := 2 ^ 63 - 1.

(** Two's complement reduction of a mathematical integer to [int64]. *)
Definition wrap64 (z : Z) : Z := (z + 2 ^ 63) mod 2 ^ 64 - 2 ^ 63.

Definition is_int (z : Z) : Prop := min_int <= z <= max_int.

Definition add (a b : Z) : Z := wrap64 (a + b).
Definition sub (a b : Z) : Z := wrap64 (a - b).
Definition mul (a b : Z) : Z := wrap64 (a * b).
Definition neg (a : Z) : Z := wrap64 (- a).

End goint.

(** ** Time *)

Module gotime.

(** [time.Time]: nanoseconds since the zero instant. *)
Definition Time : Type := Z.
(** [time.Duration]: a signed 64-bit count of nanoseconds. *)
Definition Duration : Type := Z.

Definition Nanosecond : Duration := 1.
Definition Millisecond : Duration := 1000000.
Definition Second : Duration := 1000000000.
Definition Minute : Duration := 60 * Second.
Definition Hour : Duration := 60 * Minute.
Definition Day : Duration := 24 * Hour.

Definition minDuration : Duration := goint.min_int.
Definition maxDuration : Duration := goint.max_int.

Definition zeroTime : Time := 0.

Definition IsZero (t : Time) : bool := t =? 0.

(** [t.After(u)]: strictly later. *)
Definition After (t u : Time) : bool := u <? t.

(** [t.Before(u)]: strictly earlier. *)
Definition Before (t u : Time) : bool := t <? u.

(** [t.Sub(u)] saturates at the bounds of [Duration]. *)
Definition Sub (t u : Time) : Duration :=
  Z.max minDuration (Z.min maxDuration (t - u)).

Definition Add (t : Time) (d : Duration) : Time := t + d.

(** [t.AddDate(0, 0, days)] in a location with a fixed offset from UTC. *)
Definition AddDays (t : Time) (days : Z) : Time := t + days * Day.

(** Nanoseconds elapsed since local midnight, in the zone [tz] seconds east
    of UTC. *)
Definition sinceMidnight (tz : Z) (t : Time) : Z := (t + tz * Second) mod Day.

(** [time.Date(y, m, d, 0, 0, 0, 0, loc)] for the date of [t]. *)
Definition startOfDay (tz : Z) (t : Time) : Time := t - sinceMidnight tz t.

Definition HourOf (tz : Z) (t : Time) : Z := sinceMidnight tz t / Hour.
Definition MinuteOf (tz : Z) (t : Time) : Z := sinceMidnight tz t mod Hour / Minute.

Definition digit (d : Z) : string :=
  String (ascii_of_N (Z.to_N (48 + d))) EmptyString.

(** A two digit, zero padded decimal field. *)
Definition pad2 (n : Z) : string := digit (n / 10 mod 10) +:+ digit (n mod 10).

(** [t.Format("15:04")]. *)
Definition Format1504 (tz : Z) (t : Time) : string :=
  pad2 (HourOf tz t) +:+ ":" +:+ pad2 (MinuteOf tz t).

(** Offset of the Unix epoch from the zero instant, in seconds. *)
Definition unixEpoch : Z := 62135596800.

(** [t.UnixNano()]. *)
Definition UnixNano (t : Time) : Z := goint.wrap64 (t - unixEpoch * Second).

End gotime.

Export gotime(Time, Duration).

(** ** Floating point *)

Module float64.

Definition prec : Z := 53.
Definition emax : Z := 1024.

Definition float64 : Type := spec_float.

Definition add : float64 -> float64 -> float64 := SFadd prec emax.
Definition sub : float64 -> float64 -> float64 := SFsub prec emax.
Definition mul : float64 -> float64 -> float64 := SFmul prec emax.
Definition div : float64 -> float64 -> float64 := SFdiv prec emax.
Definition sqrt : float64 -> float64 := SFsqrt prec emax.

(** The comparison operators of Go: [==], [<] and [>] are false on NaN. *)
Definition eqb : float64 -> float64 -> bool := SFeqb.
Definition ltb : float64 -> float64 -> bool := SFltb.
Definition gtb (x y : float64) : bool := SFltb y x.

(** Conversion of an integer, rounding to nearest even. *)
Definition of_int (z : Z) : float64 := binary_normalize prec emax z 0 false.

(** A decimal constant [n / d] rounded to the nearest [float64]. *)
Definition of_ratio (n d : Z) : float64 := div (of_int n) (of_int d).

(** Neither an infinity nor a NaN. *)
Definition is_finite (x : float64) : bool :=
  match x with
  | S754_zero _ | S754_finite _ _ _ => true
  | _ => false
  end.

(** A value that a [float64] variable can hold. *)
Definition is_float64 (x : float64) : bool := valid_binary prec emax x.

(** [int(x)]: the fraction is discarded. Go leaves the conversion of a NaN,
    an infinity or a value out of range to the implementation; this is the
    amd64 result, the smallest integer. *)
Definition to_int (x : float64) : Z :=
  match x with
  | S754_zero _ => 0
  | S754_finite s m e =>
      let z := cond_Zopp s (Z.shiftl (Zpos m) e) in
      if (goint.min_int <=? z) && (z <=? goint.max_int) then z else goint.min_int
  | _ => goint.min_int
  end.

End float64.

Export float64(float64).

(** ** Configuration (package [config]) *)

Module config.

Record StealthConfig := {
  MouseSpeed : float64;
  MouseWanderEnabled : bool;
  MouseWanderChance : float64;
  TypingSpeedMin : Z;
  TypingSpeedMax : Z;
  TypoChance : float64;
  TypoCorrection : bool;
  ActionDelayMin : Z;
  ActionDelayMax : Z;
  ThinkTimeMin : Z;
  ThinkTimeMax : Z;
  ScrollEnabled : bool;
  ScrollChance : float64;
  ScrollDistance : Z;
  ScrollAcceleration : float64;
  BusinessHoursEnabled : bool;
  BusinessHoursStart : string;
  BusinessHoursEnd : string;
  BreakTimeEnabled : bool;
  BreakTimeStart : string;
  BreakTimeEnd : string;
  MaskWebDriver : bool;
  MaskChrome : bool;
  RandomViewport : bool;
  ViewportWidthMin : Z;
  ViewportWidthMax : Z;
  ViewportHeightMin : Z;
  ViewportHeightMax : Z
}.

Record LimitsConfig := {
  ConnectionsPerDay : Z;
  ConnectionsPerHour : Z;
  MessagesPerDay : Z;
  SearchesPerDay : Z;
  CooldownMinutes : Z
}.

(** The defaults set by [Load]. *)
Definition defaultStealth : StealthConfig := {|
  MouseSpeed := float64.of_int 300;
  MouseWanderEnabled := true;
  MouseWanderChance := float64.of_ratio 15 100;
  TypingSpeedMin := 80;
  TypingSpeedMax := 200;
  TypoChance := float64.of_ratio 3 100;
  TypoCorrection := true;
  ActionDelayMin := 500;
  ActionDelayMax := 2000;
  ThinkTimeMin := 2000;
  ThinkTimeMax := 5000;
  ScrollEnabled := true;
  ScrollChance := float64.of_ratio 3 10;
  ScrollDistance := 300;
  ScrollAcceleration := float64.of_ratio 8 10;
  BusinessHoursEnabled := true;
  BusinessHoursStart := "09:00";
  BusinessHoursEnd := "17:00";
  BreakTimeEnabled := true;
  BreakTimeStart := "12:00";
  BreakTimeEnd := "13:00";
  MaskWebDriver := true;
  MaskChrome := true;
  RandomViewport := true;
  ViewportWidthMin := 1200;
  ViewportWidthMax := 1920;
  ViewportHeightMin := 800;
  ViewportHeightMax := 1080
|}.

Definition defaultLimits : LimitsConfig := {|
  ConnectionsPerDay := 50;
  ConnectionsPerHour := 10;
  MessagesPerDay := 30;
  SearchesPerDay := 20;
  CooldownMinutes := 60
|}.

End config.

(** ** Stored records (package [storage], types) *)

Module records.

(** [type ProfileState string]: any string can be held, five are named. *)
Definition ProfileState : Type := string.

Definition StateDiscovered : ProfileState := "discovered".
Definition StateRequested : ProfileState := "requested".
Definition StateAccepted : ProfileState := "accepted".
Definition StateCooledDown : ProfileState := "cooled_down".
Definition StateRejected : ProfileState := "rejected".

Record Profile := {
  ID : string;
  Name : string;
  Title : string;
  Company : string;
  ProfileURL : string;
  State : ProfileState;
  DiscoveredAt : Time;
  RequestedAt : option Time;
  AcceptedAt : option Time;
  CooledDownAt : option Time;
  SearchQuery : string;
  Notes : string
}.

Record Message := {
  MsgID : string;
  MsgProfileID : string;
  Content : string;
  SentAt : Time;
  Template : string
}.

Record ActionLog := {
  Action : string;
  Timestamp : Time;
  LogProfileID : string;
  Success : bool;
  Error : string
}.

(** A [*Profile]: an address in the heap of profiles. An address that the
    heap does not hold behaves as [nil]: reading through it panics. *)
Definition ptr : Type := positive.

(** The in-memory [Data] of a [Storage]. *)
Record Data := {
  Profiles : gmap string ptr;
  Messages : gmap string Message;
  ActionLogs : list ActionLog;
  LastSync : Time
}.

(** What [json.MarshalIndent(s.data)] serialises: the profiles by value. *)
Record Snapshot := {
  snapProfiles : gmap string (option Profile);
  snapMessages : gmap string Message;
  snapActionLogs : list ActionLog;
  snapLastSync : Time
}.

(** [profile.State = st; profile.RequestedAt = at]. *)
Definition setRequest (st : ProfileState) (at_ : option Time) (p : Profile) : Profile :=
  {| ID := ID p; Name := Name p; Title := Title p; Company := Company p;
     ProfileURL := ProfileURL p; State := st; DiscoveredAt := DiscoveredAt p;
     RequestedAt := at_; AcceptedAt := AcceptedAt p;
     CooledDownAt := CooledDownAt p; SearchQuery := SearchQuery p;
     Notes := Notes p |}.

(** [profile.State = st; profile.AcceptedAt = at]. *)
Definition setAccepted (st : ProfileState) (at_ : option Time) (p : Profile) : Profile :=
  {| ID := ID p; Name := Name p; Title := Title p; Company := Company p;
     ProfileURL := ProfileURL p; State := st; DiscoveredAt := DiscoveredAt p;
     RequestedAt := RequestedAt p; AcceptedAt := at_;
     CooledDownAt := CooledDownAt p; SearchQuery := SearchQuery p;
     Notes := Notes p |}.

(** [profile.State = st; profile.CooledDownAt = at]. *)
Definition setCooledDown (st : ProfileState) (at_ : option Time) (p : Profile) : Profile :=
  {| ID := ID p; Name := Name p; Title := Title p; Company := Company p;
     ProfileURL := ProfileURL p; State := st; DiscoveredAt := DiscoveredAt p;
     RequestedAt := RequestedAt p; AcceptedAt := AcceptedAt p;
     CooledDownAt := at_; SearchQuery := SearchQuery p;
     Notes := Notes p |}.

End records.

Export records.

(** ** The state of a run and the effects of the program *)

Module world.

(** A Go [error]: [None] is [nil], [Some msg] an error with that text. *)
Definition error : Type := option string.

(** One attempt of [save] at replacing the database file. *)
Inductive WriteEvent :=
  | Wrote (s : Snapshot)
  | WriteFailed (s : Snapshot) (msg : string).

Record World := {
  (** the wall clock and the zone of the machine, seconds east of UTC *)
  clock : Time;
  zone : Z;
  (** oracles: the time that passes before each reading of the clock, the raw
      outputs of the generator, the outcome of each write of the database
      file, the choices behind each iteration over a map *)
  ticks : list Z;
  rng : list Z;
  disk : list error;
  order : list nat;
  (** traces: the calls of [time.Sleep] that blocked, the writes attempted *)
  sleeps : list Duration;
  writes : list WriteEvent;
  (** [var lastActionTime time.Time] of package [stealth] *)
  lastActionTime : Time;
  (** the profiles that [*Profile] values point to *)
  heap : gmap ptr Profile;
  (** [s.data] of the one [Storage] *)
  data : Data
}.

Definition with_clock (c : Time) (k : list Z) (w : World) : World :=
  {| clock := c; zone := zone w; ticks := k; rng := rng w; disk := disk w;
     order := order w; sleeps := sleeps w; writes := writes w;
     lastActionTime := lastActionTime w; heap := heap w; data := data w |}.

Definition with_rng (r : list Z) (w : World) : World :=
  {| clock := clock w; zone := zone w; ticks := ticks w; rng := r; disk := disk w;
     order := order w; sleeps := sleeps w; writes := writes w;
     lastActionTime := lastActionTime w; heap := heap w; data := data w |}.

Definition with_disk (d : list error) (ws : list WriteEvent) (w : World) : World :=
  {| clock := clock w; zone := zone w; ticks := ticks w; rng := rng w; disk := d;
     order := order w; sleeps := sleeps w; writes := ws;
     lastActionTime := lastActionTime w; heap := heap w; data := data w |}.

Definition with_order (o : list nat) (w : World) : World :=
  {| clock := clock w; zone := zone w; ticks := ticks w; rng := rng w; disk := disk w;
     order := o; sleeps := sleeps w; writes := writes w;
     lastActionTime := lastActionTime w; heap := heap w; data := data w |}.

Definition with_sleep (c : Time) (s : list Duration) (w : World) : World :=
  {| clock := c; zone := zone w; ticks := ticks w; rng := rng w; disk := disk w;
     order := order w; sleeps := s; writes := writes w;
     lastActionTime := lastActionTime w; heap := heap w; data := data w |}.

Definition with_lastActionTime (t : Time) (w : World) : World :=
  {| clock := clock w; zone := zone w; ticks := ticks w; rng := rng w; disk := disk w;
     order := order w; sleeps := sleeps w; writes := writes w;
     lastActionTime := t; heap := heap w; data := data w |}.

Definition with_heap (h : gmap ptr Profile) (w : World) : World :=
  {| clock := clock w; zone := zone w; ticks := ticks w; rng := rng w; disk := disk w;
     order := order w; sleeps := sleeps w; writes := writes w;
     lastActionTime := lastActionTime w; heap := h; data := data w |}.

Definition with_data (d : Data) (w : World) : World :=
  {| clock := clock w; zone := zone w; ticks := ticks w; rng := rng w; disk := disk w;
     order := order w; sleeps := sleeps w; writes := writes w;
     lastActionTime := lastActionTime w; heap := heap w; data := d |}.

(** A computation either returns a value or panics, in a final state. *)
Inductive outcome (A : Type) :=
  | Returned (a : A) (w : World)
  | Panicked (msg : string) (w : World).

Arguments Returned {A} a w.
Arguments Panicked {A} msg w.

Definition M (A : Type) : Type := World -> outcome A.

#[global] Instance M_ret : MRet M := fun A a w => Returned a w.

#[global] Instance M_bind : MBind M := fun A B f m w =>
  match m w with
  | Returned a w' => f a w'
  | Panicked msg w' => Panicked msg w'
  end.

Definition panic {A : Type} (msg : string) : M A := fun w => Panicked msg w.

Definition get : M World := fun w => Returned w w.

Definition modify (f : World -> World) : M unit := fun w => Returned tt (f w).

(** The final state of an outcome, returned or not. *)
Definition final {A : Type} (o : outcome A) : World :=
  match o with
  | Returned _ w => w
  | Panicked _ w => w
  end.

(** [time.Now()]: some time passes, never backwards, and the clock is read. *)
Definition Now : M Time := fun w =>
  let t := clock w + Z.max 0 (hd 0 (ticks w)) in
  Returned t (with_clock t (tl (ticks w)) w).

(** [time.Sleep(d)]: returns at once when [d] is not positive. *)
Definition Sleep (d : Duration) : M unit := fun w =>
  if d <=? 0 then Returned tt w
  else Returned tt (with_sleep (clock w + d) (sleeps w ++ [d]) w).

(** [rng.Intn(n)] of [math/rand]: panics unless [0 < n], else a value of
    [[0, n)] drawn from the generator. *)
Definition Intn (n : Z) : M Z := fun w =>
  if n <=? 0 then Panicked "invalid argument to Intn" w
  else Returned (hd 0 (rng w) mod n) (with_rng (tl (rng w)) w).

(** [rng.Float64()] of [math/rand]: a multiple of [2^-53] in [[0, 1)]. *)
Definition Float64 : M float64 := fun w =>
  Returned (float64.div (float64.of_int (hd 0 (rng w) mod 2 ^ 53)) (float64.of_int (2 ^ 53)))
           (with_rng (tl (rng w)) w).

(** Reading through a [*Profile]. *)
Definition deref (p : ptr) : M Profile := fun w =>
  match heap w !! p with
  | Some v => Returned v w
  | None => Panicked "invalid memory address or nil pointer dereference" w
  end.

(** Writing through a [*Profile]. *)
Definition assign (p : ptr) (f : Profile -> Profile) : M unit := fun w =>
  match heap w !! p with
  | Some v => Returned tt (with_heap (<[p := f v]> (heap w)) w)
  | None => Panicked "invalid memory address or nil pointer dereference" w
  end.

(** The order in which a [range] over a map visits its entries: Go leaves it
    unspecified, the oracle picks the next entry among those left. *)
Fixpoint pick {A : Type} (n : nat) (choices : list nat) (l : list A) : list A :=
  match n with
  | O => []
  | S n' =>
      let i := (hd 0 choices mod length l)%nat in
      match l !! i with
      | Some x => x :: pick n' (tl choices) (delete i l)
      | None => []
      end
  end.

Definition rangeMap {V : Type} (m : gmap string V) : M (list (string * V)) := fun w =>
  let l := map_to_list m in
  Returned (pick (length l) (order w) l) (with_order (drop (length l) (order w)) w).

End world.

Export world.

(** ** The store (package [storage], operations)

    The mutex of [Storage] is not modelled: one thread drives the program.
    [New] and [load] run once at start-up and are outside the model. *)

Module storage.

Definition setProfiles (m : gmap string ptr) (d : Data) : Data :=
  {| Profiles := m; Messages := Messages d; ActionLogs := ActionLogs d;
     LastSync := LastSync d |}.

Definition setMessages (m : gmap string Message) (d : Data) : Data :=
  {| Profiles := Profiles d; Messages := m; ActionLogs := ActionLogs d;
     LastSync := LastSync d |}.

Definition setActionLogs (l : list ActionLog) (d : Data) : Data :=
  {| Profiles := Profiles d; Messages := Messages d; ActionLogs := l;
     LastSync := LastSync d |}.

Definition setLastSync (t : Time) (d : Data) : Data :=
  {| Profiles := Profiles d; Messages := Messages d; ActionLogs := ActionLogs d;
     LastSync := t |}.

(** What the encoder sees when it follows the pointers of [s.data]. *)
Definition snapshot (w : World) : Snapshot :=
  {| snapProfiles := (fun p => heap w !! p) <$> Profiles (data w);
     snapMessages := Messages (data w);
     snapActionLogs := ActionLogs (data w);
     snapLastSync := LastSync (data w) |}.

(** [os.WriteFile(s.path, data, 0644)] after [os.MkdirAll]: either can fail,
    as the oracle decides; the attempt is recorded with the encoded data. *)
Definition writeFile : M error := fun w =>
  match hd None (disk w) with
  | None =>
      Returned None (with_disk (tl (disk w)) (writes w ++ [Wrote (snapshot w)]) w)
  | Some msg =>
      Returned (Some msg)
        (with_disk (tl (disk w)) (writes w ++ [WriteFailed (snapshot w) msg]) w)
  end.

(** [save]: stamps [LastSync], encodes the data and replaces the file. *)
Definition save : M error :=
  now ← Now;
  modify (fun w => with_data (setLastSync now (data w)) w);;
  writeFile.

Definition SaveProfile (profile : ptr) : M error :=
  p ← deref profile;
  modify (fun w => with_data (setProfiles (<[ID p := profile]> (Profiles (data w))) (data w)) w);;
  save.

Definition GetProfile (id : string) : M (option ptr * error) :=
  w ← get;
  match Profiles (data w) !! id with
  | Some p => mret (Some p, None)
  | None => mret (None, Some ("profile not found: " +:+ id))
  end.

Fixpoint selectByState (state : ProfileState) (entries : list (string * ptr))
  : M (list ptr) :=
  match entries with
  | [] => mret []
  | (_, profile) :: rest =>
      p ← deref profile;
      tail ← selectByState state rest;
      mret (if String.eqb (State p) state then profile :: tail else tail)
  end.

Definition GetProfilesByState (state : ProfileState) : M (list ptr) :=
  w ← get;
  entries ← rangeMap (Profiles (data w));
  selectByState state entries.

Fixpoint findURL (profileURL : string) (entries : list (string * ptr)) : M bool :=
  match entries with
  | [] => mret false
  | (_, profile) :: rest =>
      p ← deref profile;
      if String.eqb (ProfileURL p) profileURL then mret true
      else findURL profileURL rest
  end.

Definition ProfileExists (profileURL : string) : M bool :=
  w ← get;
  entries ← rangeMap (Profiles (data w));
  findURL profileURL entries.

Definition SaveMessage (message : Message) : M error :=
  modify (fun w =>
    with_data (setMessages (<[MsgID message := message]> (Messages (data w))) (data w)) w);;
  save.

Definition GetMessagesByProfile (profileID : string) : M (list Message) :=
  w ← get;
  entries ← rangeMap (Messages (data w));
  mret (filter (fun msg => String.eqb (MsgProfileID msg) profileID = true) (snd <$> entries)).

(** [LogAction]: the record carries the time of the call and the text of
    [err] when there is one. *)
Definition LogAction (action profileID : string) (success : bool) (err : error)
  : M error :=
  now ← Now;
  let log := {| Action := action; Timestamp := now; LogProfileID := profileID;
                Success := success;
                Error := match err with Some msg => msg | None => "" end |} in
  modify (fun w => with_data (setActionLogs (ActionLogs (data w) ++ [log]) (data w)) w);;
  save.

(** The loop of [GetActionCountSince]. The counter is bounded by the length
    of the slice, itself an [int], so no increment wraps. *)
Fixpoint countLoop (action : string) (since : Time) (logs : list ActionLog)
  (count : Z) : Z :=
  match logs with
  | [] => count
  | log :: rest =>
      countLoop action since rest
        (if String.eqb (Action log) action && Success log
            && gotime.After (Timestamp log) since
         then count + 1 else count)
  end.

Definition countSince (action : string) (since : Time) (logs : list ActionLog) : Z :=
  countLoop action since logs 0.

Definition GetActionCountSince (action : string) (since : Time) : M Z :=
  w ← get;
  mret (countSince action since (ActionLogs (data w))).

Definition GetActionCountToday (action : string) : M Z :=
  now ← Now;
  w ← get;
  GetActionCountSince action (gotime.startOfDay (zone w) now).

Definition GetActionCountLastHour (action : string) : M Z :=
  now ← Now;
  GetActionCountSince action (gotime.Add now (goint.mul (-1) gotime.Hour)).

(** The loop of [CleanOldLogs]: the records later than the cutoff, in order. *)
Fixpoint keepAfter (cutoff : Time) (logs : list ActionLog) : list ActionLog :=
  match logs with
  | [] => []
  | log :: rest =>
      if gotime.After (Timestamp log) cutoff then log :: keepAfter cutoff rest
      else keepAfter cutoff rest
  end.

Definition CleanOldLogs (retentionDays : Z) : M error :=
  now ← Now;
  let cutoff := gotime.AddDays now (goint.neg retentionDays) in
  modify (fun w =>
    with_data (setActionLogs (keepAfter cutoff (ActionLogs (data w))) (data w)) w);;
  save.

End storage.

(** ** Motion, timing and gates (package [stealth])

    The page of the browser is never driven by this package (every call is a
    comment in the source), and calls to the logger are left out. *)

Module stealth.

Import config.

Record Point := { X : float64; Y : float64 }.

(** [for i := from; n iterations; i++ { body i }]. *)
Fixpoint forRange (n : nat) (i : Z) (body : Z -> M unit) : M unit :=
  match n with
  | O => mret tt
  | S n' => body i;; forRange n' (i + 1) body
  end.

Definition randomInt (min max : Z) : M Z :=
  if min >=? max then mret min
  else
    v ← Intn (goint.add (goint.sub max min) 1);
    mret (goint.add min v).

Definition randomFloat (min max : float64) : M float64 :=
  f ← Float64;
  mret (float64.add min (float64.mul f (float64.sub max min))).

Definition ShouldProceed (probability : float64) : M bool :=
  f ← Float64;
  mret (float64.ltb f probability).

(** [time.Sleep(time.Duration(ms) * time.Millisecond)]. *)
Definition sleepMs (ms : Z) : M unit := Sleep (goint.mul ms gotime.Millisecond).

Definition getCurrentMousePosition : float64 * float64 :=
  (float64.of_int 100, float64.of_int 100).

Definition generateBezierControlPoints (x1 y1 x2 y2 : float64) : M (Point * Point) :=
  let distX := float64.sub x2 x1 in
  let distY := float64.sub y2 y1 in
  let lo := float64.of_int (-50) in
  let hi := float64.of_int 50 in
  r1 ← randomFloat lo hi;
  r2 ← randomFloat lo hi;
  r3 ← randomFloat lo hi;
  r4 ← randomFloat lo hi;
  mret
    ({| X := float64.add (float64.add x1 (float64.mul distX (float64.of_ratio 3 10))) r1;
        Y := float64.add (float64.add y1 (float64.mul distY (float64.of_ratio 3 10))) r2 |},
     {| X := float64.add (float64.add x1 (float64.mul distX (float64.of_ratio 7 10))) r3;
        Y := float64.add (float64.add y1 (float64.mul distY (float64.of_ratio 7 10))) r4 |}).

(** [B(t) = (1-t)^3 P0 + 3 (1-t)^2 t P1 + 3 (1-t) t^2 P2 + t^3 P3], each
    product and sum rounded on its own, from left to right. *)
Definition cubicBezier (p0 p1 p2 p3 : Point) (t : float64) : float64 * float64 :=
  let three := float64.of_int 3 in
  let u := float64.sub (float64.of_int 1) t in
  let tt := float64.mul t t in
  let uu := float64.mul u u in
  let uuu := float64.mul uu u in
  let ttt := float64.mul tt t in
  let x :=
    float64.add
      (float64.add
         (float64.add (float64.mul uuu (X p0))
            (float64.mul (float64.mul (float64.mul three uu) t) (X p1)))
         (float64.mul (float64.mul (float64.mul three u) tt) (X p2)))
      (float64.mul ttt (X p3)) in
  let y :=
    float64.add
      (float64.add
         (float64.add (float64.mul uuu (Y p0))
            (float64.mul (float64.mul (float64.mul three uu) t) (Y p1)))
         (float64.mul (float64.mul (float64.mul three u) tt) (Y p2)))
      (float64.mul ttt (Y p3)) in
  (x, y).

(** [math.Pow(x, 2)], the square of [x]. *)
Definition pow2 (x : float64) : float64 := float64.mul x x.

Definition calculateSteps (x1 y1 x2 y2 : float64) : Z :=
  let distance :=
    float64.sqrt (float64.add (pow2 (float64.sub x2 x1)) (pow2 (float64.sub y2 y1))) in
  let steps := float64.to_int (float64.div distance (float64.of_int 5)) in
  let steps := if steps <? 10 then 10 else steps in
  let steps := if steps >? 100 then 100 else steps in
  steps.

(** [MoveMouse]: the points of the curve are computed and dropped, the page
    is not touched; what remains is the wait after each point. *)
Definition MoveMouse (cfg : StealthConfig) (toX toY : float64) : M error :=
  _ ← Now;
  let '(fromX, fromY) := getCurrentMousePosition in
  cps ← generateBezierControlPoints fromX fromY toX toY;
  let steps := calculateSteps fromX fromY toX toY in
  forRange (Z.to_nat (steps + 1)) 0 (fun i =>
    let t := float64.div (float64.of_int i) (float64.of_int steps) in
    let _ := cubicBezier {| X := fromX; Y := fromY |} (fst cps) (snd cps)
               {| X := toX; Y := toY |} t in
    let delay :=
      goint.mul (float64.to_int (float64.div (float64.of_int 1000) (MouseSpeed cfg)))
                gotime.Millisecond in
    Sleep delay);;
  mret None.

Definition RandomDelay (cfg : StealthConfig) : M unit :=
  delay ← randomInt (ActionDelayMin cfg) (ActionDelayMax cfg);
  sleepMs delay.

Definition ThinkingPause (cfg : StealthConfig) : M unit :=
  delay ← randomInt (ThinkTimeMin cfg) (ThinkTimeMax cfg);
  sleepMs delay.

Definition WaitForNavigation : M unit :=
  delay ← randomInt 2000 4000;
  sleepMs delay.

Definition WaitForPageLoad : M unit :=
  delay ← randomInt 1500 3000;
  sleepMs delay.

Definition ShortPause : M unit :=
  delay ← randomInt 200 600;
  sleepMs delay.

Definition MaskFingerprint (cfg : StealthConfig) : M error :=
  (if RandomViewport cfg then
     _ ← randomInt (ViewportWidthMin cfg) (ViewportWidthMax cfg);
     _ ← randomInt (ViewportHeightMin cfg) (ViewportHeightMax cfg);
     mret tt
   else mret tt);;
  mret None.

(** [RandomScroll]: the distance of each step is computed and dropped. *)
Definition RandomScroll (cfg : StealthConfig) : M error :=
  if negb (ScrollEnabled cfg) then mret None
  else
    f ← Float64;
    if float64.gtb f (ScrollChance cfg) then mret None
    else
      _ ← randomInt (goint.neg (ScrollDistance cfg)) (goint.mul (ScrollDistance cfg) 2);
      forRange 10 0 (fun _ => Sleep (20 * gotime.Millisecond));;
      mret None.

Definition makeTypo (cfg : StealthConfig) : M unit :=
  if negb (TypoCorrection cfg) then mret tt
  else
    _ ← randomInt 97 122;
    d1 ← randomInt 100 300;
    sleepMs d1;;
    d2 ← randomInt 50 150;
    sleepMs d2.

Definition byte (c : ascii) : Z := Z.of_N (N_of_ascii c).

Definition nthByte (n : nat) (s : string) : option Z := byte <$> String.get n s.

Definition inRange (lo hi : Z) (b : option Z) : bool :=
  match b with
  | Some v => (lo <=? v) && (v <=? hi)
  | None => false
  end.

Definition RuneError : Z := 65533.

(** [utf8.DecodeRuneInString]: the rune that starts with the byte [b0],
    followed by [rest], and its width; an invalid sequence is [RuneError] of
    width 1. *)
Definition decodeRune (b0 : Z) (rest : string) : Z * nat :=
  let b1 := nthByte 0 rest in
  let b2 := nthByte 1 rest in
  let b3 := nthByte 2 rest in
  let cont (b : option Z) := Z.land (default 0 b) 63 in
  if b0 <? 128 then (b0, 1%nat)
  else if (194 <=? b0) && (b0 <=? 223) then
    if inRange 128 191 b1
    then (Z.lor (Z.shiftl (Z.land b0 31) 6) (cont b1), 2%nat)
    else (RuneError, 1%nat)
  else if (224 <=? b0) && (b0 <=? 239) then
    let lo := if b0 =? 224 then 160 else 128 in
    let hi := if b0 =? 237 then 159 else 191 in
    if inRange lo hi b1 && inRange 128 191 b2
    then (Z.lor (Z.lor (Z.shiftl (Z.land b0 15) 12) (Z.shiftl (cont b1) 6)) (cont b2),
          3%nat)
    else (RuneError, 1%nat)
  else if (240 <=? b0) && (b0 <=? 244) then
    let lo := if b0 =? 240 then 144 else 128 in
    let hi := if b0 =? 244 then 143 else 191 in
    if inRange lo hi b1 && inRange 128 191 b2 && inRange 128 191 b3
    then (Z.lor (Z.lor (Z.lor (Z.shiftl (Z.land b0 7) 18) (Z.shiftl (cont b1) 12))
                   (Z.shiftl (cont b2) 6)) (cont b3),
          4%nat)
    else (RuneError, 1%nat)
  else (RuneError, 1%nat).

(** The runes that [for _, char := range text] visits. *)
Fixpoint runes (text : string) (skip : nat) : list Z :=
  match text with
  | EmptyString => []
  | String c rest =>
      match skip with
      | S k => runes rest k
      | O =>
          let '(r, width) := decodeRune (byte c) rest in
          r :: runes rest (Nat.pred width)
      end
  end.

Definition typeRune (cfg : StealthConfig) (char : Z) : M unit :=
  (if float64.gtb (TypoChance cfg) (float64.of_int 0) then
     f ← Float64;
     if float64.ltb f (TypoChance cfg) then makeTypo cfg else mret tt
   else mret tt);;
  delay ← randomInt (TypingSpeedMin cfg) (TypingSpeedMax cfg);
  delay ← (if (char =? 32) || (char =? 44) || (char =? 46)
           then extra ← randomInt 50 200; mret (goint.add delay extra)
           else mret delay);
  sleepMs delay.

Fixpoint typeRunes (cfg : StealthConfig) (chars : list Z) : M unit :=
  match chars with
  | [] => mret tt
  | char :: rest => typeRune cfg char;; typeRunes cfg rest
  end.

Definition TypeHumanLike (cfg : StealthConfig) (selector text : string) : M error :=
  _ ← Now;
  typeRunes cfg (runes text 0);;
  mret None.

(** The loop of [WanderMouse]: its bound [randomInt(2, 5)] is drawn again at
    every test, so the loop stops after five rounds at most. *)
Fixpoint wanderLoop (cfg : StealthConfig) (fuel : nat) (i : Z) : M unit :=
  match fuel with
  | O => mret tt
  | S fuel' =>
      bound ← randomInt 2 5;
      if i <? bound then
        offsetX ← randomFloat (float64.of_int (-30)) (float64.of_int 30);
        offsetY ← randomFloat (float64.of_int (-30)) (float64.of_int 30);
        let '(currentX, currentY) := getCurrentMousePosition in
        _ ← MoveMouse cfg (float64.add currentX offsetX) (float64.add currentY offsetY);
        d ← randomInt 200 800;
        sleepMs d;;
        wanderLoop cfg fuel' (i + 1)
      else mret tt
  end.

Definition WanderMouse (cfg : StealthConfig) : M error :=
  if negb (MouseWanderEnabled cfg) then mret None
  else
    f ← Float64;
    if float64.gtb f (MouseWanderChance cfg) then mret None
    else wanderLoop cfg 6 0;; mret None.

Definition isTimeInRange (current start end_ : string) : bool :=
  String.leb start current && String.leb current end_.

Definition CheckBusinessHours (cfg : StealthConfig) : M bool :=
  if negb (BusinessHoursEnabled cfg) then mret true
  else
    now ← Now;
    w ← get;
    let currentTime := gotime.Format1504 (zone w) now in
    let inBusinessHours :=
      isTimeInRange currentTime (BusinessHoursStart cfg) (BusinessHoursEnd cfg) in
    let inBreakTime :=
      if BreakTimeEnabled cfg
      then isTimeInRange currentTime (BreakTimeStart cfg) (BreakTimeEnd cfg)
      else false in
    mret (inBusinessHours && negb inBreakTime).

Definition EnforceCooldown (actionType : string) (minDelaySeconds : Z) : M unit :=
  w ← get;
  if gotime.IsZero (lastActionTime w) then
    now ← Now;
    modify (with_lastActionTime now)
  else
    now ← Now;
    let elapsed := gotime.Sub now (lastActionTime w) in
    let required := goint.mul minDelaySeconds gotime.Second in
    (if elapsed <? required then Sleep (goint.sub required elapsed) else mret tt);;
    now' ← Now;
    modify (with_lastActionTime now').

(** [WaitForBusinessHours]: the gate is checked every 15 minutes until it is
    open. The loop has no bound in the source; here it gives up after [fuel]
    checks, and the result says whether it came to an end. *)
Fixpoint WaitForBusinessHours (cfg : StealthConfig) (fuel : nat) : M bool :=
  match fuel with
  | O => mret false
  | S fuel' =>
      open ← CheckBusinessHours cfg;
      if (open : bool) then mret true
      else Sleep (15 * gotime.Minute);; WaitForBusinessHours cfg fuel'
  end.

End stealth.

(** ** Connection requests (package [connect]) *)

Module connect.

Import config.

(** [fmt.Errorf(prefix + ": %w", err)]. *)
Definition wrapError (prefix msg : string) : string := prefix +:+ ": " +:+ msg.

Definition SendConnectionRequest (cfg : StealthConfig) (profile : ptr) : M error :=
  p ← deref profile;
  _ ← Now;
  (* Steps 1 and 2: navigate, wait and look around *)
  stealth.RandomDelay cfg;;
  stealth.ThinkingPause cfg;;
  _ ← stealth.RandomScroll cfg;
  _ ← stealth.WanderMouse cfg;
  (* Steps 3 to 5: reach the button and click it *)
  _ ← stealth.MoveMouse cfg (float64.of_int 800) (float64.of_int 400);
  stealth.RandomDelay cfg;;
  (* Steps 6 to 8: the dialog, the send button, the confirmation *)
  stealth.ThinkingPause cfg;;
  _ ← stealth.MoveMouse cfg (float64.of_int 700) (float64.of_int 500);
  stealth.RandomDelay cfg;;
  stealth.RandomDelay cfg;;
  (* Step 9: update the profile *)
  now ← Now;
  assign profile (setRequest StateRequested (Some now));;
  err ← storage.SaveProfile profile;
  match err with
  | Some msg => mret (Some (wrapError "failed to update profile state" msg))
  | None =>
      _ ← storage.LogAction "connection" (ID p) true None;
      mret None
  end.

(** The loop of [ProcessDailyConnections] over the candidates; returns the
    number of requests sent. *)
Fixpoint processCandidates (cfg : StealthConfig) (candidates : list ptr)
  (sent maxToSend : Z) : M Z :=
  match candidates with
  | [] => mret sent
  | profile :: rest =>
      if sent >=? maxToSend then mret sent
      else
        err ← SendConnectionRequest cfg profile;
        match err with
        | Some msg =>
            p ← deref profile;
            _ ← storage.LogAction "connection" (ID p) false (Some msg);
            processCandidates cfg rest sent maxToSend
        | None =>
            stealth.EnforceCooldown "connection" 30;;
            processCandidates cfg rest (sent + 1) maxToSend
        end
  end.

Definition ProcessDailyConnections (cfg : StealthConfig) (limits : LimitsConfig)
  : M error :=
  _ ← Now;
  connectionsToday ← storage.GetActionCountToday "connection";
  connectionsLastHour ← storage.GetActionCountLastHour "connection";
  if connectionsToday >=? ConnectionsPerDay limits then
    (* the end of the cooldown is computed for the log and dropped *)
    _ ← Now;
    mret None
  else if connectionsLastHour >=? ConnectionsPerHour limits then mret None
  else
    candidates ← storage.GetProfilesByState StateDiscovered;
    if (length candidates =? 0)%nat then mret None
    else
      let remainingDaily := goint.sub (ConnectionsPerDay limits) connectionsToday in
      let remainingHourly := goint.sub (ConnectionsPerHour limits) connectionsLastHour in
      let maxToSend :=
        if remainingHourly <? remainingDaily then remainingHourly else remainingDaily in
      _ ← processCandidates cfg candidates 0 maxToSend;
      mret None.

Fixpoint acceptLoop (requested : list ptr) : M Z :=
  match requested with
  | [] => mret 0
  | profile :: rest =>
      ok ← stealth.ShouldProceed (float64.of_ratio 2 10);
      if (ok : bool) then
        now ← Now;
        assign profile (setAccepted StateAccepted (Some now));;
        err ← storage.SaveProfile profile;
        n ← acceptLoop rest;
        mret (match err with Some _ => n | None => n + 1 end)
      else acceptLoop rest
  end.

Definition CheckAcceptedConnections : M error :=
  requested ← storage.GetProfilesByState StateRequested;
  _ ← acceptLoop requested;
  mret None.

Definition MoveToCooldown (profile : ptr) : M error :=
  _ ← deref profile;
  now ← Now;
  assign profile (setCooledDown StateCooledDown (Some now));;
  err ← storage.SaveProfile profile;
  match err with
  | Some msg => mret (Some (wrapError "failed to update profile" msg))
  | None => mret None
  end.

Definition WithdrawConnectionRequest (cfg : StealthConfig) (profile : ptr) : M error :=
  _ ← deref profile;
  _ ← Now;
  stealth.RandomDelay cfg;;
  assign profile (setRequest StateDiscovered None);;
  err ← storage.SaveProfile profile;
  match err with
  | Some msg => mret (Some (wrapError "failed to update profile" msg))
  | None => mret None
  end.

Definition GetPendingRequests : M (list ptr) :=
  storage.GetProfilesByState StateRequested.

Definition GetAcceptedConnections : M (list ptr) :=
  storage.GetProfilesByState StateAccepted.

Definition CanSendMore (limits : LimitsConfig) : M bool :=
  today ← storage.GetActionCountToday "connection";
  hourly ← storage.GetActionCountLastHour "connection";
  mret ((today <? ConnectionsPerDay limits) && (hourly <? ConnectionsPerHour limits)).

End connect.

(** ** Messages (package [messaging]) *)

Module messaging.

Import config.

(** [%d] of a Go [int]. *)
Definition itoa (z : Z) : string := NilZero.string_of_int (Z.to_int z).

(** [strings.ReplaceAll(s, old, new)] for a pattern [old] that is not empty:
    the occurrences are replaced from left to right without overlap. *)
Fixpoint replaceFrom (old new s : string) (skip : nat) : string :=
  match s with
  | EmptyString => EmptyString
  | String c rest =>
      match skip with
      | S k => replaceFrom old new rest k
      | O =>
          if String.prefix old s
          then new +:+ replaceFrom old new rest (Nat.pred (String.length old))
          else String c (replaceFrom old new rest O)
      end
  end.

Definition ReplaceAll (s old new : string) : string := replaceFrom old new s O.

(** The templates loaded by [loadDefaultTemplates]. *)
Definition newline : string := String (ascii_of_N 10) EmptyString.

Definition defaultTemplates : gmap string string :=
  <["follow_up" :=
      "Hi {{.Name}}," +:+ newline +:+ newline +:+
      "Thanks for connecting! I noticed your background in {{.Title}} at {{.Company}}."
      +:+ newline +:+ newline +:+
      "I'm always interested in connecting with professionals in the field. Would love to stay in touch!"
      +:+ newline +:+ newline +:+ "Best regards"]>
  (<["introduction" :=
      "Hi {{.Name}}," +:+ newline +:+ newline +:+
      "I came across your profile and was impressed by your experience in {{.Title}}."
      +:+ newline +:+ newline +:+
      "I'm working on some interesting projects and thought we might have synergies to explore."
      +:+ newline +:+ newline +:+ "Looking forward to connecting!"]>
  (<["follow_up_short" :=
      "Hi {{.Name}}, thanks for connecting! Looking forward to staying in touch."]> ∅)).

Definition renderTemplate (templates : gmap string string) (templateName : string)
  (p : Profile) : string * error :=
  match templates !! templateName with
  | None => ("", Some ("template not found: " +:+ templateName))
  | Some template =>
      let content := ReplaceAll template "{{.Name}}" (Name p) in
      let content := ReplaceAll content "{{.Title}}" (Title p) in
      let content := ReplaceAll content "{{.Company}}" (Company p) in
      (content, None)
  end.

Definition navigateToConversation (cfg : StealthConfig) (profile : ptr) : M error :=
  _ ← deref profile;
  stealth.RandomDelay cfg;;
  stealth.WaitForPageLoad;;
  mret None.

Definition typeAndSend (cfg : StealthConfig) (content : string) : M error :=
  _ ← stealth.MoveMouse cfg (float64.of_int 500) (float64.of_int 600);
  stealth.RandomDelay cfg;;
  stealth.ThinkingPause cfg;;
  _ ← stealth.TypeHumanLike cfg "mock-message-input" content;
  stealth.ThinkingPause cfg;;
  _ ← stealth.MoveMouse cfg (float64.of_int 700) (float64.of_int 700);
  stealth.RandomDelay cfg;;
  mret None.

Definition SendMessage (cfg : StealthConfig) (limits : LimitsConfig)
  (templates : gmap string string) (profile : ptr) (templateName : string) : M error :=
  p ← deref profile;
  _ ← Now;
  (* Check message limits *)
  messagesToday ← storage.GetActionCountToday "message";
  if messagesToday >=? MessagesPerDay limits then
    mret (Some ("daily message limit reached: " +:+ itoa messagesToday +:+ "/"
                +:+ itoa (MessagesPerDay limits)))
  else
    (* Check if profile has accepted connection *)
    if negb (String.eqb (State p) StateAccepted)
       && negb (String.eqb (State p) StateCooledDown)
    then mret (Some ("cannot message profile in state: " +:+ State p))
    else
      _ ← storage.GetMessagesByProfile (ID p);
      match renderTemplate templates templateName p with
      | (_, Some msg) => mret (Some (connect.wrapError "failed to render template" msg))
      | (content, None) =>
          err ← navigateToConversation cfg profile;
          match err with
          | Some msg => mret (Some (connect.wrapError "failed to navigate" msg))
          | None =>
              err ← typeAndSend cfg content;
              match err with
              | Some msg => mret (Some (connect.wrapError "failed to send message" msg))
              | None =>
                  t1 ← Now;
                  t2 ← Now;
                  let message :=
                    {| MsgID := "msg-" +:+ itoa (gotime.UnixNano t1);
                       MsgProfileID := ID p;
                       Content := content;
                       SentAt := t2;
                       Template := templateName |} in
                  (* an error of [SaveMessage] is logged and dropped *)
                  _ ← storage.SaveMessage message;
                  _ ← storage.LogAction "message" (ID p) true None;
                  mret None
              end
          end
      end.

(** The loop of [SendBulkMessages]; returns how many were sent and failed. *)
Fixpoint bulkLoop (cfg : StealthConfig) (limits : LimitsConfig)
  (templates : gmap string string) (profiles : list ptr) (templateName : string)
  (sent failed : Z) : M (Z * Z) :=
  match profiles with
  | [] => mret (sent, failed)
  | profile :: rest =>
      messagesToday ← storage.GetActionCountToday "message";
      if messagesToday >=? MessagesPerDay limits then mret (sent, failed)
      else
        err ← SendMessage cfg limits templates profile templateName;
        match err with
        | Some _ => bulkLoop cfg limits templates rest templateName sent (failed + 1)
        | None =>
            stealth.EnforceCooldown "message" 60;;
            bulkLoop cfg limits templates rest templateName (sent + 1) failed
        end
  end.

Definition SendBulkMessages (cfg : StealthConfig) (limits : LimitsConfig)
  (templates : gmap string string) (profiles : list ptr) (templateName : string)
  : M error :=
  _ ← bulkLoop cfg limits templates profiles templateName 0 0;
  mret None.

Fixpoint unmessagedOf (accepted : list ptr) : M (list ptr) :=
  match accepted with
  | [] => mret []
  | profile :: rest =>
      p ← deref profile;
      messages ← storage.GetMessagesByProfile (ID p);
      tail ← unmessagedOf rest;
      mret (if (length messages =? 0)%nat then profile :: tail else tail)
  end.

Definition ProcessAcceptedConnections (cfg : StealthConfig) (limits : LimitsConfig)
  (templates : gmap string string) : M error :=
  accepted ← storage.GetProfilesByState StateAccepted;
  unmessaged ← unmessagedOf accepted;
  if (length unmessaged =? 0)%nat then mret None
  else SendBulkMessages cfg limits templates unmessaged "follow_up".

Definition CanSendMore (limits : LimitsConfig) : M bool :=
  today ← storage.GetActionCountToday "message";
  mret (today <? MessagesPerDay limits).

End messaging.

(** ** Logging in (package [auth]) *)

Module auth.

(** The loop [for i, c := range email] of [maskEmail]: the byte index of the
    first rune that is [@], or -1. [skip] bytes belong to the rune before. *)
Fixpoint findAt (email : string) (skip : nat) (i : Z) : Z :=
  match email with
  | EmptyString => -1
  | String c rest =>
      match skip with
      | S k => findAt rest k (i + 1)
      | O =>
          let '(r, width) := stealth.decodeRune (stealth.byte c) rest in
          if r =? 64 then i else findAt rest (Nat.pred width) (i + 1)
      end
  end.

(** [maskEmail]: the mail address as it is written to the log. The slices
    [email[:2]] and [email[atIndex:]] are within bounds where they are taken. *)
Definition maskEmail (email : string) : string :=
  let len := String.length email in
  if (len <? 3)%nat then "***"
  else
    let atIndex := findAt email 0 0 in
    if atIndex <=? 0 then String.substring 0 2 email +:+ "***"
    else
      String.substring 0 2 email +:+ "***" +:+
      String.substring (Z.to_nat atIndex) (len - Z.to_nat atIndex) email.

End auth.

(** ** The operations of the system, as one type *)

Module system.

Import config.

(** Forget the result of a computation. *)
Definition void {A : Type} (m : M A) : M unit := _ ← m; mret tt.

(** Every exported operation of the four packages, with its arguments. *)
Inductive Operation :=
  | SaveProfile (profile : ptr)
  | GetProfile (id : string)
  | GetProfilesByState (state : ProfileState)
  | ProfileExists (profileURL : string)
  | SaveMessage (message : Message)
  | GetMessagesByProfile (profileID : string)
  | LogAction (action profileID : string) (success : bool) (err : error)
  | GetActionCountSince (action : string) (since : Time)
  | GetActionCountToday (action : string)
  | GetActionCountLastHour (action : string)
  | CleanOldLogs (retentionDays : Z)
  | MoveMouse (cfg : StealthConfig) (toX toY : float64)
  | RandomDelay (cfg : StealthConfig)
  | ThinkingPause (cfg : StealthConfig)
  | WaitForNavigation
  | WaitForPageLoad
  | ShortPause
  | MaskFingerprint (cfg : StealthConfig)
  | RandomScroll (cfg : StealthConfig)
  | TypeHumanLike (cfg : StealthConfig) (selector text : string)
  | WanderMouse (cfg : StealthConfig)
  | CheckBusinessHours (cfg : StealthConfig)
  | EnforceCooldown (actionType : string) (minDelaySeconds : Z)
  | ShouldProceed (probability : float64)
  | ProcessDailyConnections (cfg : StealthConfig) (limits : LimitsConfig)
  | SendConnectionRequest (cfg : StealthConfig) (profile : ptr)
  | CheckAcceptedConnections
  | MoveToCooldown (profile : ptr)
  | WithdrawConnectionRequest (cfg : StealthConfig) (profile : ptr)
  | ConnectCanSendMore (limits : LimitsConfig)
  | SendMessage (cfg : StealthConfig) (limits : LimitsConfig)
      (templates : gmap string string) (profile : ptr) (templateName : string)
  | SendBulkMessages (cfg : StealthConfig) (limits : LimitsConfig)
      (templates : gmap string string) (profiles : list ptr) (templateName : string)
  | ProcessAcceptedConnections (cfg : StealthConfig) (limits : LimitsConfig)
      (templates : gmap string string)
  | MessagingCanSendMore (limits : LimitsConfig).

Definition run (op : Operation) : M unit :=
  match op with
  | SaveProfile profile => void (storage.SaveProfile profile)
  | GetProfile id => void (storage.GetProfile id)
  | GetProfilesByState state => void (storage.GetProfilesByState state)
  | ProfileExists profileURL => void (storage.ProfileExists profileURL)
  | SaveMessage message => void (storage.SaveMessage message)
  | GetMessagesByProfile profileID => void (storage.GetMessagesByProfile profileID)
  | LogAction action profileID success err =>
      void (storage.LogAction action profileID success err)
  | GetActionCountSince action since => void (storage.GetActionCountSince action since)
  | GetActionCountToday action => void (storage.GetActionCountToday action)
  | GetActionCountLastHour action => void (storage.GetActionCountLastHour action)
  | CleanOldLogs retentionDays => void (storage.CleanOldLogs retentionDays)
  | MoveMouse cfg toX toY => void (stealth.MoveMouse cfg toX toY)
  | RandomDelay cfg => stealth.RandomDelay cfg
  | ThinkingPause cfg => stealth.ThinkingPause cfg
  | WaitForNavigation => stealth.WaitForNavigation
  | WaitForPageLoad => stealth.WaitForPageLoad
  | ShortPause => stealth.ShortPause
  | MaskFingerprint cfg => void (stealth.MaskFingerprint cfg)
  | RandomScroll cfg => void (stealth.RandomScroll cfg)
  | TypeHumanLike cfg selector text => void (stealth.TypeHumanLike cfg selector text)
  | WanderMouse cfg => void (stealth.WanderMouse cfg)
  | CheckBusinessHours cfg => void (stealth.CheckBusinessHours cfg)
  | EnforceCooldown actionType minDelaySeconds =>
      stealth.EnforceCooldown actionType minDelaySeconds
  | ShouldProceed probability => void (stealth.ShouldProceed probability)
  | ProcessDailyConnections cfg limits => void (connect.ProcessDailyConnections cfg limits)
  | SendConnectionRequest cfg profile => void (connect.SendConnectionRequest cfg profile)
  | CheckAcceptedConnections => void connect.CheckAcceptedConnections
  | MoveToCooldown profile => void (connect.MoveToCooldown profile)
  | WithdrawConnectionRequest cfg profile =>
      void (connect.WithdrawConnectionRequest cfg profile)
  | ConnectCanSendMore limits => void (connect.CanSendMore limits)
  | SendMessage cfg limits templates profile templateName =>
      void (messaging.SendMessage cfg limits templates profile templateName)
  | SendBulkMessages cfg limits templates profiles templateName =>
      void (messaging.SendBulkMessages cfg limits templates profiles templateName)
  | ProcessAcceptedConnections cfg limits templates =>
      void (messaging.ProcessAcceptedConnections cfg limits templates)
  | MessagingCanSendMore limits => void (messaging.CanSendMore limits)
  end.

Definition isCleanOldLogs (op : Operation) : bool :=
  match op with
  | CleanOldLogs _ => true
  | _ => false
  end.

End system.

(** ** Sample data *)

Module examples.

Import config.

(** An instant of day 730000 after the zero instant, at [h]:[m] UTC. *)
Definition at_ (h m : Z) : Time :=
  (730000 * 86400 + h * 3600 + m * 60) * gotime.Second.

Definition alice : Profile :=
  {| ID := "p-alice"; Name := "Alice"; Title := "Engineer"; Company := "Acme";
     ProfileURL := "https://example.org/in/alice"; State := StateDiscovered;
     DiscoveredAt := at_ 8 0; RequestedAt := None; AcceptedAt := None;
     CooledDownAt := None; SearchQuery := "engineer"; Notes := "" |}.

Definition bob : Profile :=
  {| ID := "p-bob"; Name := "Bob"; Title := "Designer"; Company := "Initech";
     ProfileURL := "https://example.org/in/bob"; State := StateAccepted;
     DiscoveredAt := at_ 8 0; RequestedAt := Some (at_ 8 30);
     AcceptedAt := Some (at_ 9 0); CooledDownAt := None;
     SearchQuery := "designer"; Notes := "" |}.

Definition request (t : Time) (ok : bool) : ActionLog :=
  {| Action := "connection"; Timestamp := t; LogProfileID := "p-carol";
     Success := ok; Error := if ok then "" else "timeout" |}.

(** A store that holds Alice and Bob and the ledger [logs], read at [now]. *)
Definition world (now : Time) (logs : list ActionLog) (failures : list error) : World :=
  {| clock := now; zone := 0; ticks := []; rng := [7; 11; 13]; disk := failures;
     order := []; sleeps := []; writes := []; lastActionTime := 0;
     heap := <[1%positive := alice]> (<[2%positive := bob]> ∅);
     data := {| Profiles := <["p-alice" := 1%positive]> (<["p-bob" := 2%positive]> ∅);
                Messages := ∅; ActionLogs := logs; LastSync := 0 |} |}.

(** The default configuration without the break. *)
Definition noBreak : StealthConfig :=
  {| MouseSpeed := MouseSpeed defaultStealth;
     MouseWanderEnabled := MouseWanderEnabled defaultStealth;
     MouseWanderChance := MouseWanderChance defaultStealth;
     TypingSpeedMin := TypingSpeedMin defaultStealth;
     TypingSpeedMax := TypingSpeedMax defaultStealth;
     TypoChance := TypoChance defaultStealth;
     TypoCorrection := TypoCorrection defaultStealth;
     ActionDelayMin := ActionDelayMin defaultStealth;
     ActionDelayMax := ActionDelayMax defaultStealth;
     ThinkTimeMin := ThinkTimeMin defaultStealth;
     ThinkTimeMax := ThinkTimeMax defaultStealth;
     ScrollEnabled := ScrollEnabled defaultStealth;
     ScrollChance := ScrollChance defaultStealth;
     ScrollDistance := ScrollDistance defaultStealth;
     ScrollAcceleration := ScrollAcceleration defaultStealth;
     BusinessHoursEnabled := true;
     BusinessHoursStart := "09:00";
     BusinessHoursEnd := "17:00";
     BreakTimeEnabled := false;
     BreakTimeStart := "12:00";
     BreakTimeEnd := "13:00";
     MaskWebDriver := MaskWebDriver defaultStealth;
     MaskChrome := MaskChrome defaultStealth;
     RandomViewport := RandomViewport defaultStealth;
     ViewportWidthMin := ViewportWidthMin defaultStealth;
     ViewportWidthMax := ViewportWidthMax defaultStealth;
     ViewportHeightMin := ViewportHeightMin defaultStealth;
     ViewportHeightMax := ViewportHeightMax defaultStealth |}.

(** Limits of two requests a day. *)
Definition twoADay : LimitsConfig :=
  {| ConnectionsPerDay := 2; ConnectionsPerHour := 2; MessagesPerDay := 30;
     SearchesPerDay := 20; CooldownMinutes := 60 |}.

End examples.

(** ** Vocabulary of the statements *)

(** The instant that the next call of [time.Now] returns in [w]. *)
Definition nextNow (w : World) : Time := clock w + Z.max 0 (hd 0 (ticks w)).

(** The state after that call. *)
Definition afterNow (w : World) : World := with_clock (nextNow w) (tl (ticks w)) w.

(** [inWindow] of the specification: inclusive on both bounds, in the
    bytewise lexicographic order of strings. *)
Definition inWindow (current start end_ : string) : Prop :=
  String.compare start current <> Gt /\ String.compare current end_ <> Gt.

(** A state in which an action was granted at 10:00 and it is now 10:05. *)
Definition spaced : World :=
  with_lastActionTime (examples.at_ 10 0) (examples.world (examples.at_ 10 5) [] []).

(** A record that counts for [action] after [since], as the code has it:
    the action matches, it succeeded, and it is strictly later. *)
Definition counted (action : string) (since : Time) (log : ActionLog) : bool :=
  String.eqb (Action log) action && Success log && (since <? Timestamp log).

(** A record that counts from [since] on, as the specification has it: the
    instant [since] itself is included. *)
Definition countedFrom (action : string) (since : Time) (log : ActionLog) : bool :=
  String.eqb (Action log) action && Success log && (since <=? Timestamp log).

(** The number of records of a ledger that satisfy a test. *)
Definition tally (test : ActionLog -> bool) (logs : list ActionLog) : Z :=
  Z.of_nat (length (List.filter test logs)).

(** The action ledger of a state. *)
Definition ledger (w : World) : list ActionLog := ActionLogs (data w).

(** The ledger of [w'] continues the ledger of [w]: every record of [w] is
    still there, unchanged and at the same place. *)
Definition extends (w w' : World) : Prop := ledger w `prefix_of` ledger w'.

(** The store of [w'] is the store of [w]: same data, same profiles behind
    the pointers, no write attempted. *)
Definition sameStore (w w' : World) : Prop :=
  data w' = data w /\ heap w' = heap w /\ writes w' = writes w.

(** A computation keeps the relation [R] between the state it starts in and
    the state it ends in, whether it returns or panics. *)
Definition preserves (R : World -> World -> Prop) {A : Type} (m : M A) : Prop :=
  forall w, R w (final (m w)).

(** A relation between states that the environment cannot break: it is a
    preorder and it ignores the clock, the oracles, the sleeps and the time
    of the last granted action. *)
Class Frame (R : World -> World -> Prop) : Prop := {
  frame_refl : forall w, R w w;
  frame_trans : forall w1 w2 w3, R w1 w2 -> R w2 w3 -> R w1 w3;
  frame_clock : forall c k w, R w (with_clock c k w);
  frame_rng : forall r w, R w (with_rng r w);
  frame_order : forall o w, R w (with_order o w);
  frame_sleep : forall c s w, R w (with_sleep c s w);
  frame_last : forall t w, R w (with_lastActionTime t w)
}.

(** A coordinate that is a number: a valid [float64], not an infinity and
    not a NaN. *)
Definition finite (x : float64) : Prop :=
  float64.is_finite x = true /\ float64.is_float64 x = true.

Definition finitePoint (p : stealth.Point) : Prop :=
  finite (stealth.X p) /\ finite (stealth.Y p).

(** Every pointer that the store holds points to a profile. *)
Definition live (w : World) : Prop :=
  forall (id : string) (profile : ptr),
    Profiles (data w) !! id = Some profile -> is_Some (heap w !! profile).

(** The profile behind [profile] is in the state [state]. *)
Definition hasState (w : World) (state : ProfileState) (profile : ptr) : bool :=
  match heap w !! profile with
  | Some p => String.eqb (State p) state
  | None => false
  end.

(** The state after a [range] over a map of [n] entries. *)
Definition afterRange (n : nat) (w : World) : World :=
  with_order (drop n (order w)) w.

(** The largest number of milliseconds that fits in a [Duration]. *)
Definition maxMillis : Z := 9223372036854.

(** A configuration whose delays are in order and fit in a [Duration]. *)
Record sane (cfg : config.StealthConfig) : Prop := {
  sane_action :
    0 <= config.ActionDelayMin cfg /\
    config.ActionDelayMin cfg <= config.ActionDelayMax cfg <= maxMillis;
  sane_think :
    0 <= config.ThinkTimeMin cfg /\
    config.ThinkTimeMin cfg <= config.ThinkTimeMax cfg <= maxMillis;
  sane_typing :
    0 <= config.TypingSpeedMin cfg /\
    config.TypingSpeedMin cfg <= config.TypingSpeedMax cfg <= maxMillis - 200;
  sane_scroll : - maxMillis <= config.ScrollDistance cfg <= maxMillis
}.

(** Nothing of the store has moved from [w] to [w'], and no write to the
    disk was attempted. *)
Definition kept (w w' : World) : Prop := sameStore w w' /\ disk w' = disk w.

(** A computation that always returns, leaves the store alone and takes at
    least [lo] nanoseconds. *)
Definition runs (lo : Z) {A : Type} (m : M A) : Prop :=
  forall w, exists a w',
    m w = Returned a w' /\ clock w + lo <= clock w' /\ kept w w'.

(** The record of a granted request. *)
Definition granted (t : Time) (profileID : string) : ActionLog :=
  {| Action := "connection"; Timestamp := t; LogProfileID := profileID;
     Success := true; Error := "" |}.

(** A record of a granted connection request. *)
Definition isGranted (log : ActionLog) : bool :=
  String.eqb (Action log) "connection" && Success log.

(** The number of connection requests that the ledger records as granted. *)
Definition grantedCount (w : World) : Z := tally isGranted (ledger w).

(** The text of [h] hours and [m] minutes as the configuration writes it:
    two digits, a colon, two digits. *)
Definition hhmm (h m : Z) : string := gotime.pad2 h +:+ ":" +:+ gotime.pad2 m.

(** The minutes elapsed since local midnight; the seconds are dropped. *)
Definition minuteOfDay (tz : Z) (t : Time) : Z := gotime.sinceMidnight tz t / gotime.Minute.

(** [lo <= x <= hi]. *)
Definition between (lo hi x : Z) : bool := (lo <=? x) && (x <=? hi).

(** The numbers from 0 to 99. *)
Definition twoDigits : list Z := Z.of_nat <$> seq 0 100.

(** The character [c] occurs in [s]. *)
Fixpoint hasChar (c : ascii) (s : string) : bool :=
  match s with
  | EmptyString => false
  | String d rest => Ascii.eqb d c || hasChar c rest
  end.

(** The text [old] occurs in [s]. *)
Fixpoint occursIn (old s : string) : bool :=
  String.prefix old s ||
  match s with
  | EmptyString => false
  | String _ rest => occursIn old rest
  end.

(** The record of a message that was sent. *)
Definition messaged (t : Time) (profileID : string) : ActionLog :=
  {| Action := "message"; Timestamp := t; LogProfileID := profileID;
     Success := true; Error := "" |}.

(** The least time that sending [content] takes, in milliseconds. *)
Definition sendingTime (cfg : config.StealthConfig) (content : string) : Z :=
  3 * config.ActionDelayMin cfg + 2 * config.ThinkTimeMin cfg + 1500 +
  Z.of_nat (length (stealth.runes content 0)) * config.TypingSpeedMin cfg.

(** The index of the first byte of [s] that is [c]. *)
Fixpoint indexOf (c : ascii) (s : string) : option nat :=
  match s with
  | EmptyString => None
  | String d rest => if Ascii.eqb d c then Some O else S <$> indexOf c rest
  end.

(** None of the first [k] bytes of [s] is [c]. *)
Fixpoint clearOf (c : ascii) (k : nat) (s : string) : Prop :=
  match k, s with
  | S k', String d rest => d <> c /\ clearOf c k' rest
  | _, _ => True
  end.

(** What the database file holds: the data of the last write that went
    through, if any. *)
Definition onDisk (w : World) : option Snapshot :=
  foldl (fun file event =>
           match event with
           | Wrote s => Some s
           | WriteFailed _ _ => file
           end) None (writes w).

(** The records that a batch of messages to [profiles] may add to the ledger:
    success records "message", each for one of the profiles. *)
Definition sentTo (w : World) (profiles : list ptr) (log : ActionLog) : Prop :=
  Action log = "message" /\ Success log = true /\
  exists profile p,
    profile ∈ profiles /\ heap w !! profile = Some p /\ LogProfileID log = ID p.

(** * Properties *)

(** ** Machine integers *)

Lemma wrap64_id (z : Z) : goint.is_int z -> goint.wrap64 z = z.
Proof.
  unfold goint.is_int, goint.min_int, goint.max_int, goint.wrap64. intros H.
  rewrite Z.mod_small; lia.
Qed.

Lemma wrap64_is_int (z : Z) : goint.is_int (goint.wrap64 z).
Proof.
  unfold goint.is_int, goint.min_int, goint.max_int, goint.wrap64.
  pose proof (Z.mod_pos_bound (z + 2 ^ 63) (2 ^ 64) ltac:(lia)). lia.
Qed.

(** ** The delay generator *)

(** C9, as stated, fails: with the bounds 0 and the largest [int] the width
    of the range wraps around to a negative number and [Intn] panics. *)
Lemma randomInt_panics_on_wide_range :
  stealth.randomInt 0 goint.max_int (examples.world (examples.at_ 10 0) [] []) =
  Panicked "invalid argument to Intn" (examples.world (examples.at_ 10 0) [] []).
Proof. vm_compute. reflexivity. Qed.

(** C9, amended: for [int] bounds whose width [max - min + 1] fits in an
    [int], [randomInt] returns and never panics; when [min <= max] the value
    lies in [[min, max]], and when [min >= max] it is [min], drawn without
    touching the generator. *)
Theorem randomInt_in_range (w : World) (min max : Z) :
  goint.is_int min -> goint.is_int max -> max - min < goint.max_int ->
  exists v w',
    stealth.randomInt min max w = Returned v w' /\
    (min <= max -> min <= v <= max) /\
    (max <= min -> v = min /\ w' = w).
Proof.
  intros Hmin Hmax Hwidth. unfold stealth.randomInt.
  destruct (min >=? max) eqn:Hcmp.
  - exists min, w. apply Z.geb_le in Hcmp. repeat split; lia.
  - rewrite Z.geb_leb in Hcmp. apply Z.leb_gt in Hcmp.
    unfold goint.is_int, goint.min_int, goint.max_int in *.
    assert (Hsub : goint.sub max min = max - min).
    { apply wrap64_id. unfold goint.is_int, goint.min_int, goint.max_int. lia. }
    assert (Hn : goint.add (goint.sub max min) 1 = max - min + 1).
    { unfold goint.add. rewrite Hsub. apply wrap64_id.
      unfold goint.is_int, goint.min_int, goint.max_int. lia. }
    unfold mbind, M_bind, Intn. rewrite Hn.
    destruct (max - min + 1 <=? 0) eqn:Hpos; [apply Z.leb_le in Hpos; lia|].
    pose proof (Z.mod_pos_bound (hd 0 (rng w)) (max - min + 1) ltac:(lia)) as Hv.
    eexists _, _. split; [reflexivity|].
    assert (Hadd : goint.add min (hd 0 (rng w) mod (max - min + 1)) =
                   min + hd 0 (rng w) mod (max - min + 1)).
    { apply wrap64_id. unfold goint.is_int, goint.min_int, goint.max_int. lia. }
    rewrite Hadd. split; [lia|lia].
Qed.

Lemma randomInt_in_range_witness :
  exists v w',
    stealth.randomInt 500 2000 (examples.world (examples.at_ 10 0) [] []) = Returned v w' /\
    (500 <= 2000 -> 500 <= v <= 2000) /\
    (2000 <= 500 -> v = 500 /\ w' = examples.world (examples.at_ 10 0) [] []).
Proof.
  apply (randomInt_in_range (examples.world (examples.at_ 10 0) [] []) 500 2000);
    unfold goint.is_int, goint.min_int, goint.max_int; lia.
Defined.

(** ** The activity gate *)

Lemma Now_eq (w : World) : Now w = Returned (nextNow w) (afterNow w).
Proof. reflexivity. Qed.

Lemma isTimeInRange_inWindow (current start end_ : string) :
  stealth.isTimeInRange current start end_ = true <-> inWindow current start end_.
Proof.
  unfold stealth.isTimeInRange, inWindow, String.leb.
  rewrite andb_true_iff.
  destruct (String.compare start current), (String.compare current end_);
    split; intros [H1 H2]; split; congruence.
Qed.

(** C5, as stated, fails: the break has its own enable flag. With business
    hours 09:00 to 17:00 and a break from 12:00 to 13:00 that is configured
    but not enabled, the gate is open at 12:30, where the formula of the
    claim is false. *)
Lemma CheckBusinessHours_open_in_disabled_break :
  let w := examples.world (examples.at_ 12 30) [] [] in
  gotime.Format1504 (zone w) (nextNow w) = "12:30" /\
  stealth.CheckBusinessHours examples.noBreak w = Returned true (afterNow w) /\
  stealth.isTimeInRange "12:30" "09:00" "17:00"
    && negb (stealth.isTimeInRange "12:30" "12:00" "13:00") = false.
Proof. vm_compute. repeat split; reflexivity. Qed.

(** C5, amended: when business hours are enabled, [CheckBusinessHours] is
    [inWindow(now, businessStart, businessEnd)] and not (break enabled and
    [inWindow(now, breakStart, breakEnd)]), where [now] is the local time of
    the call formatted as HH:MM and [inWindow] is inclusive on both bounds in
    the lexicographic order; when business hours are disabled it is true
    whatever the break says. With the default windows 09:00 to 17:00 and
    12:00 to 13:00 the gate is open at 11:59 and closed at 12:30 and 17:01. *)
Theorem CheckBusinessHours_spec (cfg : config.StealthConfig) (w : World) :
  let current := gotime.Format1504 (zone w) (nextNow w) in
  (config.BusinessHoursEnabled cfg = false ->
     stealth.CheckBusinessHours cfg w = Returned true w) /\
  (config.BusinessHoursEnabled cfg = true ->
     exists open : bool,
       stealth.CheckBusinessHours cfg w = Returned open (afterNow w) /\
       (open = true <->
          inWindow current (config.BusinessHoursStart cfg) (config.BusinessHoursEnd cfg) /\
          ~ (config.BreakTimeEnabled cfg = true /\
             inWindow current (config.BreakTimeStart cfg) (config.BreakTimeEnd cfg)))) /\
  stealth.CheckBusinessHours config.defaultStealth
    (examples.world (examples.at_ 11 59) [] []) =
    Returned true (afterNow (examples.world (examples.at_ 11 59) [] [])) /\
  stealth.CheckBusinessHours config.defaultStealth
    (examples.world (examples.at_ 12 30) [] []) =
    Returned false (afterNow (examples.world (examples.at_ 12 30) [] [])) /\
  stealth.CheckBusinessHours config.defaultStealth
    (examples.world (examples.at_ 17 1) [] []) =
    Returned false (afterNow (examples.world (examples.at_ 17 1) [] [])).
Proof.
  cbv zeta. split; [|split; [|split; [|split]]].
  - intros Hoff. unfold stealth.CheckBusinessHours. rewrite Hoff. reflexivity.
  - intros Hon. unfold stealth.CheckBusinessHours. rewrite Hon. cbn [negb].
    unfold mbind, M_bind, mret, M_ret. rewrite Now_eq. cbn [get].
    eexists. split; [reflexivity|].
    change (zone (afterNow w)) with (zone w).
    rewrite andb_true_iff, negb_true_iff, <- !isTimeInRange_inWindow.
    destruct (config.BreakTimeEnabled cfg);
      destruct (stealth.isTimeInRange _ (config.BreakTimeStart cfg) _);
      intuition congruence.
  - vm_compute. reflexivity.
  - vm_compute. reflexivity.
  - vm_compute. reflexivity.
Qed.

Lemma CheckBusinessHours_spec_witness :
  exists open : bool,
    stealth.CheckBusinessHours examples.noBreak
      (examples.world (examples.at_ 12 30) [] []) =
    Returned open (afterNow (examples.world (examples.at_ 12 30) [] [])) /\
    (open = true <->
       inWindow (gotime.Format1504 0 (nextNow (examples.world (examples.at_ 12 30) [] [])))
         "09:00" "17:00" /\
       ~ (false = true /\
          inWindow (gotime.Format1504 0 (nextNow (examples.world (examples.at_ 12 30) [] [])))
            "12:00" "13:00")).
Proof.
  exact (proj1 (proj2 (CheckBusinessHours_spec examples.noBreak
                         (examples.world (examples.at_ 12 30) [] []))) eq_refl).
Defined.

(** ** Minimum spacing *)





(** ** The action ledger: counting *)

Lemma tally_app (test : ActionLog -> bool) (l1 l2 : list ActionLog) :
  tally test (l1 ++ l2) = tally test l1 + tally test l2.
Proof. unfold tally. rewrite List.filter_app, length_app. lia. Qed.

Lemma tally_nonneg (test : ActionLog -> bool) (logs : list ActionLog) :
  0 <= tally test logs.
Proof. unfold tally. lia. Qed.

Lemma countLoop_tally (action : string) (since : Time) (logs : list ActionLog) (count : Z) :
  storage.countLoop action since logs count = count + tally (counted action since) logs.
Proof.
  revert count. induction logs as [|log rest IH]; intros count.
  - unfold tally. simpl. lia.
  - simpl storage.countLoop. rewrite IH. unfold tally. simpl List.filter.
    unfold counted at 2, gotime.After.
    destruct (String.eqb (Action log) action && Success log && (since <? Timestamp log));
      simpl length; lia.
Qed.

Lemma countSince_tally (action : string) (since : Time) (logs : list ActionLog) :
  storage.countSince action since logs = tally (counted action since) logs.
Proof. unfold storage.countSince. rewrite countLoop_tally. lia. Qed.

(** What [save] does to the state: it stamps [LastSync] and records one
    attempted write; the profiles, the messages and the ledger are kept. *)
Lemma save_effect (w : World) :
  exists e w',
    storage.save w = Returned e w' /\
    e = hd None (disk w) /\
    ActionLogs (data w') = ActionLogs (data w) /\
    Profiles (data w') = Profiles (data w) /\
    Messages (data w') = Messages (data w) /\
    heap w' = heap w /\
    lastActionTime w' = lastActionTime w /\
    sleeps w' = sleeps w /\
    length (writes w') = S (length (writes w)).
Proof.
  unfold storage.save, mbind, M_bind. rewrite Now_eq. cbn [modify].
  unfold storage.writeFile.
  set (w1 := with_data _ _).
  change (disk w1) with (disk w). change (writes w1) with (writes w).
  destruct (hd None (disk w)) eqn:Hdisk; eexists _, _; (split; [reflexivity|]);
    repeat split; try reflexivity; cbn; rewrite length_app; simpl; lia.
Qed.

(** What [LogAction] does: one record is appended, stamped with the time of
    the call, and the store is saved. *)
Lemma LogAction_effect (w : World) (action profileID : string) (success : bool)
  (err : error) :
  exists e w',
    storage.LogAction action profileID success err w = Returned e w' /\
    ActionLogs (data w') =
      ActionLogs (data w) ++
      [{| Action := action; Timestamp := nextNow w; LogProfileID := profileID;
          Success := success;
          Error := match err with Some msg => msg | None => "" end |}] /\
    Profiles (data w') = Profiles (data w) /\
    Messages (data w') = Messages (data w) /\
    heap w' = heap w /\
    lastActionTime w' = lastActionTime w /\
    sleeps w' = sleeps w.
Proof.
  unfold storage.LogAction, mbind, M_bind. rewrite Now_eq. cbn [modify].
  set (w1 := with_data _ _).
  destruct (save_effect w1) as (e & w' & Hsave & _ & Hlogs & Hprof & Hmsg & Hheap & Hlast & Hsl & _).
  rewrite Hsave. exists e, w'. split; [reflexivity|].
  rewrite Hlogs, Hprof, Hmsg, Hheap, Hlast, Hsl. repeat split; reflexivity.
Qed.

(** C2, as stated, fails: a record stamped exactly [t] is not counted since
    [t], because the code tests [Timestamp.After(since)]. *)
Lemma countSince_excludes_the_instant :
  let t := examples.at_ 9 0 in
  let w := examples.world (examples.at_ 10 0) [examples.request t true] [] in
  storage.GetActionCountSince "connection" t w = Returned 0 w /\
  tally (countedFrom "connection" t) (ActionLogs (data w)) = 1.
Proof. vm_compute. split; reflexivity. Qed.

(** C2, amended: for every ledger, category and instant [t],
    [GetActionCountSince] returns exactly the number of records whose
    category is the one asked, whose success flag is true and whose timestamp
    is strictly later than [t], and changes nothing; logging a record with
    success=false leaves every such count as it was; over an empty ledger the
    count is 0. *)
Theorem GetActionCountSince_spec (w : World) (action : string) (since : Time) :
  storage.GetActionCountSince action since w =
    Returned (tally (counted action since) (ActionLogs (data w))) w /\
  (forall (a profileID : string) (err : error),
     storage.GetActionCountSince action since
       (final (storage.LogAction a profileID false err w)) =
     Returned (tally (counted action since) (ActionLogs (data w)))
       (final (storage.LogAction a profileID false err w))) /\
  (ActionLogs (data w) = [] ->
   storage.GetActionCountSince action since w = Returned 0 w).
Proof.
  assert (Hget : forall w0, storage.GetActionCountSince action since w0 =
            Returned (tally (counted action since) (ActionLogs (data w0))) w0).
  { intros w0. unfold storage.GetActionCountSince, mbind, M_bind, mret, M_ret, get.
    rewrite countSince_tally. reflexivity. }
  split; [apply Hget|split].
  - intros a profileID err. rewrite Hget.
    destruct (LogAction_effect w a profileID false err) as (e & w' & Hrun & Hlogs & _).
    rewrite Hrun. cbn [final]. rewrite Hlogs, tally_app.
    unfold tally at 2. simpl. unfold counted. simpl.
    rewrite andb_false_r. simpl. rewrite Z.add_0_r. reflexivity.
  - intros Hempty. rewrite Hget, Hempty. reflexivity.
Qed.

Lemma GetActionCountSince_spec_witness :
  storage.GetActionCountSince "connection" (examples.at_ 9 0)
    (examples.world (examples.at_ 10 0) [] []) =
  Returned 0 (examples.world (examples.at_ 10 0) [] []).
Proof.
  exact (proj2 (proj2 (GetActionCountSince_spec (examples.world (examples.at_ 10 0) [] [])
                         "connection" (examples.at_ 9 0))) eq_refl).
Defined.

(** ** The rate limiter *)

Lemma GetActionCountToday_eq (action : string) (w : World) :
  storage.GetActionCountToday action w =
  Returned (tally (counted action (gotime.startOfDay (zone w) (nextNow w)))
              (ActionLogs (data w)))
           (afterNow w).
Proof.
  unfold storage.GetActionCountToday, storage.GetActionCountSince, mbind, M_bind,
    mret, M_ret. rewrite Now_eq. cbn [get]. rewrite countSince_tally. reflexivity.
Qed.

Lemma GetActionCountLastHour_eq (action : string) (w : World) :
  storage.GetActionCountLastHour action w =
  Returned (tally (counted action (nextNow w - gotime.Hour)) (ActionLogs (data w)))
           (afterNow w).
Proof.
  unfold storage.GetActionCountLastHour, storage.GetActionCountSince, mbind, M_bind,
    mret, M_ret. rewrite Now_eq. cbn [get]. rewrite countSince_tally.
  replace (gotime.Add (nextNow w) (goint.mul (-1) gotime.Hour))
    with (nextNow w - gotime.Hour); [reflexivity|].
  unfold gotime.Add. change (goint.mul (-1) gotime.Hour) with (- gotime.Hour). lia.
Qed.



(** ** Frames: what a computation leaves alone *)

Section Frames.

Context (R : World -> World -> Prop) `{!Frame R}.

Lemma preserves_ret {A : Type} (a : A) : preserves R (mret a).
Proof. intros w. apply frame_refl. Qed.

Lemma preserves_bind {A B : Type} (m : M A) (f : A -> M B) :
  preserves R m -> (forall a, preserves R (f a)) -> preserves R (m ≫= f).
Proof.
  intros Hm Hf w. unfold mbind, M_bind. specialize (Hm w).
  destruct (m w) as [a w1|msg w1]; cbn [final] in *.
  - eapply frame_trans; [exact Hm|apply Hf].
  - exact Hm.
Qed.

Lemma preserves_panic {A : Type} (msg : string) : preserves R (panic (A := A) msg).
Proof. intros w. apply frame_refl. Qed.

Lemma preserves_get : preserves R get.
Proof. intros w. apply frame_refl. Qed.

Lemma preserves_Now : preserves R Now.
Proof. intros w. apply frame_clock. Qed.

Lemma preserves_Sleep (d : Duration) : preserves R (Sleep d).
Proof.
  intros w. unfold Sleep. destruct (d <=? 0); [apply frame_refl|apply frame_sleep].
Qed.

Lemma preserves_Intn (n : Z) : preserves R (Intn n).
Proof.
  intros w. unfold Intn. destruct (n <=? 0); [apply frame_refl|apply frame_rng].
Qed.

Lemma preserves_Float64 : preserves R Float64.
Proof. intros w. apply frame_rng. Qed.

Lemma preserves_deref (p : ptr) : preserves R (deref p).
Proof. intros w. unfold deref. destruct (heap w !! p); apply frame_refl. Qed.

Lemma preserves_rangeMap {V : Type} (m : gmap string V) : preserves R (rangeMap m).
Proof. intros w. apply frame_order. Qed.

Lemma preserves_setLast (t : Time) : preserves R (modify (with_lastActionTime t)).
Proof. intros w. apply frame_last. Qed.

End Frames.

Create HintDb frames discriminated.

#[export] Hint Resolve preserves_ret preserves_panic preserves_get preserves_Now
  preserves_Sleep preserves_Intn preserves_Float64 preserves_deref
  preserves_rangeMap preserves_setLast : frames.

(** One step of a proof that a computation preserves a relation: through a
    bind, a conditional or a case analysis, or by a lemma of the database. *)
Ltac frame_step :=
  lazymatch goal with
  | |- preserves _ (mbind _ _) =>
      apply preserves_bind; [solve [typeclasses eauto] | | intros]
  | |- preserves _ (if ?b then _ else _) => destruct b
  | |- preserves _ (match ?x with _ => _ end) => destruct x
  | |- forall _, _ => intros
  | |- _ => solve [eauto with frames typeclass_instances]
  end.

Ltac frames := repeat frame_step.

Section StealthFrames.

Context (R : World -> World -> Prop) `{!Frame R}.

Lemma preserves_forRange (n : nat) (i : Z) (body : Z -> M unit) :
  (forall j, preserves R (body j)) -> preserves R (stealth.forRange n i body).
Proof.
  intros Hbody. revert i. induction n as [|n IH]; intros i; simpl; frames.
Qed.

Lemma preserves_randomInt (min max : Z) : preserves R (stealth.randomInt min max).
Proof. unfold stealth.randomInt. frames. Qed.

Lemma preserves_randomFloat (min max : float64) :
  preserves R (stealth.randomFloat min max).
Proof. unfold stealth.randomFloat. frames. Qed.

Lemma preserves_ShouldProceed (probability : float64) :
  preserves R (stealth.ShouldProceed probability).
Proof. unfold stealth.ShouldProceed. frames. Qed.

Lemma preserves_sleepMs (ms : Z) : preserves R (stealth.sleepMs ms).
Proof. unfold stealth.sleepMs. frames. Qed.

Hint Resolve preserves_forRange preserves_randomInt preserves_randomFloat
  preserves_ShouldProceed preserves_sleepMs : frames.

Lemma preserves_generateBezierControlPoints (x1 y1 x2 y2 : float64) :
  preserves R (stealth.generateBezierControlPoints x1 y1 x2 y2).
Proof. unfold stealth.generateBezierControlPoints. frames. Qed.

Hint Resolve preserves_generateBezierControlPoints : frames.

Lemma preserves_MoveMouse (cfg : config.StealthConfig) (toX toY : float64) :
  preserves R (stealth.MoveMouse cfg toX toY).
Proof. unfold stealth.MoveMouse. frames. Qed.

Lemma preserves_RandomDelay (cfg : config.StealthConfig) :
  preserves R (stealth.RandomDelay cfg).
Proof. unfold stealth.RandomDelay. frames. Qed.

Lemma preserves_ThinkingPause (cfg : config.StealthConfig) :
  preserves R (stealth.ThinkingPause cfg).
Proof. unfold stealth.ThinkingPause. frames. Qed.

Lemma preserves_WaitForNavigation : preserves R stealth.WaitForNavigation.
Proof. unfold stealth.WaitForNavigation. frames. Qed.

Lemma preserves_WaitForPageLoad : preserves R stealth.WaitForPageLoad.
Proof. unfold stealth.WaitForPageLoad. frames. Qed.

Lemma preserves_ShortPause : preserves R stealth.ShortPause.
Proof. unfold stealth.ShortPause. frames. Qed.

Lemma preserves_MaskFingerprint (cfg : config.StealthConfig) :
  preserves R (stealth.MaskFingerprint cfg).
Proof. unfold stealth.MaskFingerprint. frames. Qed.

Lemma preserves_RandomScroll (cfg : config.StealthConfig) :
  preserves R (stealth.RandomScroll cfg).
Proof. unfold stealth.RandomScroll. frames. Qed.

Lemma preserves_makeTypo (cfg : config.StealthConfig) :
  preserves R (stealth.makeTypo cfg).
Proof. unfold stealth.makeTypo. frames. Qed.

Hint Resolve preserves_MoveMouse preserves_RandomDelay preserves_ThinkingPause
  preserves_WaitForNavigation preserves_WaitForPageLoad preserves_ShortPause
  preserves_MaskFingerprint preserves_RandomScroll preserves_makeTypo : frames.

Lemma preserves_typeRune (cfg : config.StealthConfig) (char : Z) :
  preserves R (stealth.typeRune cfg char).
Proof. unfold stealth.typeRune. frames. Qed.

Hint Resolve preserves_typeRune : frames.

Lemma preserves_typeRunes (cfg : config.StealthConfig) (chars : list Z) :
  preserves R (stealth.typeRunes cfg chars).
Proof. induction chars as [|char rest IH]; simpl; frames. Qed.

Hint Resolve preserves_typeRunes : frames.

Lemma preserves_TypeHumanLike (cfg : config.StealthConfig) (selector text : string) :
  preserves R (stealth.TypeHumanLike cfg selector text).
Proof. unfold stealth.TypeHumanLike. frames. Qed.

Lemma preserves_wanderLoop (cfg : config.StealthConfig) (fuel : nat) (i : Z) :
  preserves R (stealth.wanderLoop cfg fuel i).
Proof. revert i. induction fuel as [|fuel IH]; intros i; simpl; frames. Qed.

Hint Resolve preserves_TypeHumanLike preserves_wanderLoop : frames.

Lemma preserves_WanderMouse (cfg : config.StealthConfig) :
  preserves R (stealth.WanderMouse cfg).
Proof. unfold stealth.WanderMouse. frames. Qed.

Lemma preserves_CheckBusinessHours (cfg : config.StealthConfig) :
  preserves R (stealth.CheckBusinessHours cfg).
Proof. unfold stealth.CheckBusinessHours. frames. Qed.

Lemma preserves_EnforceCooldown (actionType : string) (minDelaySeconds : Z) :
  preserves R (stealth.EnforceCooldown actionType minDelaySeconds).
Proof. unfold stealth.EnforceCooldown. frames. Qed.

End StealthFrames.

#[export] Hint Resolve preserves_forRange preserves_randomInt preserves_randomFloat
  preserves_ShouldProceed preserves_sleepMs preserves_generateBezierControlPoints
  preserves_MoveMouse preserves_RandomDelay preserves_ThinkingPause
  preserves_WaitForNavigation preserves_WaitForPageLoad preserves_ShortPause
  preserves_MaskFingerprint preserves_RandomScroll preserves_makeTypo
  preserves_typeRune preserves_typeRunes preserves_TypeHumanLike
  preserves_wanderLoop preserves_WanderMouse preserves_CheckBusinessHours
  preserves_EnforceCooldown : frames.

(** The ledger only grows under a relation that is a frame. *)
#[export] Instance extends_Frame : Frame extends.
Proof.
  split; unfold extends, ledger; intros; try reflexivity.
  etrans; eassumption.
Qed.

#[export] Instance sameStore_Frame : Frame sameStore.
Proof.
  split; unfold sameStore; intros; try (repeat split; reflexivity).
  destruct H as (? & ? & ?), H0 as (? & ? & ?). repeat split; congruence.
Qed.

(** ** The action ledger: append only *)

Lemma extends_modify (f : World -> World) :
  (forall w, ledger (f w) = ledger w) -> preserves extends (modify f).
Proof. intros Hf w. unfold extends. cbn [final modify]. rewrite Hf. reflexivity. Qed.

Lemma extends_assign (p : ptr) (f : Profile -> Profile) : preserves extends (assign p f).
Proof.
  intros w. unfold assign, extends, ledger. destruct (heap w !! p); reflexivity.
Qed.

Lemma extends_writeFile : preserves extends storage.writeFile.
Proof.
  intros w. unfold storage.writeFile, extends, ledger.
  destruct (hd None (disk w)); reflexivity.
Qed.

#[export] Hint Resolve extends_assign extends_writeFile : frames.

Lemma extends_save : preserves extends storage.save.
Proof.
  unfold storage.save. frames. apply extends_modify. reflexivity.
Qed.

#[export] Hint Resolve extends_save : frames.

Lemma extends_SaveProfile (profile : ptr) : preserves extends (storage.SaveProfile profile).
Proof. unfold storage.SaveProfile. frames. apply extends_modify. reflexivity. Qed.

Lemma extends_SaveMessage (message : Message) :
  preserves extends (storage.SaveMessage message).
Proof. unfold storage.SaveMessage. frames. apply extends_modify. reflexivity. Qed.

Lemma extends_LogAction (action profileID : string) (success : bool) (err : error) :
  preserves extends (storage.LogAction action profileID success err).
Proof.
  unfold storage.LogAction. frames.
  intros w. unfold extends, ledger. cbn. apply prefix_app_r. reflexivity.
Qed.

Lemma extends_GetProfile (id : string) : preserves extends (storage.GetProfile id).
Proof. unfold storage.GetProfile. frames. Qed.

Lemma extends_selectByState (state : ProfileState) (entries : list (string * ptr)) :
  preserves extends (storage.selectByState state entries).
Proof. induction entries as [|[? ?] rest IH]; simpl; frames. Qed.

Lemma extends_findURL (profileURL : string) (entries : list (string * ptr)) :
  preserves extends (storage.findURL profileURL entries).
Proof. induction entries as [|[? ?] rest IH]; simpl; frames. Qed.

#[export] Hint Resolve extends_SaveProfile extends_SaveMessage extends_LogAction
  extends_GetProfile extends_selectByState extends_findURL : frames.

Lemma extends_GetProfilesByState (state : ProfileState) :
  preserves extends (storage.GetProfilesByState state).
Proof. unfold storage.GetProfilesByState. frames. Qed.

Lemma extends_ProfileExists (profileURL : string) :
  preserves extends (storage.ProfileExists profileURL).
Proof. unfold storage.ProfileExists. frames. Qed.

Lemma extends_GetMessagesByProfile (profileID : string) :
  preserves extends (storage.GetMessagesByProfile profileID).
Proof. unfold storage.GetMessagesByProfile. frames. Qed.

Lemma extends_GetActionCountSince (action : string) (since : Time) :
  preserves extends (storage.GetActionCountSince action since).
Proof. unfold storage.GetActionCountSince. frames. Qed.

#[export] Hint Resolve extends_GetProfilesByState extends_ProfileExists
  extends_GetMessagesByProfile extends_GetActionCountSince : frames.

Lemma extends_GetActionCountToday (action : string) :
  preserves extends (storage.GetActionCountToday action).
Proof. unfold storage.GetActionCountToday. frames. Qed.

Lemma extends_GetActionCountLastHour (action : string) :
  preserves extends (storage.GetActionCountLastHour action).
Proof. unfold storage.GetActionCountLastHour. frames. Qed.

#[export] Hint Resolve extends_GetActionCountToday extends_GetActionCountLastHour : frames.

Lemma extends_SendConnectionRequest (cfg : config.StealthConfig) (profile : ptr) :
  preserves extends (connect.SendConnectionRequest cfg profile).
Proof. unfold connect.SendConnectionRequest. frames. Qed.

#[export] Hint Resolve extends_SendConnectionRequest : frames.

Lemma extends_processCandidates (cfg : config.StealthConfig) (candidates : list ptr)
  (sent maxToSend : Z) :
  preserves extends (connect.processCandidates cfg candidates sent maxToSend).
Proof.
  revert sent. induction candidates as [|profile rest IH]; intros sent; simpl; frames.
Qed.

#[export] Hint Resolve extends_processCandidates : frames.

Lemma extends_ProcessDailyConnections (cfg : config.StealthConfig)
  (limits : config.LimitsConfig) :
  preserves extends (connect.ProcessDailyConnections cfg limits).
Proof. unfold connect.ProcessDailyConnections. frames. Qed.

Lemma extends_acceptLoop (requested : list ptr) :
  preserves extends (connect.acceptLoop requested).
Proof. induction requested as [|profile rest IH]; simpl; frames. Qed.

#[export] Hint Resolve extends_ProcessDailyConnections extends_acceptLoop : frames.

Lemma extends_CheckAcceptedConnections : preserves extends connect.CheckAcceptedConnections.
Proof. unfold connect.CheckAcceptedConnections. frames. Qed.

Lemma extends_MoveToCooldown (profile : ptr) :
  preserves extends (connect.MoveToCooldown profile).
Proof. unfold connect.MoveToCooldown. frames. Qed.

Lemma extends_WithdrawConnectionRequest (cfg : config.StealthConfig) (profile : ptr) :
  preserves extends (connect.WithdrawConnectionRequest cfg profile).
Proof. unfold connect.WithdrawConnectionRequest. frames. Qed.

Lemma extends_connect_CanSendMore (limits : config.LimitsConfig) :
  preserves extends (connect.CanSendMore limits).
Proof. unfold connect.CanSendMore. frames. Qed.

Lemma extends_navigateToConversation (cfg : config.StealthConfig) (profile : ptr) :
  preserves extends (messaging.navigateToConversation cfg profile).
Proof. unfold messaging.navigateToConversation. frames. Qed.

Lemma extends_typeAndSend (cfg : config.StealthConfig) (content : string) :
  preserves extends (messaging.typeAndSend cfg content).
Proof. unfold messaging.typeAndSend. frames. Qed.

#[export] Hint Resolve extends_CheckAcceptedConnections extends_MoveToCooldown
  extends_WithdrawConnectionRequest extends_connect_CanSendMore
  extends_navigateToConversation extends_typeAndSend : frames.

Lemma extends_SendMessage (cfg : config.StealthConfig) (limits : config.LimitsConfig)
  (templates : gmap string string) (profile : ptr) (templateName : string) :
  preserves extends (messaging.SendMessage cfg limits templates profile templateName).
Proof. unfold messaging.SendMessage. frames. Qed.

#[export] Hint Resolve extends_SendMessage : frames.

Lemma extends_bulkLoop (cfg : config.StealthConfig) (limits : config.LimitsConfig)
  (templates : gmap string string) (profiles : list ptr) (templateName : string)
  (sent failed : Z) :
  preserves extends (messaging.bulkLoop cfg limits templates profiles templateName sent failed).
Proof.
  revert sent failed.
  induction profiles as [|profile rest IH]; intros sent failed; simpl; frames.
Qed.

#[export] Hint Resolve extends_bulkLoop : frames.

Lemma extends_SendBulkMessages (cfg : config.StealthConfig) (limits : config.LimitsConfig)
  (templates : gmap string string) (profiles : list ptr) (templateName : string) :
  preserves extends (messaging.SendBulkMessages cfg limits templates profiles templateName).
Proof. unfold messaging.SendBulkMessages. frames. Qed.

Lemma extends_unmessagedOf (accepted : list ptr) :
  preserves extends (messaging.unmessagedOf accepted).
Proof. induction accepted as [|profile rest IH]; simpl; frames. Qed.

#[export] Hint Resolve extends_SendBulkMessages extends_unmessagedOf : frames.

Lemma extends_ProcessAcceptedConnections (cfg : config.StealthConfig)
  (limits : config.LimitsConfig) (templates : gmap string string) :
  preserves extends (messaging.ProcessAcceptedConnections cfg limits templates).
Proof. unfold messaging.ProcessAcceptedConnections. frames. Qed.

Lemma extends_messaging_CanSendMore (limits : config.LimitsConfig) :
  preserves extends (messaging.CanSendMore limits).
Proof. unfold messaging.CanSendMore. frames. Qed.

#[export] Hint Resolve extends_ProcessAcceptedConnections extends_messaging_CanSendMore
  : frames.

Lemma extends_void {A : Type} (m : M A) :
  preserves extends m -> preserves extends (system.void m).
Proof. intros Hm. unfold system.void. frames. Qed.

Lemma keepAfter_filter (cutoff : Time) (logs : list ActionLog) :
  storage.keepAfter cutoff logs =
  List.filter (fun log => cutoff <? Timestamp log) logs.
Proof.
  induction logs as [|log rest IH]; simpl; [reflexivity|].
  unfold gotime.After. rewrite IH. reflexivity.
Qed.

Lemma CleanOldLogs_effect (w : World) (retentionDays : Z) :
  exists e w',
    storage.CleanOldLogs retentionDays w = Returned e w' /\
    ledger w' =
      List.filter
        (fun log => gotime.AddDays (nextNow w) (goint.neg retentionDays) <? Timestamp log)
        (ledger w).
Proof.
  unfold storage.CleanOldLogs, mbind, M_bind. rewrite Now_eq. cbn [modify].
  set (w1 := with_data _ _).
  destruct (save_effect w1) as (e & w' & Hsave & _ & Hlogs & _).
  rewrite Hsave. exists e, w'. split; [reflexivity|].
  unfold ledger. rewrite Hlogs. unfold w1. cbn. apply keepAfter_filter.
Qed.

(** C7, as stated, fails at the horizon itself: a record whose timestamp is
    exactly the cutoff is not older than the horizon, and [CleanOldLogs]
    removes it, because it keeps a record only when
    [Timestamp.After(cutoff)]. *)
Lemma CleanOldLogs_removes_the_record_at_the_cutoff :
  let now := examples.at_ 10 0 in
  let old := examples.request (now - gotime.Day) true in
  let w := examples.world now [old; examples.request now true] [] in
  gotime.Before (Timestamp old) (gotime.AddDays (nextNow w) (goint.neg 1)) = false /\
  ledger (final (storage.CleanOldLogs 1 w)) = [examples.request now true].
Proof. vm_compute. split; reflexivity. Qed.

(** C7, amended: every operation of the system other than [CleanOldLogs]
    leaves the ledger it found as a prefix of the ledger it leaves, whether it
    returns or panics: no record is changed, removed or moved.
    [CleanOldLogs(d)] keeps exactly the records whose timestamp is strictly
    later than the cutoff, unchanged and in order, and removes those at or
    before it; the cutoff is [d] days before the time of the call (for any
    [d] from 0 to 10^9). *)
Theorem ledger_append_only (op : system.Operation) (w : World) :
  (system.isCleanOldLogs op = false -> extends w (final (system.run op w))) /\
  (forall d : Z, op = system.CleanOldLogs d ->
     let cutoff := gotime.AddDays (nextNow w) (goint.neg d) in
     ledger (final (system.run op w)) =
       List.filter (fun log => cutoff <? Timestamp log) (ledger w) /\
     (0 <= d <= 1000000000 -> cutoff = nextNow w - d * gotime.Day)).
Proof.
  split.
  - intros Hop. revert w.
    change (preserves extends (system.run op)).
    destruct op; try discriminate Hop; simpl system.run;
      try apply extends_void; eauto with frames typeclass_instances.
  - intros d -> cutoff. split.
    + simpl system.run. unfold system.void, mbind, M_bind.
      destruct (CleanOldLogs_effect w d) as (e & w' & Hrun & Hledger).
      rewrite Hrun. exact Hledger.
    + intros Hd. unfold cutoff, gotime.AddDays, goint.neg.
      rewrite wrap64_id; [lia|].
      unfold goint.is_int, goint.min_int, goint.max_int in *. lia.
Qed.

Lemma ledger_append_only_witness :
  extends (examples.world (examples.at_ 10 0) [examples.request (examples.at_ 9 0) true] [])
    (final (system.run (system.LogAction "connection" "p-alice" false (Some "timeout"))
              (examples.world (examples.at_ 10 0)
                 [examples.request (examples.at_ 9 0) true] []))).
Proof.
  exact (proj1 (ledger_append_only
                  (system.LogAction "connection" "p-alice" false (Some "timeout"))
                  (examples.world (examples.at_ 10 0)
                     [examples.request (examples.at_ 9 0) true] [])) eq_refl).
Defined.

(** ** A denied batch is a no-op *)

(** C1: when the number of successful "connection" records since local
    midnight has reached [ConnectionsPerDay], or the number in the last hour
    has reached [ConnectionsPerHour], [ProcessDailyConnections] returns nil
    and does nothing but read the clock: the store, the profiles behind the
    pointers (so the state and every timestamp of each discovered profile),
    and the ledger are as before, nothing is written to disk, and nothing
    sleeps. *)
Theorem ProcessDailyConnections_denied (cfg : config.StealthConfig)
  (limits : config.LimitsConfig) (w : World) :
  let w1 := afterNow w in
  let today :=
    tally (counted "connection" (gotime.startOfDay (zone w) (nextNow w1))) (ledger w) in
  let lastHour :=
    tally (counted "connection" (nextNow (afterNow w1) - gotime.Hour)) (ledger w) in
  config.ConnectionsPerDay limits <= today \/
  config.ConnectionsPerHour limits <= lastHour ->
  exists w',
    connect.ProcessDailyConnections cfg limits w = Returned None w' /\
    ledger w' = ledger w /\
    data w' = data w /\
    heap w' = heap w /\
    (forall (profile : ptr) (p : Profile),
       heap w !! profile = Some p -> State p = StateDiscovered ->
       heap w' !! profile = Some p) /\
    writes w' = writes w /\
    sleeps w' = sleeps w /\
    lastActionTime w' = lastActionTime w /\
    rng w' = rng w.
Proof.
  cbv zeta. intros Hdenied.
  unfold connect.ProcessDailyConnections, mbind, M_bind, mret, M_ret.
  rewrite Now_eq, GetActionCountToday_eq, GetActionCountLastHour_eq.
  change (ActionLogs (data (afterNow (afterNow w)))) with (ledger w).
  change (ActionLogs (data (afterNow w))) with (ledger w).
  change (zone (afterNow w)) with (zone w).
  destruct (_ >=? config.ConnectionsPerDay limits) eqn:Hday.
  - rewrite Now_eq. eexists. split; [reflexivity|].
    repeat split; try reflexivity. intros profile p Hp _. exact Hp.
  - destruct (_ >=? config.ConnectionsPerHour limits) eqn:Hhour.
    + eexists. split; [reflexivity|].
      repeat split; try reflexivity. intros profile p Hp _. exact Hp.
    + rewrite Z.geb_leb, Z.leb_gt in Hday, Hhour. lia.
Qed.

Lemma ProcessDailyConnections_denied_witness :
  let w := examples.world (examples.at_ 10 0)
             [examples.request (examples.at_ 9 0) true;
              examples.request (examples.at_ 9 30) true] [] in
  exists w',
    connect.ProcessDailyConnections config.defaultStealth examples.twoADay w =
      Returned None w' /\
    ledger w' = ledger w /\ heap w' !! 1%positive = Some examples.alice.
Proof.
  intros w.
  destruct (ProcessDailyConnections_denied config.defaultStealth examples.twoADay w)
    as (w' & Hrun & Hledger & _ & _ & Hprofiles & _).
  - left. vm_compute. discriminate.
  - exists w'. split; [exact Hrun|]. split; [exact Hledger|].
    apply Hprofiles; reflexivity.
Defined.

(** ** Messages go to connections only *)

(** C10: for a profile whose state is neither accepted nor cooled_down,
    [SendMessage] returns an error and leaves the store as it was: no
    [Message] is created, no record is appended to the ledger, no profile is
    touched and nothing is written to disk. Conversely, when [SendMessage]
    returns nil, the profile was accepted or cooled_down and the number of
    successful "message" records since local midnight was below
    [MessagesPerDay]. *)
Theorem SendMessage_refuses (cfg : config.StealthConfig) (limits : config.LimitsConfig)
  (templates : gmap string string) (profile : ptr) (templateName : string)
  (p : Profile) (w : World) :
  heap w !! profile = Some p ->
  let today :=
    tally (counted "message" (gotime.startOfDay (zone w) (nextNow (afterNow w))))
      (ledger w) in
  (State p <> StateAccepted -> State p <> StateCooledDown ->
   exists msg w',
     messaging.SendMessage cfg limits templates profile templateName w =
       Returned (Some msg) w' /\
     Messages (data w') = Messages (data w) /\
     ledger w' = ledger w /\
     data w' = data w /\
     heap w' = heap w /\
     writes w' = writes w) /\
  (forall w',
     messaging.SendMessage cfg limits templates profile templateName w =
       Returned None w' ->
     (State p = StateAccepted \/ State p = StateCooledDown) /\
     today < config.MessagesPerDay limits).
Proof.
  intros Hp. cbv zeta.
  remember (messaging.SendMessage cfg limits templates profile templateName w)
    as out eqn:Hout.
  unfold messaging.SendMessage in Hout.
  unfold mbind at 1, M_bind at 1 in Hout. unfold deref at 1 in Hout. rewrite Hp in Hout.
  unfold mbind at 1, M_bind at 1 in Hout. rewrite Now_eq in Hout.
  unfold mbind at 1, M_bind at 1 in Hout. rewrite GetActionCountToday_eq in Hout.
  change (ActionLogs (data (afterNow w))) with (ledger w) in Hout.
  change (zone (afterNow w)) with (zone w) in Hout.
  destruct (_ >=? config.MessagesPerDay limits) eqn:Hlimit in Hout.
  - cbv [mret M_ret] in Hout. subst out. split.
    + intros _ _. eexists _, _. split; [reflexivity|]. repeat split; reflexivity.
    + intros w' Hrun. discriminate Hrun.
  - rewrite Z.geb_leb, Z.leb_gt in Hlimit.
    destruct (String.eqb (State p) StateAccepted) eqn:Haccepted;
      [|destruct (String.eqb (State p) StateCooledDown) eqn:Hcooled];
      cbn [negb andb] in Hout.
    + apply String.eqb_eq in Haccepted. split; [congruence|]. intros w' _. auto.
    + apply String.eqb_eq in Hcooled. split; [congruence|]. intros w' _. auto.
    + cbv [mret M_ret] in Hout. subst out. split.
      * intros _ _. eexists _, _. split; [reflexivity|]. repeat split; reflexivity.
      * intros w' Hrun. discriminate Hrun.
Qed.

Lemma SendMessage_refuses_witness :
  let w := examples.world (examples.at_ 10 0) [] [] in
  exists msg w',
    messaging.SendMessage config.defaultStealth config.defaultLimits
      messaging.defaultTemplates 1%positive "follow_up" w = Returned (Some msg) w' /\
    Messages (data w') = Messages (data w) /\ ledger w' = ledger w.
Proof.
  intros w.
  destruct (SendMessage_refuses config.defaultStealth config.defaultLimits
              messaging.defaultTemplates 1%positive "follow_up" examples.alice w
              eq_refl) as [Hrefuse _].
  destruct Hrefuse as (msg & w' & Hrun & Hmsgs & Hledger & _);
    [discriminate | discriminate |].
  exists msg, w'. auto.
Defined.

(** The refusal names the state, and an accepted profile can be messaged. *)
Example SendMessage_alice :
  messaging.SendMessage config.defaultStealth config.defaultLimits
    messaging.defaultTemplates 1%positive "follow_up"
    (examples.world (examples.at_ 10 0) [] []) =
  Returned (Some "cannot message profile in state: discovered")
    (afterNow (afterNow (examples.world (examples.at_ 10 0) [] []))).
Proof. vm_compute. reflexivity. Qed.

Example SendMessage_bob :
  let w' := final (messaging.SendMessage config.defaultStealth config.defaultLimits
                     messaging.defaultTemplates 2%positive "follow_up_short"
                     (examples.world (examples.at_ 10 0) [] [])) in
  length (ledger w') = 1%nat /\ size (Messages (data w')) = 1%nat.
Proof. vm_compute. split; reflexivity. Qed.

(** ** A request that fails *)

Lemma bind_Returned {A B : Type} (m : M A) (f : A -> M B) (w w' : World) (b : B) :
  (m ≫= f) w = Returned b w' ->
  exists a w1, m w = Returned a w1 /\ f a w1 = Returned b w'.
Proof.
  unfold mbind, M_bind. destruct (m w) as [a w1|msg w1]; [|discriminate].
  intros H. exists a, w1. split; [reflexivity|exact H].
Qed.




Lemma SaveProfile_effect (profile : ptr) (p : Profile) (w : World) :
  heap w !! profile = Some p ->
  exists e w',
    storage.SaveProfile profile w = Returned e w' /\
    e = hd None (disk w) /\
    ledger w' = ledger w /\
    Profiles (data w') = <[ID p := profile]> (Profiles (data w)) /\
    Messages (data w') = Messages (data w) /\
    heap w' = heap w /\
    lastActionTime w' = lastActionTime w /\
    sleeps w' = sleeps w.
Proof.
  intros Hp. unfold storage.SaveProfile, mbind, M_bind, deref. rewrite Hp.
  cbn [modify]. set (w1 := with_data _ _).
  destruct (save_effect w1) as (e & w' & Hsave & He & Hlogs & Hprof & Hmsg & Hheap & Hlast & Hsl & _).
  rewrite Hsave. exists e, w'. split; [reflexivity|].
  unfold ledger. rewrite Hlogs, Hprof, Hmsg, Hheap, Hlast, Hsl.
  repeat split; try reflexivity. exact He.
Qed.


(** [ProcessDailyConnections] never reports an error: whatever happened to
    the requests, it returns nil when it returns. *)
Lemma ProcessDailyConnections_returns_nil (cfg : config.StealthConfig)
  (limits : config.LimitsConfig) (w w' : World) (e : error) :
  connect.ProcessDailyConnections cfg limits w = Returned e w' -> e = None.
Proof.
  intros H. unfold connect.ProcessDailyConnections in H.
  apply bind_Returned in H as (_ & ? & _ & H).
  apply bind_Returned in H as (today & ? & _ & H).
  apply bind_Returned in H as (lastHour & ? & _ & H).
  destruct (today >=? _).
  { apply bind_Returned in H as (_ & ? & _ & H). cbv [mret M_ret] in H. congruence. }
  destruct (lastHour >=? _).
  { cbv [mret M_ret] in H. congruence. }
  apply bind_Returned in H as (candidates & ? & _ & H).
  destruct (length candidates =? 0)%nat.
  { cbv [mret M_ret] in H. congruence. }
  apply bind_Returned in H as (_ & ? & _ & H). cbv [mret M_ret] in H. congruence.
Qed.




(** ** The curve at its ends *)

Lemma one_eq : float64.of_int 1 = S754_finite false 4503599627370496 (-52).
Proof. reflexivity. Qed.

Lemma digits2_xO (p : positive) :
  Z.pos (digits2_pos p~0) = Z.pos (digits2_pos p) + 1.
Proof. cbn [digits2_pos]. lia. Qed.

Lemma mul_one_finite (s : bool) (m : positive) (e : Z) :
  float64.is_float64 (S754_finite s m e) = true ->
  float64.mul (float64.of_int 1) (S754_finite s m e) = S754_finite s m e.
Proof.
  unfold float64.is_float64, valid_binary, bounded, canonical_mantissa.
  intros H. apply andb_true_iff in H as [Hcanon Hmax].
  apply Z.eqb_eq in Hcanon.
  rewrite one_eq. unfold float64.mul, SFmul.
  cbn [xorb].
  set (m52 := (4503599627370496 * m)%positive).
  assert (Hdigits : Z.pos (digits2_pos m52) = Z.pos (digits2_pos m) + 52)
    by (unfold m52; cbv [Pos.mul]; rewrite !digits2_xO; lia).
  assert (Hshift : SpecFloat.iter_pos shr_1 52 (Build_shr_record (Z.pos m52) false false) =
                   Build_shr_record (Z.pos m) false false) by reflexivity.
  unfold binary_round_aux, shr_fexp.
  cbn [Zdigits2 shr_record_of_loc]. rewrite Hdigits.
  replace (Z.pos (digits2_pos m) + 52 + (-52 + e)) with (Z.pos (digits2_pos m) + e) by lia.
  rewrite Hcanon. replace (e - (-52 + e)) with 52 by lia.
  cbn [shr]. rewrite Hshift.
  cbn [shr_m loc_of_shr_record round_nearest_even Zdigits2 shr_record_of_loc].
  replace (-52 + e + 52) with e by lia.
  rewrite Hcanon, Z.sub_diag. cbn [shr shr_m]. rewrite Hmax. reflexivity.
Qed.

Lemma mul_one (x : float64) : finite x -> float64.mul (float64.of_int 1) x = x.
Proof.
  intros [Hfin Hvalid]. destruct x as [s|s| |s m e]; try discriminate Hfin.
  - reflexivity.
  - apply mul_one_finite, Hvalid.
Qed.

Lemma mul_zero (x : float64) :
  finite x -> exists s, float64.mul (S754_zero false) x = S754_zero s.
Proof.
  intros [Hfin _]. destruct x as [s|s| |s m e]; try discriminate Hfin;
    eexists; reflexivity.
Qed.

Lemma eqb_refl (x : float64) : float64.is_finite x = true -> float64.eqb x x = true.
Proof.
  destruct x as [s|s| |s m e]; try discriminate; intros _; [reflexivity|].
  unfold float64.eqb, SFeqb, SFcompare.
  rewrite Z.compare_refl. fold (Pos.compare m m). rewrite Pos.compare_refl.
  destruct s; reflexivity.
Qed.

(** A sum in which every term but the first is a zero. *)
Lemma blend_first (a : float64) (s1 s2 s3 : bool) :
  float64.is_finite a = true ->
  float64.eqb
    (float64.add (float64.add (float64.add a (S754_zero s1)) (S754_zero s2))
       (S754_zero s3)) a = true.
Proof.
  intros Hfin. destruct a as [s|s| |s m e]; try discriminate Hfin.
  - destruct s, s1, s2, s3; reflexivity.
  - cbn [float64.add SFadd]. apply eqb_refl. reflexivity.
Qed.

(** A sum in which every term but the last is a zero. *)
Lemma blend_last (d : float64) (s0 s1 s2 : bool) :
  float64.is_finite d = true ->
  float64.eqb
    (float64.add
       (float64.add (float64.add (S754_zero s0) (S754_zero s1)) (S754_zero s2)) d)
    d = true.
Proof.
  intros Hfin. destruct d as [s|s| |s m e]; try discriminate Hfin.
  - destruct s, s0, s1, s2; reflexivity.
  - destruct s0, s1, s2; cbn [float64.add SFadd]; apply eqb_refl; reflexivity.
Qed.

Lemma coordinate_at_0 (a b c d : float64) :
  finite a -> finite b -> finite c -> finite d ->
  let t := float64.of_int 0 in
  let three := float64.of_int 3 in
  let u := float64.sub (float64.of_int 1) t in
  let tt := float64.mul t t in
  let uu := float64.mul u u in
  let uuu := float64.mul uu u in
  let ttt := float64.mul tt t in
  float64.eqb
    (float64.add
       (float64.add
          (float64.add (float64.mul uuu a)
             (float64.mul (float64.mul (float64.mul three uu) t) b))
          (float64.mul (float64.mul (float64.mul three u) tt) c))
       (float64.mul ttt d)) a = true.
Proof.
  intros Ha Hb Hc Hd t three u tt uu uuu ttt.
  change uuu with (float64.of_int 1).
  change (float64.mul (float64.mul three uu) t) with (S754_zero false).
  change (float64.mul (float64.mul three u) tt) with (S754_zero false).
  change ttt with (S754_zero false).
  rewrite (mul_one a Ha).
  destruct (mul_zero b Hb) as [sb ->], (mul_zero c Hc) as [sc ->],
    (mul_zero d Hd) as [sd ->].
  apply blend_first, Ha.
Qed.

Lemma coordinate_at_1 (a b c d : float64) :
  finite a -> finite b -> finite c -> finite d ->
  let t := float64.of_int 1 in
  let three := float64.of_int 3 in
  let u := float64.sub (float64.of_int 1) t in
  let tt := float64.mul t t in
  let uu := float64.mul u u in
  let uuu := float64.mul uu u in
  let ttt := float64.mul tt t in
  float64.eqb
    (float64.add
       (float64.add
          (float64.add (float64.mul uuu a)
             (float64.mul (float64.mul (float64.mul three uu) t) b))
          (float64.mul (float64.mul (float64.mul three u) tt) c))
       (float64.mul ttt d)) d = true.
Proof.
  intros Ha Hb Hc Hd t three u tt uu uuu ttt.
  change uuu with (S754_zero false).
  change (float64.mul (float64.mul three uu) t) with (S754_zero false).
  change (float64.mul (float64.mul three u) tt) with (S754_zero false).
  change ttt with (float64.of_int 1).
  rewrite (mul_one d Hd).
  destruct (mul_zero a Ha) as [sa ->], (mul_zero b Hb) as [sb ->],
    (mul_zero c Hc) as [sc ->].
  apply blend_last, Hd.
Qed.

(** C8, as stated, fails: with an infinite coordinate in [P1] the term
    [3*uu*t*p1.X] is [0 * Inf], a NaN, and so is the curve at [t = 0]. *)
Lemma cubicBezier_not_P0_with_infinite_P1 :
  let origin := {| stealth.X := float64.of_int 0; stealth.Y := float64.of_int 0 |} in
  let far := {| stealth.X := S754_infinity false; stealth.Y := float64.of_int 0 |} in
  float64.is_float64 (stealth.X far) = true /\
  fst (stealth.cubicBezier origin far origin origin (float64.of_int 0)) = S754_nan /\
  float64.eqb (fst (stealth.cubicBezier origin far origin origin (float64.of_int 0)))
    (stealth.X origin) = false.
Proof. vm_compute. repeat split; reflexivity. Qed.

(** C8, amended: for all control points P0, P1, P2, P3 whose coordinates are
    finite numbers, the curve at [t = 0] equals P0 and at [t = 1] equals P3,
    coordinate by coordinate, under the [==] of [float64] (which does not tell
    the two zeros apart). Every product and sum is rounded on its own. *)
Theorem cubicBezier_endpoints (p0 p1 p2 p3 : stealth.Point) :
  finitePoint p0 -> finitePoint p1 -> finitePoint p2 -> finitePoint p3 ->
  let b0 := stealth.cubicBezier p0 p1 p2 p3 (float64.of_int 0) in
  let b1 := stealth.cubicBezier p0 p1 p2 p3 (float64.of_int 1) in
  float64.eqb (fst b0) (stealth.X p0) = true /\
  float64.eqb (snd b0) (stealth.Y p0) = true /\
  float64.eqb (fst b1) (stealth.X p3) = true /\
  float64.eqb (snd b1) (stealth.Y p3) = true.
Proof.
  intros [Hx0 Hy0] [Hx1 Hy1] [Hx2 Hy2] [Hx3 Hy3]. cbv zeta.
  unfold stealth.cubicBezier. cbn [fst snd].
  split; [|split; [|split]].
  - apply coordinate_at_0; assumption.
  - apply coordinate_at_0; assumption.
  - apply coordinate_at_1; assumption.
  - apply coordinate_at_1; assumption.
Qed.

Lemma cubicBezier_endpoints_witness :
  let p0 := {| stealth.X := float64.of_int 100; stealth.Y := float64.of_int 200 |} in
  let p1 := {| stealth.X := float64.of_ratio 3105 10; stealth.Y := float64.of_int (-7) |} in
  let p2 := {| stealth.X := float64.of_int 0; stealth.Y := float64.of_ratio 1 3 |} in
  let p3 := {| stealth.X := float64.of_int 800; stealth.Y := float64.of_int 400 |} in
  float64.eqb (fst (stealth.cubicBezier p0 p1 p2 p3 (float64.of_int 0))) (stealth.X p0) = true /\
  float64.eqb (snd (stealth.cubicBezier p0 p1 p2 p3 (float64.of_int 1))) (stealth.Y p3) = true.
Proof.
  intros p0 p1 p2 p3.
  assert (H0 : finitePoint p0) by (repeat split; vm_compute; reflexivity).
  assert (H1 : finitePoint p1) by (repeat split; vm_compute; reflexivity).
  assert (H2 : finitePoint p2) by (repeat split; vm_compute; reflexivity).
  assert (H3 : finitePoint p3) by (repeat split; vm_compute; reflexivity).
  destruct (cubicBezier_endpoints p0 p1 p2 p3 H0 H1 H2 H3) as (Hfirst & _ & _ & Hlast).
  split; [exact Hfirst|exact Hlast].
Defined.

(** ** Ranging over a map *)

Lemma pick_Permutation {A : Type} (n : nat) (choices : list nat) (l : list A) :
  length l = n -> pick n choices l ≡ₚ l.
Proof.
  revert choices l. induction n as [|n IH]; intros choices l Hlen.
  - destruct l; [reflexivity|discriminate].
  - cbn [pick].
    assert (Hi : (hd 0 choices mod length l < length l)%nat)
      by (apply Nat.mod_upper_bound; lia).
    destruct (lookup_lt_is_Some_2 l _ Hi) as [x Hx]. rewrite Hx.
    transitivity (x :: delete (hd 0 choices mod length l)%nat l).
    + constructor. apply IH. rewrite length_delete by eauto. lia.
    + symmetry. apply delete_Permutation, Hx.
Qed.

Lemma rangeMap_Permutation {V : Type} (m : gmap string V) (w : World) :
  exists entries,
    rangeMap m w = Returned entries (afterRange (size m) w) /\
    entries ≡ₚ map_to_list m.
Proof.
  unfold rangeMap, afterRange. rewrite length_map_to_list.
  eexists. split; [reflexivity|].
  rewrite <- (length_map_to_list m). apply pick_Permutation. reflexivity.
Qed.

(** ** Profiles and messages in the store *)

Lemma deref_Some (profile : ptr) (p : Profile) (w : World) :
  heap w !! profile = Some p -> deref profile w = Returned p w.
Proof. intros Hp. unfold deref. rewrite Hp. reflexivity. Qed.

Lemma selectByState_filter (state : ProfileState) (entries : list (string * ptr))
  (w : World) :
  (forall entry, entry ∈ entries -> is_Some (heap w !! entry.2)) ->
  storage.selectByState state entries w =
  Returned (filter (fun profile => hasState w state profile = true) (entries.*2)) w.
Proof.
  induction entries as [|[id profile] rest IH]; intros Hlive.
  - reflexivity.
  - cbn [storage.selectByState]. unfold mbind at 1, M_bind at 1.
    destruct (Hlive (id, profile)) as [p Hp]; [left|]. cbn [snd] in Hp.
    rewrite (deref_Some _ _ _ Hp).
    unfold mbind at 1, M_bind at 1. rewrite IH by (intros; apply Hlive; right; done).
    cbn [fmap list_fmap snd]. rewrite filter_cons. unfold mret, M_ret.
    assert (Hstate : hasState w state profile = String.eqb (State p) state)
      by (unfold hasState; rewrite Hp; reflexivity).
    destruct (String.eqb (State p) state);
      [rewrite decide_True by done|rewrite decide_False by (rewrite Hstate; done)];
      reflexivity.
Qed.

Lemma live_entries (w : World) (entries : list (string * ptr)) :
  live w -> entries ≡ₚ map_to_list (Profiles (data w)) ->
  forall entry, entry ∈ entries -> is_Some (heap w !! entry.2).
Proof.
  intros Hlive Hperm [id profile] Hin. rewrite Hperm in Hin.
  apply elem_of_map_to_list in Hin. exact (Hlive id profile Hin).
Qed.

Lemma GetProfilesByState_returns (state : ProfileState) (w : World) :
  live w ->
  exists profiles,
    storage.GetProfilesByState state w =
      Returned profiles (afterRange (size (Profiles (data w))) w) /\
    profiles ≡ₚ
      filter (fun profile => hasState w state profile = true)
        ((map_to_list (Profiles (data w))).*2).
Proof.
  intros Hlive. unfold storage.GetProfilesByState, mbind, M_bind, get.
  destruct (rangeMap_Permutation (Profiles (data w)) w) as (entries & Hrange & Hperm).
  rewrite Hrange.
  rewrite (selectByState_filter state entries (afterRange _ w))
    by (apply (live_entries w entries Hlive Hperm)).
  eexists. split; [reflexivity|].
  change (hasState (afterRange (size (Profiles (data w))) w)) with (hasState w).
  rewrite Hperm. reflexivity.
Qed.

Lemma elem_of_stored (state : ProfileState) (w : World) (profile : ptr) :
  profile ∈ filter (fun profile => hasState w state profile = true)
              ((map_to_list (Profiles (data w))).*2) <->
  exists id p,
    Profiles (data w) !! id = Some profile /\ heap w !! profile = Some p /\
    State p = state.
Proof.
  rewrite list_elem_of_filter, list_elem_of_fmap. unfold hasState. split.
  - intros [Hstate ([id profile'] & -> & Hin)]. cbn [snd] in *.
    apply elem_of_map_to_list in Hin.
    destruct (heap w !! profile') as [p|]; [|discriminate].
    exists id, p. apply String.eqb_eq in Hstate. auto.
  - intros (id & p & Hid & Hp & Hstate). rewrite Hp. split.
    + apply String.eqb_eq, Hstate.
    + exists (id, profile). split; [reflexivity|]. apply elem_of_map_to_list, Hid.
Qed.

(** [GetProfilesByState] returns the stored pointers whose profile is in the
    state asked, each as many times as it is stored, in the order in which the
    map happens to be visited; it changes nothing but that order. *)
Theorem GetProfilesByState_spec (state : ProfileState) (w : World) :
  live w ->
  exists profiles,
    storage.GetProfilesByState state w =
      Returned profiles (afterRange (size (Profiles (data w))) w) /\
    profiles ≡ₚ
      filter (fun profile => hasState w state profile = true)
        ((map_to_list (Profiles (data w))).*2) /\
    (forall profile,
       profile ∈ profiles <->
       exists id p,
         Profiles (data w) !! id = Some profile /\ heap w !! profile = Some p /\
         State p = state).
Proof.
  intros Hlive.
  destruct (GetProfilesByState_returns state w Hlive) as (profiles & Hrun & Hperm).
  exists profiles. split; [exact Hrun|]. split; [exact Hperm|].
  intros profile. rewrite Hperm. apply elem_of_stored.
Qed.

Lemma examples_live (now : Time) (logs : list ActionLog) (failures : list error) :
  live (examples.world now logs failures).
Proof.
  intros id profile Hid. cbn in Hid.
  apply lookup_insert_Some in Hid as [[_ <-]|[_ Hid]]; [eexists; reflexivity|].
  apply lookup_insert_Some in Hid as [[_ <-]|[_ Hid]]; [eexists; reflexivity|].
  rewrite lookup_empty in Hid. discriminate.
Qed.

Lemma GetProfilesByState_spec_witness :
  exists profiles,
    storage.GetProfilesByState StateAccepted (examples.world (examples.at_ 10 0) [] []) =
      Returned profiles
        (afterRange 2 (examples.world (examples.at_ 10 0) [] [])) /\
    (2%positive ∈ profiles).
Proof.
  destruct (GetProfilesByState_spec StateAccepted
              (examples.world (examples.at_ 10 0) [] [])
              (examples_live _ _ _)) as (profiles & Hrun & _ & Hin).
  exists profiles. split; [exact Hrun|].
  apply Hin. exists "p-bob", examples.bob. repeat split; reflexivity.
Defined.

Lemma findURL_existsb (profileURL : string) (entries : list (string * ptr)) (w : World) :
  (forall entry, entry ∈ entries -> is_Some (heap w !! entry.2)) ->
  exists found : bool,
    storage.findURL profileURL entries w = Returned found w /\
    (found = true <->
     exists entry p,
       entry ∈ entries /\ heap w !! entry.2 = Some p /\ ProfileURL p = profileURL).
Proof.
  induction entries as [|[id profile] rest IH]; intros Hlive.
  - exists false. split; [reflexivity|]. split; [discriminate|].
    intros (entry & p & Hin & _). inversion Hin.
  - cbn [storage.findURL]. unfold mbind at 1, M_bind at 1.
    destruct (Hlive (id, profile)) as [p Hp]; [left|]. cbn [snd] in Hp.
    rewrite (deref_Some _ _ _ Hp).
    destruct (String.eqb (ProfileURL p) profileURL) eqn:Hurl.
    + exists true. split; [reflexivity|]. split; [|reflexivity]. intros _.
      exists (id, profile), p. apply String.eqb_eq in Hurl. split; [left|]; auto.
    + destruct IH as (found & Hrun & Hfound); [intros; apply Hlive; right; done|].
      exists found. split; [exact Hrun|]. rewrite Hfound. split.
      * intros (entry & q & Hin & Hq). exists entry, q. split; [right|]; auto.
      * intros (entry & q & Hin & Hq & Hqurl).
        apply elem_of_cons in Hin as [->|Hin]; [|eauto].
        cbn [snd] in Hq. rewrite Hp in Hq. injection Hq as <-.
        apply String.eqb_neq in Hurl. contradiction.
Qed.

(** [ProfileExists] answers true exactly when some stored profile has the
    URL asked, in whatever order the map is visited; it changes nothing but
    that order. *)
Theorem ProfileExists_spec (profileURL : string) (w : World) :
  live w ->
  exists found : bool,
    storage.ProfileExists profileURL w =
      Returned found (afterRange (size (Profiles (data w))) w) /\
    (found = true <->
     exists id profile p,
       Profiles (data w) !! id = Some profile /\ heap w !! profile = Some p /\
       ProfileURL p = profileURL).
Proof.
  intros Hlive. unfold storage.ProfileExists, mbind, M_bind, get.
  destruct (rangeMap_Permutation (Profiles (data w)) w) as (entries & Hrange & Hperm).
  rewrite Hrange.
  destruct (findURL_existsb profileURL entries (afterRange (size (Profiles (data w))) w))
    as (found & Hrun & Hfound); [apply (live_entries w entries Hlive Hperm)|].
  exists found. split; [exact Hrun|]. rewrite Hfound.
  change (heap (afterRange (size (Profiles (data w))) w)) with (heap w). split.
  - intros ([id profile] & p & Hin & Hp & Hurl). rewrite Hperm in Hin.
    apply elem_of_map_to_list in Hin. exists id, profile, p. auto.
  - intros (id & profile & p & Hid & Hp & Hurl). exists (id, profile), p.
    split; [|auto]. rewrite Hperm. apply elem_of_map_to_list, Hid.
Qed.

Lemma ProfileExists_spec_witness :
  exists found : bool,
    storage.ProfileExists "https://example.org/in/bob"
      (examples.world (examples.at_ 10 0) [] []) =
      Returned found (afterRange 2 (examples.world (examples.at_ 10 0) [] [])) /\
    found = true.
Proof.
  destruct (ProfileExists_spec "https://example.org/in/bob"
              (examples.world (examples.at_ 10 0) [] [])
              (examples_live _ _ _)) as (found & Hrun & Hfound).
  exists found. split; [exact Hrun|]. apply Hfound.
  exists "p-bob", 2%positive, examples.bob. repeat split; reflexivity.
Defined.

(** A profile saved is found again under its ID, whether or not the file
    could be written, and no other entry of the store moves. *)
Theorem SaveProfile_GetProfile (profile : ptr) (p : Profile) (w : World) :
  heap w !! profile = Some p ->
  exists e w',
    storage.SaveProfile profile w = Returned e w' /\
    e = hd None (disk w) /\
    storage.GetProfile (ID p) w' = Returned (Some profile, None) w' /\
    (forall id, id <> ID p -> Profiles (data w') !! id = Profiles (data w) !! id) /\
    heap w' = heap w.
Proof.
  intros Hp.
  destruct (SaveProfile_effect profile p w Hp)
    as (e & w' & Hrun & He & _ & Hprofiles & _ & Hheap & _).
  exists e, w'. split; [exact Hrun|]. split; [exact He|]. split; [|split].
  - unfold storage.GetProfile, mbind, M_bind, get.
    rewrite Hprofiles, lookup_insert_eq. reflexivity.
  - intros id Hid. rewrite Hprofiles. apply lookup_insert_ne. congruence.
  - exact Hheap.
Qed.

Lemma SaveProfile_GetProfile_witness :
  exists e w',
    storage.SaveProfile 1%positive
      (examples.world (examples.at_ 10 0) [] [Some "disk full"]) = Returned e w' /\
    e = Some "disk full" /\
    storage.GetProfile "p-alice" w' = Returned (Some 1%positive, None) w'.
Proof.
  destruct (SaveProfile_GetProfile 1%positive examples.alice
              (examples.world (examples.at_ 10 0) [] [Some "disk full"]) eq_refl)
    as (e & w' & Hrun & He & Hget & _).
  exists e, w'. auto.
Defined.

(** A profile that was never saved is not found: [GetProfile] returns no
    pointer and an error that names the ID, and a profile saved under another
    ID does not change that. *)
Theorem GetProfile_missing (id : string) (profile : ptr) (p : Profile) (w : World) :
  Profiles (data w) !! id = None -> heap w !! profile = Some p -> ID p <> id ->
  storage.GetProfile id w = Returned (None, Some ("profile not found: " +:+ id)) w /\
  storage.GetProfile id (final (storage.SaveProfile profile w)) =
    Returned (None, Some ("profile not found: " +:+ id))
      (final (storage.SaveProfile profile w)).
Proof.
  intros Hid Hp Hne.
  destruct (SaveProfile_effect profile p w Hp)
    as (e & w' & Hrun & _ & _ & Hprofiles & _).
  rewrite Hrun. cbn [final]. unfold storage.GetProfile, mbind, M_bind, get.
  rewrite Hprofiles, lookup_insert_ne by congruence. rewrite Hid. split; reflexivity.
Qed.

Lemma GetProfile_missing_witness :
  storage.GetProfile "p-carol" (examples.world (examples.at_ 10 0) [] []) =
  Returned (None, Some "profile not found: p-carol")
    (examples.world (examples.at_ 10 0) [] []).
Proof.
  exact (proj1 (GetProfile_missing "p-carol" 1%positive examples.alice
                  (examples.world (examples.at_ 10 0) [] [])
                  eq_refl eq_refl ltac:(discriminate))).
Defined.

Lemma SaveMessage_effect (message : Message) (w : World) :
  exists e w',
    storage.SaveMessage message w = Returned e w' /\
    e = hd None (disk w) /\
    Messages (data w') = <[MsgID message := message]> (Messages (data w)) /\
    ledger w' = ledger w /\
    Profiles (data w') = Profiles (data w) /\
    heap w' = heap w.
Proof.
  unfold storage.SaveMessage, mbind, M_bind. cbn [modify]. set (w1 := with_data _ _).
  destruct (save_effect w1) as (e & w' & Hsave & He & Hlogs & Hprof & Hmsg & Hheap & _).
  rewrite Hsave. exists e, w'. split; [reflexivity|].
  unfold ledger. rewrite Hlogs, Hprof, Hmsg, Hheap. repeat split; try reflexivity.
  exact He.
Qed.

Lemma GetMessagesByProfile_filter (profileID : string) (w : World) :
  exists messages,
    storage.GetMessagesByProfile profileID w =
      Returned messages (afterRange (size (Messages (data w))) w) /\
    messages ≡ₚ
      filter (fun msg => String.eqb (MsgProfileID msg) profileID = true)
        ((map_to_list (Messages (data w))).*2).
Proof.
  unfold storage.GetMessagesByProfile, mbind, M_bind, get, mret, M_ret.
  destruct (rangeMap_Permutation (Messages (data w)) w) as (entries & Hrange & Hperm).
  rewrite Hrange. eexists. split; [reflexivity|]. rewrite Hperm. reflexivity.
Qed.

(** [GetMessagesByProfile] returns the stored messages of the profile asked
    and no other, each as often as it is stored, in the order in which the map
    happens to be visited; a message just saved is among those of its
    profile, whether or not the file could be written. *)
Theorem SaveMessage_GetMessagesByProfile (message : Message) (w : World) :
  exists e w1 messages,
    storage.SaveMessage message w = Returned e w1 /\
    e = hd None (disk w) /\
    storage.GetMessagesByProfile (MsgProfileID message) w1 =
      Returned messages (afterRange (size (Messages (data w1))) w1) /\
    messages ≡ₚ
      filter (fun msg => String.eqb (MsgProfileID msg) (MsgProfileID message) = true)
        ((map_to_list (Messages (data w1))).*2) /\
    message ∈ messages /\
    (forall msg,
       msg ∈ messages <->
       MsgProfileID msg = MsgProfileID message /\
       exists id, Messages (data w1) !! id = Some msg).
Proof.
  destruct (SaveMessage_effect message w) as (e & w1 & Hsave & He & Hmsgs & _).
  destruct (GetMessagesByProfile_filter (MsgProfileID message) w1)
    as (messages & Hget & Hperm).
  exists e, w1, messages. split; [exact Hsave|]. split; [exact He|].
  split; [exact Hget|]. split; [exact Hperm|].
  assert (Hin : forall msg,
            msg ∈ messages <->
            MsgProfileID msg = MsgProfileID message /\
            exists id, Messages (data w1) !! id = Some msg).
  { intros msg. rewrite Hperm, list_elem_of_filter, list_elem_of_fmap, String.eqb_eq.
    split.
    - intros [Hid ([id msg'] & -> & Hmsg)]. apply elem_of_map_to_list in Hmsg. eauto.
    - intros [Hid [id Hmsg]]. split; [exact Hid|].
      exists (id, msg). split; [reflexivity|]. apply elem_of_map_to_list, Hmsg. }
  split; [|exact Hin].
  apply Hin. split; [reflexivity|]. exists (MsgID message).
  rewrite Hmsgs. apply lookup_insert_eq.
Qed.

(** ** The ledger and the counts *)

(** A successful action that is logged is counted from then on: the count of
    its category since any instant before the time of the call goes up by
    one, the counts of the other categories stay, whether or not the file
    could be written. *)
Theorem LogAction_counted (action profileID : string) (err : error) (since : Time)
  (w : World) :
  since < nextNow w ->
  exists e w',
    storage.LogAction action profileID true err w = Returned e w' /\
    storage.GetActionCountSince action since w' =
      Returned (tally (counted action since) (ledger w) + 1) w' /\
    (forall other,
       other <> action ->
       storage.GetActionCountSince other since w' =
         Returned (tally (counted other since) (ledger w)) w').
Proof.
  intros Hsince.
  destruct (LogAction_effect w action profileID true err) as (e & w' & Hrun & Hlogs & _).
  exists e, w'. split; [exact Hrun|].
  assert (Hget : forall a,
            storage.GetActionCountSince a since w' =
            Returned (tally (counted a since) (ActionLogs (data w'))) w').
  { intros a. unfold storage.GetActionCountSince, mbind, M_bind, mret, M_ret, get.
    rewrite countSince_tally. reflexivity. }
  split.
  - rewrite Hget, Hlogs, tally_app. unfold ledger, tally at 2, counted.
    cbn [List.filter Action Success Timestamp]. rewrite String.eqb_refl.
    replace (since <? nextNow w) with true by (symmetry; apply Z.ltb_lt, Hsince).
    reflexivity.
  - intros other Hother. rewrite Hget, Hlogs, tally_app. unfold ledger, tally at 2, counted.
    cbn [List.filter Action Success Timestamp].
    replace (String.eqb action other) with false
      by (symmetry; apply String.eqb_neq; congruence).
    cbn. rewrite Z.add_0_r. reflexivity.
Qed.

Lemma LogAction_counted_witness :
  exists e w',
    storage.LogAction "connection" "p-alice" true None
      (examples.world (examples.at_ 10 0) [examples.request (examples.at_ 9 30) true] []) =
      Returned e w' /\
    storage.GetActionCountSince "connection" (examples.at_ 9 0) w' = Returned 2 w'.
Proof.
  destruct (LogAction_counted "connection" "p-alice" None (examples.at_ 9 0)
              (examples.world (examples.at_ 10 0)
                 [examples.request (examples.at_ 9 30) true] []))
    as (e & w' & Hrun & Hcount & _).
  - vm_compute. reflexivity.
  - exists e, w'. split; [exact Hrun|exact Hcount].
Defined.

Lemma counted_keepAfter (action : string) (since cutoff : Time) (logs : list ActionLog) :
  cutoff <= since ->
  tally (counted action since) (storage.keepAfter cutoff logs) =
  tally (counted action since) logs.
Proof.
  intros Hle. rewrite keepAfter_filter.
  induction logs as [|log rest IH]; [reflexivity|].
  unfold tally in *. cbn [List.filter].
  destruct (cutoff <? Timestamp log) eqn:Hkeep; cbn [List.filter].
  - destruct (counted action since log); cbn [length]; lia.
  - replace (counted action since log) with false; [exact IH|].
    unfold counted. apply Z.ltb_ge in Hkeep.
    replace (since <? Timestamp log) with false by (symmetry; apply Z.ltb_ge; lia).
    rewrite andb_false_r. reflexivity.
Qed.

(** Trimming the ledger does not change what the rate limiter sees: after
    [CleanOldLogs(d)] the count of every category since any instant at or
    after the cutoff is what it was. *)
Theorem CleanOldLogs_keeps_counts (retentionDays : Z) (action : string) (since : Time)
  (w : World) :
  gotime.AddDays (nextNow w) (goint.neg retentionDays) <= since ->
  exists e w',
    storage.CleanOldLogs retentionDays w = Returned e w' /\
    storage.GetActionCountSince action since w' =
      Returned (tally (counted action since) (ledger w)) w'.
Proof.
  intros Hsince.
  destruct (CleanOldLogs_effect w retentionDays) as (e & w' & Hrun & Hledger).
  exists e, w'. split; [exact Hrun|].
  unfold storage.GetActionCountSince, mbind, M_bind, mret, M_ret, get.
  rewrite countSince_tally. fold (ledger w'). rewrite Hledger, <- keepAfter_filter.
  rewrite counted_keepAfter by exact Hsince. reflexivity.
Qed.

Lemma CleanOldLogs_keeps_counts_witness :
  exists e w',
    storage.CleanOldLogs 1
      (examples.world (examples.at_ 10 0)
         [examples.request (examples.at_ 9 30) true] []) = Returned e w' /\
    storage.GetActionCountSince "connection" (examples.at_ 9 0) w' = Returned 1 w'.
Proof.
  destruct (CleanOldLogs_keeps_counts 1 "connection" (examples.at_ 9 0)
              (examples.world (examples.at_ 10 0)
                 [examples.request (examples.at_ 9 30) true] []))
    as (e & w' & Hrun & Hcount).
  - vm_compute. discriminate.
  - exists e, w'. split; [exact Hrun|exact Hcount].
Defined.

(** ** Waiting *)

(** After [EnforceCooldown(d)] has returned, at least [d] seconds separate
    the passage it grants from the one granted before; it sleeps once at
    most, for no longer than [d] seconds, and only as long as is needed when
    nothing else delays it. *)
Theorem EnforceCooldown_spacing (w : World) (actionType : string) (minDelaySeconds : Z) :
  lastActionTime w <> gotime.zeroTime ->
  lastActionTime w <= clock w ->
  0 <= minDelaySeconds <= 9223372036 ->
  exists w',
    stealth.EnforceCooldown actionType minDelaySeconds w = Returned tt w' /\
    lastActionTime w' = clock w' /\
    minDelaySeconds * gotime.Second <= lastActionTime w' - lastActionTime w /\
    (sleeps w' = sleeps w \/
     exists remaining,
       sleeps w' = sleeps w ++ [remaining] /\
       0 < remaining <= minDelaySeconds * gotime.Second /\
       nextNow w + remaining = lastActionTime w + minDelaySeconds * gotime.Second) /\
    heap w' = heap w /\ data w' = data w /\ writes w' = writes w /\ rng w' = rng w.
Proof.
  intros Hlast Hmono Hd.
  unfold stealth.EnforceCooldown, mbind, M_bind, get.
  replace (gotime.IsZero (lastActionTime w)) with false
    by (symmetry; apply Z.eqb_neq; exact Hlast).
  rewrite Now_eq.
  assert (Hreq : goint.mul minDelaySeconds gotime.Second = minDelaySeconds * gotime.Second).
  { unfold goint.mul, gotime.Second. apply wrap64_id.
    unfold goint.is_int, goint.min_int, goint.max_int. lia. }
  rewrite Hreq.
  assert (Hnow : clock w <= nextNow w) by (unfold nextNow; lia).
  destruct (gotime.Sub (nextNow w) (lastActionTime w) <? minDelaySeconds * gotime.Second)
    eqn:Hlt.
  - apply Z.ltb_lt in Hlt.
    assert (Hel : gotime.Sub (nextNow w) (lastActionTime w) = nextNow w - lastActionTime w).
    { revert Hlt. unfold gotime.Sub, gotime.minDuration, gotime.maxDuration,
        goint.min_int, goint.max_int, gotime.Second. lia. }
    rewrite Hel in *.
    assert (Hrem : goint.sub (minDelaySeconds * gotime.Second)
                     (nextNow w - lastActionTime w) =
                   minDelaySeconds * gotime.Second - (nextNow w - lastActionTime w)).
    { unfold goint.sub. apply wrap64_id.
      unfold goint.is_int, goint.min_int, goint.max_int, gotime.Second in *. lia. }
    rewrite Hrem. unfold Sleep.
    replace (_ - (nextNow w - lastActionTime w) <=? 0) with false
      by (symmetry; apply Z.leb_gt; lia).
    rewrite Now_eq. cbn [modify]. eexists. split; [reflexivity|].
    split; [reflexivity|]. split.
    + cbn. unfold nextNow at 1. cbn. lia.
    + split; [|repeat split; reflexivity].
      right. eexists. split; [reflexivity|]. split; lia.
  - apply Z.ltb_ge in Hlt. unfold mret, M_ret. rewrite Now_eq. cbn [modify].
    eexists. split; [reflexivity|]. split; [reflexivity|]. split.
    + cbn. unfold nextNow at 1. cbn.
      revert Hlt. unfold gotime.Sub, gotime.minDuration, gotime.maxDuration,
        goint.min_int, goint.max_int, gotime.Second. lia.
    + split; [left; reflexivity|repeat split; reflexivity].
Qed.

Lemma EnforceCooldown_spacing_witness :
  exists w',
    stealth.EnforceCooldown "connection" 600 spaced = Returned tt w' /\
    600 * gotime.Second <= lastActionTime w' - lastActionTime spaced.
Proof.
  destruct (EnforceCooldown_spacing spaced "connection" 600)
    as (w' & Hrun & _ & Hspace & _).
  - vm_compute. discriminate.
  - vm_compute. discriminate.
  - lia.
  - exists w'. split; [exact Hrun|exact Hspace].
Defined.

Lemma randomInt_returns (min max : Z) (w : World) :
  goint.is_int min -> goint.is_int max -> max - min < goint.max_int ->
  exists v,
    stealth.randomInt min max w =
      Returned v (if min >=? max then w else with_rng (tl (rng w)) w) /\
    (min <= max -> min <= v <= max) /\
    (max <= min -> v = min).
Proof.
  intros Hmin Hmax Hwidth. unfold stealth.randomInt.
  destruct (min >=? max) eqn:Hcmp.
  - exists min. apply Z.geb_le in Hcmp. repeat split; lia.
  - rewrite Z.geb_leb in Hcmp. apply Z.leb_gt in Hcmp.
    unfold goint.is_int, goint.min_int, goint.max_int in *.
    assert (Hsub : goint.sub max min = max - min).
    { apply wrap64_id. unfold goint.is_int, goint.min_int, goint.max_int. lia. }
    assert (Hn : goint.add (goint.sub max min) 1 = max - min + 1).
    { unfold goint.add. rewrite Hsub. apply wrap64_id.
      unfold goint.is_int, goint.min_int, goint.max_int. lia. }
    unfold mbind, M_bind, Intn. rewrite Hn.
    replace (max - min + 1 <=? 0) with false by (symmetry; apply Z.leb_gt; lia).
    pose proof (Z.mod_pos_bound (hd 0 (rng w)) (max - min + 1) ltac:(lia)) as Hv.
    eexists. split; [reflexivity|].
    assert (Hadd : goint.add min (hd 0 (rng w) mod (max - min + 1)) =
                   min + hd 0 (rng w) mod (max - min + 1)).
    { apply wrap64_id. unfold goint.is_int, goint.min_int, goint.max_int. lia. }
    rewrite Hadd. split; lia.
Qed.

(** A pause drawn between [min] and [max] milliseconds. *)
Lemma pause_spec (min max : Z) (w : World) :
  0 < min -> min <= max <= 9223372036854 ->
  exists delay w',
    (stealth.randomInt min max ≫= stealth.sleepMs) w = Returned tt w' /\
    min <= delay <= max /\
    sleeps w' = sleeps w ++ [delay * gotime.Millisecond] /\
    clock w' = clock w + delay * gotime.Millisecond /\
    heap w' = heap w /\ data w' = data w /\ writes w' = writes w /\
    lastActionTime w' = lastActionTime w.
Proof.
  intros Hpos Hrange.
  destruct (randomInt_returns min max w) as (v & Hrun & Hin & _);
    try (unfold goint.is_int, goint.min_int, goint.max_int; lia).
  unfold mbind, M_bind. rewrite Hrun.
  unfold stealth.sleepMs, Sleep.
  assert (Hms : goint.mul v gotime.Millisecond = v * gotime.Millisecond).
  { unfold goint.mul, gotime.Millisecond. apply wrap64_id.
    unfold goint.is_int, goint.min_int, goint.max_int. lia. }
  rewrite Hms.
  replace (v * gotime.Millisecond <=? 0) with false
    by (symmetry; apply Z.leb_gt; unfold gotime.Millisecond; lia).
  exists v. eexists. split; [reflexivity|]. split; [lia|].
  destruct (min >=? max); repeat split; reflexivity.
Qed.

(** [RandomDelay] and [ThinkingPause] sleep once, for a whole number of
    milliseconds within the bounds of the configuration, when these are
    positive and in order; the store is not touched. *)
Theorem RandomDelay_within_bounds (cfg : config.StealthConfig) (w : World) :
  0 < config.ActionDelayMin cfg ->
  config.ActionDelayMin cfg <= config.ActionDelayMax cfg <= 9223372036854 ->
  0 < config.ThinkTimeMin cfg ->
  config.ThinkTimeMin cfg <= config.ThinkTimeMax cfg <= 9223372036854 ->
  (exists delay w',
     stealth.RandomDelay cfg w = Returned tt w' /\
     config.ActionDelayMin cfg <= delay <= config.ActionDelayMax cfg /\
     sleeps w' = sleeps w ++ [delay * gotime.Millisecond] /\
     clock w' = clock w + delay * gotime.Millisecond /\
     heap w' = heap w /\ data w' = data w /\ writes w' = writes w) /\
  (exists delay w',
     stealth.ThinkingPause cfg w = Returned tt w' /\
     config.ThinkTimeMin cfg <= delay <= config.ThinkTimeMax cfg /\
     sleeps w' = sleeps w ++ [delay * gotime.Millisecond] /\
     clock w' = clock w + delay * gotime.Millisecond /\
     heap w' = heap w /\ data w' = data w /\ writes w' = writes w).
Proof.
  intros Ha Hab Ht Htt. split.
  - destruct (pause_spec _ _ w Ha Hab) as (delay & w' & Hrun & H).
    exists delay, w'. split; [exact Hrun|]. tauto.
  - destruct (pause_spec _ _ w Ht Htt) as (delay & w' & Hrun & H).
    exists delay, w'. split; [exact Hrun|]. tauto.
Qed.

Lemma RandomDelay_within_bounds_witness :
  exists delay w',
    stealth.RandomDelay config.defaultStealth (examples.world (examples.at_ 10 0) [] []) =
      Returned tt w' /\
    500 <= delay <= 2000 /\
    sleeps w' = [delay * gotime.Millisecond].
Proof.
  destruct (RandomDelay_within_bounds config.defaultStealth
              (examples.world (examples.at_ 10 0) [] []))
    as [(delay & w' & Hrun & Hin & Hsleeps & _) _];
    try (vm_compute; split; congruence); try reflexivity.
  exists delay, w'. split; [exact Hrun|]. split; [exact Hin|exact Hsleeps].
Defined.

(** The fixed waits: [WaitForNavigation] sleeps once for 2 to 4 seconds,
    [WaitForPageLoad] for 1.5 to 3 seconds and [ShortPause] for 0.2 to 0.6
    seconds, whatever the generator draws. *)
Theorem fixed_waits (w : World) :
  (exists delay w',
     stealth.WaitForNavigation w = Returned tt w' /\ 2000 <= delay <= 4000 /\
     sleeps w' = sleeps w ++ [delay * gotime.Millisecond] /\
     clock w' = clock w + delay * gotime.Millisecond) /\
  (exists delay w',
     stealth.WaitForPageLoad w = Returned tt w' /\ 1500 <= delay <= 3000 /\
     sleeps w' = sleeps w ++ [delay * gotime.Millisecond] /\
     clock w' = clock w + delay * gotime.Millisecond) /\
  (exists delay w',
     stealth.ShortPause w = Returned tt w' /\ 200 <= delay <= 600 /\
     sleeps w' = sleeps w ++ [delay * gotime.Millisecond] /\
     clock w' = clock w + delay * gotime.Millisecond).
Proof.
  split; [|split].
  - destruct (pause_spec 2000 4000 w) as (delay & w' & Hrun & H); try lia.
    exists delay, w'. split; [exact Hrun|]. tauto.
  - destruct (pause_spec 1500 3000 w) as (delay & w' & Hrun & H); try lia.
    exists delay, w'. split; [exact Hrun|]. tauto.
  - destruct (pause_spec 200 600 w) as (delay & w' & Hrun & H); try lia.
    exists delay, w'. split; [exact Hrun|]. tauto.
Qed.

(** ** How long the pacing takes *)

Lemma kept_refl (w : World) : kept w w.
Proof. repeat split. Qed.

Lemma kept_trans (w1 w2 w3 : World) : kept w1 w2 -> kept w2 w3 -> kept w1 w3.
Proof.
  unfold kept, sameStore. intros [(-> & -> & ->) ->] [(-> & -> & ->) ->]. repeat split.
Qed.

Lemma runs_ret {A : Type} (a : A) : runs 0 (mret a).
Proof. intros w. exists a, w. split; [reflexivity|]. split; [lia|apply kept_refl]. Qed.

Lemma runs_bind {A B : Type} (lo1 lo2 : Z) (m : M A) (f : A -> M B) :
  runs lo1 m -> (forall a, runs lo2 (f a)) -> runs (lo1 + lo2) (m ≫= f).
Proof.
  intros Hm Hf w. destruct (Hm w) as (a & w1 & Hrun & Hclock & Hstore).
  destruct (Hf a w1) as (b & w2 & Hrun' & Hclock' & Hstore').
  exists b, w2. unfold mbind, M_bind. rewrite Hrun. split; [exact Hrun'|].
  split; [lia|]. eapply kept_trans; eassumption.
Qed.

Lemma runs_weaken {A : Type} (lo lo' : Z) (m : M A) :
  lo' <= lo -> runs lo m -> runs lo' m.
Proof.
  intros Hle Hm w. destruct (Hm w) as (a & w' & Hrun & Hclock & Hstore).
  exists a, w'. split; [exact Hrun|]. split; [lia|exact Hstore].
Qed.

Lemma runs_then {A B : Type} (lo : Z) (m : M A) (f : A -> M B) :
  runs 0 m -> (forall a, runs lo (f a)) -> runs lo (m ≫= f).
Proof. intros Hm Hf. apply (runs_bind 0 lo); assumption. Qed.

Lemma runs_first {A B : Type} (lo : Z) (m : M A) (f : A -> M B) :
  runs lo m -> (forall a, runs 0 (f a)) -> runs lo (m ≫= f).
Proof.
  intros Hm Hf. apply (runs_weaken (lo + 0)); [lia|]. apply runs_bind; assumption.
Qed.

Lemma runs_Now : runs 0 Now.
Proof.
  intros w. rewrite Now_eq. eexists _, _. split; [reflexivity|].
  split; [|repeat split]. unfold afterNow, nextNow. cbn. lia.
Qed.

Lemma runs_Float64 : runs 0 Float64.
Proof.
  intros w. unfold Float64. eexists _, _. split; [reflexivity|].
  split; [cbn; lia|repeat split].
Qed.

Lemma runs_Sleep (d : Duration) : runs (Z.max 0 d) (Sleep d).
Proof.
  intros w. unfold Sleep. destruct (d <=? 0) eqn:Hd.
  - apply Z.leb_le in Hd. exists tt, w. split; [reflexivity|].
    split; [lia|repeat split].
  - apply Z.leb_gt in Hd. eexists _, _. split; [reflexivity|].
    split; [cbn; lia|repeat split].
Qed.

Lemma runs_randomInt (min max : Z) :
  goint.is_int min -> goint.is_int max -> max - min < goint.max_int ->
  runs 0 (stealth.randomInt min max).
Proof.
  intros Hmin Hmax Hwidth w.
  destruct (randomInt_returns min max w Hmin Hmax Hwidth) as (v & Hrun & _).
  eexists _, _. split; [exact Hrun|].
  destruct (min >=? max); (split; [cbn; lia|repeat split]).
Qed.

Lemma runs_randomFloat (min max : float64) : runs 0 (stealth.randomFloat min max).
Proof.
  unfold stealth.randomFloat. apply runs_then; [apply runs_Float64|].
  intros f. apply runs_ret.
Qed.

Lemma runs_forRange (lo : Z) (n : nat) (i : Z) (body : Z -> M unit) :
  (forall j, runs lo (body j)) -> runs (Z.of_nat n * lo) (stealth.forRange n i body).
Proof.
  intros Hbody. revert i. induction n as [|n IH]; intros i.
  - apply runs_ret.
  - cbn [stealth.forRange]. apply (runs_weaken (lo + Z.of_nat n * lo)); [lia|].
    apply runs_bind; [apply Hbody|]. intros _. apply IH.
Qed.

(** A pause of [min] to [max] milliseconds takes at least [min]. *)
Lemma runs_pause (min max : Z) :
  0 <= min -> min <= max <= maxMillis ->
  runs (min * gotime.Millisecond) (stealth.randomInt min max ≫= stealth.sleepMs).
Proof.
  intros Hpos Hrange w. unfold maxMillis in Hrange.
  destruct (randomInt_returns min max w) as (v & Hrun & Hin & _);
    try (unfold goint.is_int, goint.min_int, goint.max_int; lia).
  unfold mbind, M_bind. rewrite Hrun. unfold stealth.sleepMs.
  assert (Hms : goint.mul v gotime.Millisecond = v * gotime.Millisecond).
  { unfold goint.mul, gotime.Millisecond. apply wrap64_id.
    unfold goint.is_int, goint.min_int, goint.max_int. lia. }
  rewrite Hms.
  destruct (runs_Sleep (v * gotime.Millisecond)
              (if min >=? max then w else with_rng (tl (rng w)) w))
    as ([] & w' & Hsleep & Hclock & Hstore).
  exists tt, w'. split; [exact Hsleep|].
  unfold gotime.Millisecond in *.
  destruct (min >=? max); cbn in Hclock, Hstore; (split; [lia|exact Hstore]).
Qed.

Ltac int_bounds :=
  unfold goint.is_int, goint.min_int, goint.max_int, goint.neg, goint.mul, goint.wrap64,
    maxMillis in *;
  cbn; lia.

Ltac runs0 :=
  repeat first
    [ apply runs_ret | apply runs_Now | apply runs_Float64 | apply runs_randomFloat
    | apply runs_randomInt; int_bounds
    | apply runs_then; [|intros]
    | match goal with
      | |- runs _ (if ?b then _ else _) => destruct b
      | |- runs _ (let '(_, _) := ?p in _) => destruct p
      | H : runs 0 ?m |- runs 0 ?m => exact H
      | H : forall a, runs 0 (@?m a) |- runs 0 _ => apply H
      end ].

Lemma runs_sleepMs (ms : Z) : runs 0 (stealth.sleepMs ms).
Proof.
  unfold stealth.sleepMs. eapply runs_weaken; [|apply runs_Sleep]. lia.
Qed.

Lemma runs_generateBezierControlPoints (x1 y1 x2 y2 : float64) :
  runs 0 (stealth.generateBezierControlPoints x1 y1 x2 y2).
Proof. unfold stealth.generateBezierControlPoints. cbv zeta. runs0. Qed.

Lemma runs_MoveMouse (cfg : config.StealthConfig) (toX toY : float64) :
  runs 0 (stealth.MoveMouse cfg toX toY).
Proof.
  unfold stealth.MoveMouse. apply runs_then; [apply runs_Now|]. intros _.
  unfold stealth.getCurrentMousePosition. cbv beta iota.
  apply runs_then; [apply runs_generateBezierControlPoints|]. intros cps.
  apply runs_then; [|intros; apply runs_ret].
  eapply runs_weaken; [|apply (runs_forRange 0)].
  - lia.
  - intros j. cbv zeta. eapply runs_weaken; [|apply runs_Sleep]. lia.
Qed.

Lemma runs_RandomScroll (cfg : config.StealthConfig) :
  sane cfg -> runs 0 (stealth.RandomScroll cfg).
Proof.
  intros [_ _ _ Hscroll]. unfold stealth.RandomScroll.
  destruct (negb (config.ScrollEnabled cfg)); [apply runs_ret|].
  apply runs_then; [apply runs_Float64|]. intros f.
  destruct (float64.gtb f (config.ScrollChance cfg)); [apply runs_ret|].
  apply runs_then.
  { apply runs_randomInt.
    - unfold goint.neg. apply wrap64_is_int.
    - unfold goint.mul. apply wrap64_is_int.
    - unfold goint.neg, goint.mul. rewrite !wrap64_id by int_bounds. int_bounds. }
  intros _. apply runs_then; [|intros; apply runs_ret].
  eapply runs_weaken; [|apply (runs_forRange 0)].
  - lia.
  - intros j. eapply runs_weaken; [|apply runs_Sleep]. lia.
Qed.

Lemma runs_wanderLoop (cfg : config.StealthConfig) (fuel : nat) (i : Z) :
  runs 0 (stealth.wanderLoop cfg fuel i).
Proof.
  revert i. induction fuel as [|fuel IH]; intros i; cbn [stealth.wanderLoop].
  - apply runs_ret.
  - apply runs_then; [apply runs_randomInt; int_bounds|]. intros bound.
    destruct (i <? bound); [|apply runs_ret].
    apply runs_then; [apply runs_randomFloat|]. intros offsetX.
    apply runs_then; [apply runs_randomFloat|]. intros offsetY.
    unfold stealth.getCurrentMousePosition. cbv beta iota.
    apply runs_then; [apply runs_MoveMouse|]. intros _.
    apply runs_then; [apply runs_randomInt; int_bounds|]. intros d.
    apply runs_then; [apply runs_sleepMs|]. intros _. apply IH.
Qed.

Lemma runs_WanderMouse (cfg : config.StealthConfig) : runs 0 (stealth.WanderMouse cfg).
Proof.
  unfold stealth.WanderMouse.
  destruct (negb (config.MouseWanderEnabled cfg)); [apply runs_ret|].
  apply runs_then; [apply runs_Float64|]. intros f.
  destruct (float64.gtb f (config.MouseWanderChance cfg)); [apply runs_ret|].
  apply runs_then; [apply runs_wanderLoop|]. intros _. apply runs_ret.
Qed.

Lemma runs_RandomDelay (cfg : config.StealthConfig) :
  sane cfg ->
  runs (config.ActionDelayMin cfg * gotime.Millisecond) (stealth.RandomDelay cfg).
Proof. intros [[Hlo Hrange] _ _ _]. apply runs_pause; assumption. Qed.

Lemma runs_ThinkingPause (cfg : config.StealthConfig) :
  sane cfg ->
  runs (config.ThinkTimeMin cfg * gotime.Millisecond) (stealth.ThinkingPause cfg).
Proof. intros [_ [Hlo Hrange] _ _]. apply runs_pause; assumption. Qed.

Lemma runs_makeTypo (cfg : config.StealthConfig) : runs 0 (stealth.makeTypo cfg).
Proof.
  unfold stealth.makeTypo. destruct (negb (config.TypoCorrection cfg)); [apply runs_ret|].
  apply runs_then; [apply runs_randomInt; int_bounds|]. intros _.
  apply runs_then; [apply runs_randomInt; int_bounds|]. intros d1.
  apply runs_then; [apply runs_sleepMs|]. intros _.
  apply runs_then; [apply runs_randomInt; int_bounds|]. intros d2.
  apply runs_sleepMs.
Qed.

Lemma runs_randomInt_val {B : Type} (min max lo : Z) (f : Z -> M B) :
  goint.is_int min -> goint.is_int max -> max - min < goint.max_int -> min <= max ->
  (forall v, min <= v <= max -> runs lo (f v)) ->
  runs lo (stealth.randomInt min max ≫= f).
Proof.
  intros Hmin Hmax Hwidth Hle Hf w.
  destruct (randomInt_returns min max w Hmin Hmax Hwidth) as (v & Hrun & Hin & _).
  destruct (Hf v (Hin Hle) (if min >=? max then w else with_rng (tl (rng w)) w))
    as (b & w' & Hrun' & Hclock & Hstore).
  exists b, w'. unfold mbind, M_bind. rewrite Hrun. split; [exact Hrun'|].
  destruct (min >=? max); cbn in Hclock, Hstore; (split; [lia|exact Hstore]).
Qed.

Lemma runs_ret_bind {A B : Type} (lo : Z) (a : A) (f : A -> M B) :
  runs lo (f a) -> runs lo (mret a ≫= f).
Proof. intros Hf w. exact (Hf w). Qed.

Lemma bind_assoc {A B C : Type} (m : M A) (f : A -> M B) (g : B -> M C) (w : World) :
  ((m ≫= f) ≫= g) w = (m ≫= fun a => f a ≫= g) w.
Proof. unfold mbind, M_bind. destruct (m w); reflexivity. Qed.

Lemma runs_assoc {A B C : Type} (lo : Z) (m : M A) (f : A -> M B) (g : B -> M C) :
  runs lo (m ≫= fun a => f a ≫= g) -> runs lo ((m ≫= f) ≫= g).
Proof. intros H w. rewrite bind_assoc. apply H. Qed.

Lemma runs_sleepMs_val (ms : Z) :
  0 <= ms <= maxMillis -> runs (ms * gotime.Millisecond) (stealth.sleepMs ms).
Proof.
  intros Hms. unfold stealth.sleepMs.
  replace (goint.mul ms gotime.Millisecond) with (ms * gotime.Millisecond).
  - eapply runs_weaken; [|apply runs_Sleep]. lia.
  - symmetry. unfold goint.mul, gotime.Millisecond. apply wrap64_id. int_bounds.
Qed.

(** A keystroke takes at least [TypingSpeedMin] milliseconds. *)
Lemma runs_typeRune (cfg : config.StealthConfig) (char : Z) :
  sane cfg ->
  runs (config.TypingSpeedMin cfg * gotime.Millisecond) (stealth.typeRune cfg char).
Proof.
  intros [_ _ [Hlo Hrange] _]. unfold stealth.typeRune.
  apply runs_then.
  { destruct (float64.gtb _ _); [|apply runs_ret].
    apply runs_then; [apply runs_Float64|]. intros f.
    destruct (float64.ltb _ _); [apply runs_makeTypo|apply runs_ret]. }
  intros _. apply runs_randomInt_val; try int_bounds. intros v Hv.
  destruct ((char =? 32) || (char =? 44) || (char =? 46)).
  - apply runs_assoc, runs_randomInt_val; try int_bounds. intros extra Hextra.
    apply runs_ret_bind.
    replace (goint.add v extra) with (v + extra)
      by (symmetry; apply wrap64_id; int_bounds).
    eapply runs_weaken; [|apply runs_sleepMs_val; int_bounds].
    unfold gotime.Millisecond. lia.
  - apply runs_ret_bind.
    eapply runs_weaken; [|apply runs_sleepMs_val; int_bounds].
    unfold gotime.Millisecond. lia.
Qed.

Lemma runs_typeRunes (cfg : config.StealthConfig) (chars : list Z) :
  sane cfg ->
  runs (Z.of_nat (length chars) * (config.TypingSpeedMin cfg * gotime.Millisecond))
    (stealth.typeRunes cfg chars).
Proof.
  intros Hsane. induction chars as [|char rest IH]; cbn [stealth.typeRunes].
  - apply runs_ret.
  - eapply runs_weaken; [|apply runs_bind; [apply runs_typeRune, Hsane|intros _; apply IH]].
    cbn [length]. lia.
Qed.

(** Typing a text takes at least [TypingSpeedMin] milliseconds for each of
    its characters, typos or not; [TypeHumanLike] returns nil and leaves the
    store alone. *)
Theorem TypeHumanLike_takes (cfg : config.StealthConfig) (selector text : string)
  (w : World) :
  sane cfg ->
  exists w',
    stealth.TypeHumanLike cfg selector text w = Returned None w' /\
    clock w +
      Z.of_nat (length (stealth.runes text 0)) *
      (config.TypingSpeedMin cfg * gotime.Millisecond) <= clock w' /\
    kept w w'.
Proof.
  intros Hsane.
  assert (Hruns :
    runs (Z.of_nat (length (stealth.runes text 0)) *
          (config.TypingSpeedMin cfg * gotime.Millisecond))
      (stealth.typeRunes cfg (stealth.runes text 0))) by (apply runs_typeRunes, Hsane).
  unfold stealth.TypeHumanLike, mbind, M_bind. rewrite Now_eq.
  destruct (Hruns (afterNow w)) as ([] & w' & Hrun & Hclock & Hstore).
  rewrite Hrun. exists w'. split; [reflexivity|]. split.
  - revert Hclock. unfold afterNow, nextNow. cbn. lia.
  - exact Hstore.
Qed.

Lemma defaultStealth_sane : sane config.defaultStealth.
Proof. split; vm_compute; repeat split; congruence. Qed.

Lemma TypeHumanLike_takes_witness :
  exists w',
    stealth.TypeHumanLike config.defaultStealth "input" "Hi, Bob"
      (examples.world (examples.at_ 10 0) [] []) = Returned None w' /\
    examples.at_ 10 0 + 7 * (80 * gotime.Millisecond) <= clock w'.
Proof.
  destruct (TypeHumanLike_takes config.defaultStealth "input" "Hi, Bob"
              (examples.world (examples.at_ 10 0) [] []) defaultStealth_sane)
    as (w' & Hrun & Hclock & _).
  exists w'. split; [exact Hrun|exact Hclock].
Defined.

Lemma runs_bind_eq {A B : Type} (lo : Z) (m : M A) (f : A -> M B) (w : World) :
  runs lo m ->
  exists a w1, (m ≫= f) w = f a w1 /\ clock w + lo <= clock w1 /\ kept w w1.
Proof.
  intros Hm. destruct (Hm w) as (a & w1 & Hrun & Hclock & Hkept).
  exists a, w1. unfold mbind, M_bind. rewrite Hrun. auto.
Qed.

(** One step forward of a run: the leading computation, which [lemma] shows
    to return, is run and what it costs is recorded. *)
Ltac step lemma :=
  let a := fresh "a" in
  let w' := fresh "w" in
  let He := fresh "He" in
  let Hc := fresh "Hclock" in
  let Hk := fresh "Hkept" in
  lazymatch goal with
  | |- context [(?m ≫= ?f) ?w] =>
      destruct (runs_bind_eq _ m f w ltac:(lemma)) as (a & w' & He & Hc & Hk);
      rewrite He; clear He; cbv beta
  end.

Lemma EnforceCooldown_returns (actionType : string) (minDelaySeconds : Z) (w : World) :
  exists w',
    stealth.EnforceCooldown actionType minDelaySeconds w = Returned tt w' /\
    clock w <= clock w' /\ kept w w'.
Proof.
  unfold stealth.EnforceCooldown, mbind, M_bind, get.
  destruct (gotime.IsZero (lastActionTime w)).
  - rewrite Now_eq. eexists. split; [reflexivity|]. split; [|repeat split].
    cbn. unfold nextNow. lia.
  - rewrite Now_eq. destruct (_ <? _).
    + set (d := goint.sub _ _). unfold Sleep.
      destruct (d <=? 0) eqn:Hd; rewrite Now_eq;
        (eexists; split; [reflexivity|]; split; [|repeat split]).
      * cbn. unfold nextNow, afterNow. cbn. unfold nextNow. lia.
      * apply Z.leb_gt in Hd. cbn. unfold nextNow, with_sleep, afterNow. cbn.
        unfold nextNow. lia.
    + unfold mret, M_ret. rewrite Now_eq. eexists. split; [reflexivity|].
      split; [|repeat split]. cbn. unfold nextNow, afterNow. cbn. unfold nextNow. lia.
Qed.

(** The pacing of a connection request: what is left to do after it is the
    update of the profile. *)
Lemma SendConnectionRequest_pacing (cfg : config.StealthConfig) (profile : ptr)
  (p : Profile) (w : World) :
  sane cfg -> heap w !! profile = Some p ->
  exists w10,
    kept w w10 /\
    clock w +
      (4 * config.ActionDelayMin cfg + 2 * config.ThinkTimeMin cfg) * gotime.Millisecond
      <= clock w10 /\
    connect.SendConnectionRequest cfg profile w =
    (now ← Now;
     assign profile (setRequest StateRequested (Some now));;
     err ← storage.SaveProfile profile;
     match err with
     | Some msg => mret (Some (connect.wrapError "failed to update profile state" msg))
     | None =>
         _ ← storage.LogAction "connection" (ID p) true None;
         mret None
     end) w10.
Proof.
  intros Hsane Hp. unfold connect.SendConnectionRequest.
  unfold mbind at 1, M_bind at 1. rewrite (deref_Some _ _ _ Hp).
  step ltac:(apply runs_Now).
  step ltac:(apply runs_RandomDelay, Hsane).
  step ltac:(apply runs_ThinkingPause, Hsane).
  step ltac:(apply runs_RandomScroll, Hsane).
  step ltac:(apply runs_WanderMouse).
  step ltac:(apply runs_MoveMouse).
  step ltac:(apply runs_RandomDelay, Hsane).
  step ltac:(apply runs_ThinkingPause, Hsane).
  step ltac:(apply runs_MoveMouse).
  step ltac:(apply runs_RandomDelay, Hsane).
  step ltac:(apply runs_RandomDelay, Hsane).
  exists w10. split; [|split; [lia|reflexivity]].
  repeat (eapply kept_trans; [eassumption|]); apply kept_refl.
Qed.

Lemma SendConnectionRequest_returns (cfg : config.StealthConfig) (profile : ptr)
  (p : Profile) (w : World) :
  sane cfg -> heap w !! profile = Some p ->
  exists e w' now,
    connect.SendConnectionRequest cfg profile w = Returned e w' /\
    clock w +
      (4 * config.ActionDelayMin cfg + 2 * config.ThinkTimeMin cfg) * gotime.Millisecond
      <= now <= clock w' /\
    heap w' = <[profile := setRequest StateRequested (Some now) p]> (heap w) /\
    Profiles (data w') = <[ID p := profile]> (Profiles (data w)) /\
    Messages (data w') = Messages (data w) /\
    (e = None <-> hd None (disk w) = None) /\
    (e = None ->
     exists t, now <= t /\ ledger w' = ledger w ++ [granted t (ID p)]) /\
    (e <> None -> ledger w' = ledger w).
Proof.
  intros Hsane Hp.
  destruct (SendConnectionRequest_pacing cfg profile p w Hsane Hp)
    as (w10 & Hkept' & Hclock' & ->).
  clear - Hp Hkept' Hclock'. destruct Hkept' as [(Hdata & Hheap & _) Hdisk].
  unfold mbind at 1, M_bind at 1. rewrite Now_eq.
  unfold mbind at 1, M_bind at 1, assign at 1. cbn [heap afterNow with_clock].
  rewrite Hheap, Hp.
  set (now := nextNow w10).
  set (wa := with_heap _ _).
  destruct (SaveProfile_effect profile (setRequest StateRequested (Some now) p) wa)
    as (err & ws & Hsave & Herr & Hledger & Hprofiles & Hmessages & Hheap' & _).
  { apply lookup_insert_eq. }
  unfold mbind at 1, M_bind at 1. rewrite Hsave.
  assert (Hnow : clock w10 <= now) by (unfold now, nextNow; lia).
  assert (Hws : now <= clock ws).
  { revert Hsave. unfold storage.SaveProfile, mbind, M_bind, deref.
    replace (heap wa !! profile) with (Some (setRequest StateRequested (Some now) p))
      by (symmetry; apply lookup_insert_eq).
    cbn [modify]. set (wb := with_data _ wa).
    unfold storage.save, mbind, M_bind. rewrite Now_eq. cbn [modify].
    unfold storage.writeFile. cbn [disk with_data afterNow with_clock].
    destruct (hd None (disk wb)); intros [= _ <-]; cbn; unfold nextNow; cbn; lia. }
  change (disk wa) with (disk w10) in Herr. rewrite Hdisk in Herr.
  change (ledger wa) with (ledger w10) in Hledger.
  change (Profiles (data wa)) with (Profiles (data w10)) in Hprofiles.
  change (Messages (data wa)) with (Messages (data w10)) in Hmessages.
  change (heap wa) with (<[profile := setRequest StateRequested (Some now) p]> (heap w))
    in Hheap'.
  unfold ledger in *. rewrite Hdata in Hledger, Hprofiles, Hmessages.
  cbn [ID setRequest] in Hprofiles.
  destruct err as [cause|].
  - exists (Some (connect.wrapError "failed to update profile state" cause)), ws, now.
    split; [reflexivity|]. split; [lia|]. split; [exact Hheap'|].
    split; [exact Hprofiles|]. split; [exact Hmessages|]. split; [|split].
    + split; [discriminate|]. intros Hd. rewrite Hd in Herr. discriminate.
    + discriminate.
    + intros _. exact Hledger.
  - destruct (LogAction_effect ws "connection" (ID p) true None)
      as (e' & wl & Hlog & Hlogs & Hprofiles' & Hmessages' & Hheap'' & _).
    exists None, wl, now. unfold mbind, M_bind. rewrite Hlog.
    split; [reflexivity|]. split.
    { split; [lia|].
      revert Hlog. unfold storage.LogAction, mbind, M_bind. rewrite Now_eq. cbn [modify].
      set (wb := with_data _ _).
      unfold storage.save, mbind, M_bind. rewrite Now_eq. cbn [modify].
      unfold storage.writeFile. cbn [disk with_data afterNow with_clock].
      destruct (hd None (disk wb)); intros [= _ <-]; cbn; unfold nextNow; cbn;
        unfold nextNow; lia. }
    split; [rewrite Hheap''; exact Hheap'|]. split; [rewrite Hprofiles'; exact Hprofiles|].
    split; [rewrite Hmessages'; exact Hmessages|]. split; [|split].
    + split; [intros _; symmetry; exact Herr|reflexivity].
    + intros _. exists (nextNow ws). split; [unfold nextNow; lia|].
      rewrite Hlogs, Hledger. reflexivity.
    + congruence.
Qed.

(** A connection request to a live profile, under a sane configuration,
    always returns. It takes at least four action delays and two thinking
    pauses; it marks the profile as requested, with the time, and files it
    under its ID; it returns nil exactly when the store could be written, and
    then one success record for the profile is appended to the ledger;
    otherwise the ledger stays as it was. *)
Theorem SendConnectionRequest_effect (cfg : config.StealthConfig) (profile : ptr)
  (p : Profile) (w : World) :
  sane cfg -> heap w !! profile = Some p ->
  exists e w' now q,
    connect.SendConnectionRequest cfg profile w = Returned e w' /\
    clock w +
      (4 * config.ActionDelayMin cfg + 2 * config.ThinkTimeMin cfg) * gotime.Millisecond
      <= now <= clock w' /\
    heap w' !! profile = Some q /\
    State q = StateRequested /\ RequestedAt q = Some now /\ ID q = ID p /\
    (forall other, other <> profile -> heap w' !! other = heap w !! other) /\
    Profiles (data w') !! ID p = Some profile /\
    (e = None <-> hd None (disk w) = None) /\
    (e = None ->
     exists t, now <= t /\ ledger w' = ledger w ++ [granted t (ID p)]) /\
    (e <> None -> ledger w' = ledger w).
Proof.
  intros Hsane Hp.
  destruct (SendConnectionRequest_returns cfg profile p w Hsane Hp)
    as (e & w' & now & Hrun & Hclock & Hheap & Hprofiles & _ & He & Hok & Hfail).
  exists e, w', now, (setRequest StateRequested (Some now) p).
  split; [exact Hrun|]. split; [exact Hclock|].
  split; [rewrite Hheap; apply lookup_insert_eq|].
  split; [reflexivity|]. split; [reflexivity|]. split; [reflexivity|].
  split; [intros other Hother; rewrite Hheap; apply lookup_insert_ne; congruence|].
  split; [rewrite Hprofiles; apply lookup_insert_eq|].
  split; [exact He|]. split; [exact Hok|exact Hfail].
Qed.

Lemma SendConnectionRequest_effect_witness :
  exists w' now q,
    connect.SendConnectionRequest config.defaultStealth 1%positive
      (examples.world (examples.at_ 10 0) [] []) = Returned None w' /\
    examples.at_ 10 0 + 6000 * gotime.Millisecond <= now /\
    heap w' !! 1%positive = Some q /\
    State q = StateRequested /\ RequestedAt q = Some now.
Proof.
  destruct (SendConnectionRequest_effect config.defaultStealth 1%positive examples.alice
              (examples.world (examples.at_ 10 0) [] []) defaultStealth_sane eq_refl)
    as (e & w' & now & q & Hrun & [Hclock _] & Hq & Hstate & Hat & _ & _ & _ & [_ He] & _).
  rewrite (He eq_refl) in Hrun.
  exists w', now, q. split; [exact Hrun|]. split; [exact Hclock|].
  split; [exact Hq|]. split; [exact Hstate|exact Hat].
Defined.

(** ** The budget of a batch *)

Lemma processCandidates_budget (cfg : config.StealthConfig) (candidates : list ptr)
  (sent maxToSend : Z) (w : World) :
  sane cfg ->
  (forall profile, profile ∈ candidates -> is_Some (heap w !! profile)) ->
  exists sent' w',
    connect.processCandidates cfg candidates sent maxToSend w = Returned sent' w' /\
    sent <= sent' <= Z.max sent maxToSend /\
    grantedCount w' = grantedCount w + (sent' - sent).
Proof.
  intros Hsane. revert sent w.
  induction candidates as [|profile rest IH]; intros sent w Hlive.
  - exists sent, w. split; [reflexivity|]. split; lia.
  - cbn [connect.processCandidates].
    destruct (sent >=? maxToSend) eqn:Hfull.
    { exists sent, w. split; [reflexivity|]. split; lia. }
    rewrite Z.geb_leb in Hfull. apply Z.leb_gt in Hfull.
    destruct (Hlive profile) as [p Hp]; [left|].
    destruct (SendConnectionRequest_returns cfg profile p w Hsane Hp)
      as (e & w1 & now & Hrun & _ & Hheap & _ & _ & _ & Hok & Hfail).
    assert (Hlive1 : forall w2, heap w2 = heap w1 ->
              forall c, c ∈ rest -> is_Some (heap w2 !! c)).
    { intros w2 Hw2 c Hc. rewrite Hw2, Hheap. apply lookup_insert_is_Some'.
      right. apply Hlive. right. exact Hc. }
    unfold mbind at 1, M_bind at 1. rewrite Hrun.
    destruct e as [msg|].
    + unfold mbind at 1, M_bind at 1.
      rewrite (deref_Some profile (setRequest StateRequested (Some now) p) w1)
        by (rewrite Hheap; apply lookup_insert_eq).
      destruct (LogAction_effect w1 "connection"
                  (ID (setRequest StateRequested (Some now) p)) false (Some msg))
        as (e' & w2 & Hlog & Hlogs & _ & _ & Hheap2 & _).
      unfold mbind at 1, M_bind at 1. rewrite Hlog.
      destruct (IH sent w2 (Hlive1 w2 Hheap2)) as (sent' & w' & Hloop & Hsent & Hcount).
      exists sent', w'. split; [exact Hloop|]. split; [lia|].
      rewrite Hcount. unfold grantedCount, ledger. rewrite Hlogs, tally_app.
      fold (ledger w1). rewrite (Hfail ltac:(discriminate)).
      replace (tally isGranted [_]) with 0 by reflexivity. unfold ledger. lia.
    + destruct (Hok eq_refl) as (t & _ & Hledger).
      destruct (EnforceCooldown_returns "connection" 30 w1)
        as (w2 & Hcool & _ & [(Hdata2 & Hheap2 & _) _]).
      unfold mbind at 1, M_bind at 1. rewrite Hcool.
      destruct (IH (sent + 1) w2 (Hlive1 w2 Hheap2)) as (sent' & w' & Hloop & Hsent & Hcount).
      exists sent', w'. split; [exact Hloop|]. split; [lia|].
      rewrite Hcount. unfold grantedCount, ledger. rewrite Hdata2.
      fold (ledger w1). rewrite Hledger, tally_app.
      replace (tally isGranted [_]) with 1 by reflexivity. unfold ledger. lia.
Qed.

(** [ProcessDailyConnections] stays within the limits. Under a sane
    configuration and a store whose pointers are live it returns nil, and the
    number of requests it grants, added to the number granted today (or in
    the last hour) as counted when it starts, does not exceed the daily (or
    hourly) limit, unless that count was over the limit already, in which
    case it grants none. *)
Theorem ProcessDailyConnections_within_limits (cfg : config.StealthConfig)
  (limits : config.LimitsConfig) (w : World) :
  sane cfg -> live w ->
  goint.is_int (config.ConnectionsPerDay limits) ->
  goint.is_int (config.ConnectionsPerHour limits) ->
  let w1 := afterNow w in
  let today :=
    tally (counted "connection" (gotime.startOfDay (zone w) (nextNow w1))) (ledger w) in
  let lastHour :=
    tally (counted "connection" (nextNow (afterNow w1) - gotime.Hour)) (ledger w) in
  exists w',
    connect.ProcessDailyConnections cfg limits w = Returned None w' /\
    grantedCount w <= grantedCount w' /\
    today + (grantedCount w' - grantedCount w) <=
      Z.max today (config.ConnectionsPerDay limits) /\
    lastHour + (grantedCount w' - grantedCount w) <=
      Z.max lastHour (config.ConnectionsPerHour limits).
Proof.
  intros Hsane Hlive Hday Hhour. cbv zeta.
  unfold connect.ProcessDailyConnections.
  unfold mbind at 1, M_bind at 1. rewrite Now_eq.
  unfold mbind at 1, M_bind at 1. rewrite GetActionCountToday_eq.
  unfold mbind at 1, M_bind at 1. rewrite GetActionCountLastHour_eq.
  change (ActionLogs (data (afterNow (afterNow w)))) with (ledger w).
  change (ActionLogs (data (afterNow w))) with (ledger w).
  change (zone (afterNow w)) with (zone w).
  set (today := tally _ (ledger w)). set (lastHour := tally _ (ledger w)).
  assert (Htoday : 0 <= today) by apply tally_nonneg.
  assert (HlastHour : 0 <= lastHour) by apply tally_nonneg.
  set (w3 := afterNow (afterNow (afterNow w))).
  destruct (today >=? config.ConnectionsPerDay limits) eqn:Hd.
  { unfold mbind, M_bind. rewrite Now_eq. eexists. split; [reflexivity|].
    change (grantedCount (afterNow w3)) with (grantedCount w). lia. }
  destruct (lastHour >=? config.ConnectionsPerHour limits) eqn:Hh.
  { eexists. split; [reflexivity|]. change (grantedCount w3) with (grantedCount w). lia. }
  rewrite Z.geb_leb in Hd, Hh. apply Z.leb_gt in Hd, Hh.
  assert (Hlive3 : live w3) by exact Hlive.
  destruct (GetProfilesByState_returns StateDiscovered w3 Hlive3)
    as (candidates & Hget & Hin).
  unfold mbind at 1, M_bind at 1. rewrite Hget.
  destruct (length candidates =? 0)%nat.
  { eexists. split; [reflexivity|].
    change (grantedCount (afterRange _ w3)) with (grantedCount w). lia. }
  set (w4 := afterRange _ w3).
  assert (Hdaily : goint.sub (config.ConnectionsPerDay limits) today =
                   config.ConnectionsPerDay limits - today).
  { apply wrap64_id. unfold goint.is_int, goint.min_int, goint.max_int in *. lia. }
  assert (Hhourly : goint.sub (config.ConnectionsPerHour limits) lastHour =
                    config.ConnectionsPerHour limits - lastHour).
  { apply wrap64_id. unfold goint.is_int, goint.min_int, goint.max_int in *. lia. }
  rewrite Hdaily, Hhourly.
  set (maxToSend := if _ <? _ then _ else _).
  destruct (processCandidates_budget cfg candidates 0 maxToSend w4 Hsane)
    as (sent & w' & Hloop & Hsent & Hcount).
  { intros profile Hprofile. rewrite Hin in Hprofile.
    apply elem_of_stored in Hprofile as (id & p & _ & Hp & _). exists p. exact Hp. }
  unfold mbind, M_bind. rewrite Hloop. exists w'. split; [reflexivity|].
  change (grantedCount w4) with (grantedCount w) in Hcount.
  assert (Hmax : maxToSend <= config.ConnectionsPerDay limits - today /\
                 maxToSend <= config.ConnectionsPerHour limits - lastHour).
  { unfold maxToSend. destruct (_ <? _) eqn:Hlt;
      [apply Z.ltb_lt in Hlt|apply Z.ltb_ge in Hlt]; lia. }
  lia.
Qed.

Lemma ProcessDailyConnections_within_limits_witness :
  let w := examples.world (examples.at_ 10 0)
             [examples.request (examples.at_ 9 30) true] [] in
  exists w',
    connect.ProcessDailyConnections config.defaultStealth examples.twoADay w =
      Returned None w' /\
    grantedCount w <= grantedCount w' /\
    1 + (grantedCount w' - grantedCount w) <= 2.
Proof.
  intros w.
  destruct (ProcessDailyConnections_within_limits config.defaultStealth examples.twoADay w
              defaultStealth_sane (examples_live _ _ _))
    as (w' & Hrun & Hge & Hday & _);
    try (unfold goint.is_int, goint.min_int, goint.max_int; cbn; lia).
  exists w'. split; [exact Hrun|]. split; [exact Hge|exact Hday].
Defined.

(** ** Moving a profile from state to state *)

Lemma save_clock (w w' : World) (e : error) :
  storage.save w = Returned e w' -> clock w' = nextNow w.
Proof.
  unfold storage.save, mbind, M_bind. rewrite Now_eq. cbn [modify].
  unfold storage.writeFile.
  match goal with |- context [hd None ?d] => destruct (hd None d) end;
    intros [= _ <-]; reflexivity.
Qed.

Lemma SaveProfile_clock (profile : ptr) (w w' : World) (e : error) :
  storage.SaveProfile profile w = Returned e w' -> clock w' = nextNow w.
Proof.
  unfold storage.SaveProfile, mbind at 1, M_bind at 1, deref.
  destruct (heap w !! profile); [|discriminate].
  unfold mbind at 1, M_bind at 1. cbn [modify]. intros Hsave.
  apply save_clock in Hsave. exact Hsave.
Qed.

(** An update of the profile behind a pointer, followed by [SaveProfile]. *)
Lemma assign_save (profile : ptr) (f : Profile -> Profile) (p : Profile) (w : World) :
  heap w !! profile = Some p ->
  exists w',
    (forall (B : Type) (k : error -> M B),
       (assign profile f ≫= fun _ => storage.SaveProfile profile ≫= k) w =
       k (hd None (disk w)) w') /\
    heap w' = <[profile := f p]> (heap w) /\
    ledger w' = ledger w /\
    Profiles (data w') = <[ID (f p) := profile]> (Profiles (data w)) /\
    Messages (data w') = Messages (data w) /\
    clock w' = nextNow w.
Proof.
  intros Hp.
  set (wa := with_heap (<[profile := f p]> (heap w)) w).
  destruct (SaveProfile_effect profile (f p) wa)
    as (err & ws & Hsave & Herr & Hledger & Hprofiles & Hmessages & Hheap & _).
  { apply lookup_insert_eq. }
  exists ws. split.
  - intros B k. unfold mbind at 1, M_bind at 1, assign at 1. rewrite Hp.
    fold wa. unfold mbind, M_bind. rewrite Hsave, Herr. reflexivity.
  - split; [exact Hheap|]. split; [exact Hledger|].
    split; [exact Hprofiles|]. split; [exact Hmessages|].
    apply SaveProfile_clock in Hsave. exact Hsave.
Qed.


Lemma WithdrawConnectionRequest_returns (cfg : config.StealthConfig) (profile : ptr)
  (p : Profile) (w : World) :
  sane cfg -> heap w !! profile = Some p ->
  exists e w',
    connect.WithdrawConnectionRequest cfg profile w = Returned e w' /\
    heap w' = <[profile := setRequest StateDiscovered None p]> (heap w) /\
    ledger w' = ledger w /\
    (e = None <-> hd None (disk w) = None).
Proof.
  intros Hsane Hp.
  unfold connect.WithdrawConnectionRequest. unfold mbind at 1, M_bind at 1.
  rewrite (deref_Some _ _ _ Hp).
  step ltac:(apply runs_Now).
  step ltac:(apply runs_RandomDelay, Hsane).
  assert (Hkept' : kept w w1) by (eapply kept_trans; eassumption).
  destruct Hkept' as [(Hdata & Hheap1 & _) Hdisk].
  destruct (assign_save profile (setRequest StateDiscovered None) p w1)
    as (w' & Hrun & Hheap & Hledger & _); [rewrite Hheap1; exact Hp|].
  rewrite Hrun, Hdisk. unfold ledger in *. rewrite Hheap1, Hdata in *.
  destruct (hd None (disk w)) as [cause|]; eexists _, w';
    (split; [reflexivity|]); (split; [exact Hheap|]); (split; [exact Hledger|]);
    split; congruence.
Qed.



(** Withdrawing a request gives nothing back. After a granted request and
    its withdrawal the profile is back in state discovered with no requested
    time, a candidate for the next batch, while the ledger still counts the
    request against the limits. *)
Theorem withdrawal_is_not_refunded (cfg : config.StealthConfig) (profile : ptr)
  (p : Profile) (w : World) :
  sane cfg -> heap w !! profile = Some p -> hd None (disk w) = None ->
  exists w1 e w2 q,
    connect.SendConnectionRequest cfg profile w = Returned None w1 /\
    connect.WithdrawConnectionRequest cfg profile w1 = Returned e w2 /\
    heap w2 !! profile = Some q /\
    State q = StateDiscovered /\ RequestedAt q = None /\
    grantedCount w2 = grantedCount w + 1.
Proof.
  intros Hsane Hp Hdisk.
  destruct (SendConnectionRequest_returns cfg profile p w Hsane Hp)
    as (e1 & w1 & now & Hrun & _ & Hheap & _ & _ & He & Hok & _).
  apply He in Hdisk. subst e1. destruct (Hok eq_refl) as (t & _ & Hledger).
  destruct (WithdrawConnectionRequest_returns cfg profile
              (setRequest StateRequested (Some now) p) w1 Hsane)
    as (e & w2 & Hrun2 & Hheap2 & Hledger2 & _).
  { rewrite Hheap. apply lookup_insert_eq. }
  exists w1, e, w2, (setRequest StateDiscovered None (setRequest StateRequested (Some now) p)).
  split; [exact Hrun|]. split; [exact Hrun2|].
  split; [rewrite Hheap2; apply lookup_insert_eq|].
  split; [reflexivity|]. split; [reflexivity|].
  unfold grantedCount. rewrite Hledger2, Hledger, tally_app.
  replace (tally isGranted [_]) with 1 by reflexivity. reflexivity.
Qed.

Lemma withdrawal_is_not_refunded_witness :
  exists w1 e w2 q,
    connect.SendConnectionRequest config.defaultStealth 1%positive
      (examples.world (examples.at_ 10 0) [] []) = Returned None w1 /\
    connect.WithdrawConnectionRequest config.defaultStealth 1%positive w1 =
      Returned e w2 /\
    heap w2 !! 1%positive = Some q /\
    State q = StateDiscovered /\ RequestedAt q = None /\
    grantedCount w2 = 1.
Proof.
  exact (withdrawal_is_not_refunded config.defaultStealth 1%positive examples.alice
           (examples.world (examples.at_ 10 0) [] []) defaultStealth_sane eq_refl eq_refl).
Defined.





(** ** The activity gate compares numbers *)

Lemma compare_app (s1 s2 t1 t2 : string) :
  String.length s1 = String.length s2 ->
  String.compare (s1 +:+ t1) (s2 +:+ t2) =
  match String.compare s1 s2 with
  | Eq => String.compare t1 t2
  | c => c
  end.
Proof.
  revert s2. induction s1 as [|a s1 IH]; intros [|b s2] Hlen; try discriminate Hlen.
  - reflexivity.
  - simpl. destruct (Ascii.compare a b); try reflexivity.
    apply IH. cbn in Hlen. congruence.
Qed.

Lemma pad2_compare_table :
  forallb (fun a =>
    forallb (fun b =>
      match String.compare (gotime.pad2 a) (gotime.pad2 b), a ?= b with
      | Eq, Eq | Lt, Lt | Gt, Gt => true
      | _, _ => false
      end) twoDigits) twoDigits = true.
Proof. vm_compute. reflexivity. Qed.

Lemma twoDigits_spec (a : Z) : 0 <= a < 100 -> In a twoDigits.
Proof.
  intros Ha. unfold twoDigits. apply in_map_iff. exists (Z.to_nat a).
  split; [lia|]. apply in_seq. lia.
Qed.

Lemma pad2_compare (a b : Z) :
  0 <= a < 100 -> 0 <= b < 100 ->
  String.compare (gotime.pad2 a) (gotime.pad2 b) = (a ?= b).
Proof.
  intros Ha Hb. pose proof pad2_compare_table as Htable.
  rewrite forallb_forall in Htable. specialize (Htable a (twoDigits_spec a Ha)).
  rewrite forallb_forall in Htable. specialize (Htable b (twoDigits_spec b Hb)).
  destruct (String.compare _ _), (a ?= b); congruence.
Qed.

Lemma pad2_length (a : Z) : String.length (gotime.pad2 a) = 2%nat.
Proof. reflexivity. Qed.

Lemma hhmm_leb (h1 m1 h2 m2 : Z) :
  0 <= h1 < 100 -> 0 <= m1 < 60 -> 0 <= h2 < 100 -> 0 <= m2 < 60 ->
  String.leb (hhmm h1 m1) (hhmm h2 m2) = (h1 * 60 + m1 <=? h2 * 60 + m2).
Proof.
  intros Hh1 Hm1 Hh2 Hm2. unfold String.leb, hhmm.
  rewrite compare_app by (rewrite !pad2_length; reflexivity).
  rewrite pad2_compare by lia.
  rewrite (compare_app ":" ":") by reflexivity. cbn [String.compare Ascii.compare].
  replace (String.compare ":" ":") with Eq by reflexivity.
  rewrite pad2_compare by lia.
  destruct (Z.compare_spec h1 h2), (Z.compare_spec m1 m2);
    symmetry; first [apply Z.leb_le; lia | apply Z.leb_gt; lia].
Qed.

Lemma Format1504_hhmm (tz : Z) (t : Time) :
  gotime.Format1504 tz t = hhmm (gotime.HourOf tz t) (gotime.MinuteOf tz t).
Proof. reflexivity. Qed.

Lemma clock_ranges (tz : Z) (t : Time) :
  0 <= gotime.HourOf tz t < 24 /\ 0 <= gotime.MinuteOf tz t < 60 /\
  minuteOfDay tz t = gotime.HourOf tz t * 60 + gotime.MinuteOf tz t.
Proof.
  unfold gotime.HourOf, gotime.MinuteOf, minuteOfDay, gotime.sinceMidnight.
  set (s := (t + tz * gotime.Second) mod gotime.Day).
  assert (Hs : 0 <= s < gotime.Day) by (apply Z.mod_pos_bound; reflexivity).
  unfold gotime.Day, gotime.Hour, gotime.Minute, gotime.Second in *.
  change (24 * (60 * (60 * 1000000000))) with 86400000000000 in *.
  change (60 * (60 * 1000000000)) with 3600000000000 in *.
  change (60 * 1000000000) with 60000000000 in *.
  pose proof (Z.div_mod s 3600000000000 ltac:(lia)).
  pose proof (Z.mod_pos_bound s 3600000000000 ltac:(lia)).
  pose proof (Z.div_mod (s mod 3600000000000) 60000000000 ltac:(lia)).
  pose proof (Z.mod_pos_bound (s mod 3600000000000) 60000000000 ltac:(lia)).
  pose proof (Z.div_mod s 60000000000 ltac:(lia)).
  pose proof (Z.mod_pos_bound s 60000000000 ltac:(lia)).
  split; [|split]; nia.
Qed.

Lemma isTimeInRange_between (tz : Z) (t : Time) (h1 m1 h2 m2 : Z) :
  0 <= h1 < 100 -> 0 <= m1 < 60 -> 0 <= h2 < 100 -> 0 <= m2 < 60 ->
  stealth.isTimeInRange (gotime.Format1504 tz t) (hhmm h1 m1) (hhmm h2 m2) =
  between (h1 * 60 + m1) (h2 * 60 + m2) (minuteOfDay tz t).
Proof.
  intros Hh1 Hm1 Hh2 Hm2.
  destruct (clock_ranges tz t) as (Hh & Hm & ->).
  unfold stealth.isTimeInRange, between. rewrite Format1504_hhmm.
  rewrite !hhmm_leb by lia. reflexivity.
Qed.

(** With windows written as two digits, a colon and two digits, the gate
    compares numbers: [CheckBusinessHours] is open exactly when the minute of
    the day lies in the business window and, if breaks are enabled, outside
    the break window, both ends included; the seconds play no part. *)
Theorem CheckBusinessHours_numeric (cfg : config.StealthConfig) (w : World)
  (hs ms he me bs bms be bme : Z) :
  config.BusinessHoursEnabled cfg = true ->
  config.BusinessHoursStart cfg = hhmm hs ms -> config.BusinessHoursEnd cfg = hhmm he me ->
  config.BreakTimeStart cfg = hhmm bs bms -> config.BreakTimeEnd cfg = hhmm be bme ->
  (0 <= hs < 24 /\ 0 <= ms < 60) /\ (0 <= he < 24 /\ 0 <= me < 60) ->
  (0 <= bs < 24 /\ 0 <= bms < 60) /\ (0 <= be < 24 /\ 0 <= bme < 60) ->
  let now := minuteOfDay (zone w) (nextNow w) in
  stealth.CheckBusinessHours cfg w =
  Returned
    (between (hs * 60 + ms) (he * 60 + me) now &&
     negb (config.BreakTimeEnabled cfg && between (bs * 60 + bms) (be * 60 + bme) now))
    (afterNow w).
Proof.
  intros Hon Hstart Hend Hbstart Hbend [[Hhs Hms] [Hhe Hme]] [[Hbs Hbms] [Hbe Hbme]] now.
  unfold stealth.CheckBusinessHours. rewrite Hon. cbn [negb].
  unfold mbind, M_bind, mret, M_ret. rewrite Now_eq. cbn [get].
  change (zone (afterNow w)) with (zone w).
  rewrite Hstart, Hend, Hbstart, Hbend.
  rewrite !isTimeInRange_between by lia. fold now.
  destruct (config.BreakTimeEnabled cfg); reflexivity.
Qed.

Lemma CheckBusinessHours_numeric_witness :
  stealth.CheckBusinessHours config.defaultStealth (examples.world (examples.at_ 17 0) [] []) =
  Returned true (afterNow (examples.world (examples.at_ 17 0) [] [])).
Proof.
  assert (Hwindow : (0 <= 9 < 24 /\ 0 <= 0 < 60) /\ (0 <= 17 < 24 /\ 0 <= 0 < 60)) by lia.
  assert (Hbreak : (0 <= 12 < 24 /\ 0 <= 0 < 60) /\ (0 <= 13 < 24 /\ 0 <= 0 < 60)) by lia.
  exact (CheckBusinessHours_numeric config.defaultStealth
           (examples.world (examples.at_ 17 0) [] []) 9 0 17 0 12 0 13 0
           eq_refl eq_refl eq_refl eq_refl eq_refl Hwindow Hbreak).
Defined.

Lemma Format1504_head (tz : Z) (t : Time) :
  exists c rest,
    gotime.Format1504 tz t = String c rest /\ (N_of_ascii c <= 50)%N.
Proof.
  destruct (clock_ranges tz t) as (Hh & _ & _).
  unfold gotime.Format1504, gotime.pad2, gotime.digit.
  set (d := gotime.HourOf tz t / 10 mod 10).
  assert (Hd : 0 <= d <= 2).
  { assert (Hq : 0 <= gotime.HourOf tz t / 10 < 3)
      by (split; [apply Z.div_pos; lia|apply Z.div_lt_upper_bound; lia]).
    unfold d. rewrite Z.mod_small; lia. }
  eexists _, _. split; [reflexivity|].
  rewrite N_ascii_embedding by lia. lia.
Qed.

Lemma isTimeInRange_unpadded (tz : Z) (t : Time) (c : ascii) (rest end_ : string) :
  (50 < N_of_ascii c)%N ->
  stealth.isTimeInRange (gotime.Format1504 tz t) (String c rest) end_ = false.
Proof.
  intros Hc. destruct (Format1504_head tz t) as (d & tail & -> & Hd).
  unfold stealth.isTimeInRange, String.leb at 1.
  cbn [String.compare]. unfold Ascii.compare.
  replace (N_of_ascii c ?= N_of_ascii d)%N with Gt by (symmetry; apply N.compare_gt_iff; lia).
  reflexivity.
Qed.

(** An hour written with one digit closes the gate. When the start of the
    business window begins with a character above "2", as "9:00" does, no
    time of the day is at or after it in the order of strings, and
    [CheckBusinessHours] is false at every instant. *)
Theorem CheckBusinessHours_unpadded_start (cfg : config.StealthConfig) (w : World)
  (c : ascii) (rest : string) :
  config.BusinessHoursEnabled cfg = true ->
  config.BusinessHoursStart cfg = String c rest ->
  (50 < N_of_ascii c)%N ->
  stealth.CheckBusinessHours cfg w = Returned false (afterNow w).
Proof.
  intros Hon Hstart Hc.
  unfold stealth.CheckBusinessHours. rewrite Hon. cbn [negb].
  unfold mbind, M_bind, mret, M_ret. rewrite Now_eq. cbn [get].
  change (zone (afterNow w)) with (zone w).
  rewrite Hstart, isTimeInRange_unpadded by exact Hc. reflexivity.
Qed.

Lemma CheckBusinessHours_unpadded_start_witness :
  let early :=
    {| config.MouseSpeed := config.MouseSpeed config.defaultStealth;
       config.MouseWanderEnabled := false;
       config.MouseWanderChance := config.MouseWanderChance config.defaultStealth;
       config.TypingSpeedMin := 80; config.TypingSpeedMax := 200;
       config.TypoChance := config.TypoChance config.defaultStealth;
       config.TypoCorrection := true;
       config.ActionDelayMin := 500; config.ActionDelayMax := 2000;
       config.ThinkTimeMin := 2000; config.ThinkTimeMax := 5000;
       config.ScrollEnabled := false;
       config.ScrollChance := config.ScrollChance config.defaultStealth;
       config.ScrollDistance := 300;
       config.ScrollAcceleration := config.ScrollAcceleration config.defaultStealth;
       config.BusinessHoursEnabled := true;
       config.BusinessHoursStart := "9:00"; config.BusinessHoursEnd := "17:00";
       config.BreakTimeEnabled := false;
       config.BreakTimeStart := "12:00"; config.BreakTimeEnd := "13:00";
       config.MaskWebDriver := true; config.MaskChrome := true;
       config.RandomViewport := false;
       config.ViewportWidthMin := 1200; config.ViewportWidthMax := 1920;
       config.ViewportHeightMin := 800; config.ViewportHeightMax := 1080 |} in
  stealth.CheckBusinessHours early (examples.world (examples.at_ 10 30) [] []) =
  Returned false (afterNow (examples.world (examples.at_ 10 30) [] [])).
Proof.
  intros early.
  apply (CheckBusinessHours_unpadded_start early _ "9" ":00"); try reflexivity.
Defined.

(** ** Templates *)

Lemma replaceFrom_absent (old new s : string) :
  occursIn old s = false -> messaging.replaceFrom old new s O = s.
Proof.
  induction s as [|c rest IH]; intros Habsent; [reflexivity|].
  cbn [occursIn] in Habsent. apply orb_false_iff in Habsent as [Hhere Hrest].
  cbn [messaging.replaceFrom]. rewrite Hhere, IH by exact Hrest. reflexivity.
Qed.

Lemma replaceFrom_skip (old new x s : string) :
  messaging.replaceFrom old new (x +:+ s) (String.length x) =
  messaging.replaceFrom old new s O.
Proof. induction x as [|c x IH]; [reflexivity|]. simpl. exact IH. Qed.

Lemma prefix_app_refl (old s : string) : String.prefix old (old +:+ s) = true.
Proof.
  induction old as [|c old IH]; [destruct s; reflexivity|].
  simpl. destruct (ascii_dec c c); [exact IH|contradiction].
Qed.

Lemma hasChar_app (c : ascii) (s t : string) :
  hasChar c (s +:+ t) = hasChar c s || hasChar c t.
Proof.
  induction s as [|d s IH]; [reflexivity|]. simpl. rewrite IH. apply orb_assoc.
Qed.

Lemma hasChar_occursIn (c : ascii) (old s : string) :
  hasChar c s = false -> occursIn (String c old) s = false.
Proof.
  induction s as [|d s IH]; intros Hc; [reflexivity|].
  cbn [hasChar] in Hc. apply orb_false_iff in Hc as [Hd Hs].
  cbn [occursIn String.prefix]. rewrite IH by exact Hs.
  destruct (ascii_dec c d) as [->|Hne]; [|reflexivity].
  rewrite Ascii.eqb_refl in Hd. discriminate.
Qed.

(** The first occurrence of [old] is replaced and the rest is treated in
    turn, when the text before it cannot start a match. *)
Lemma replaceFrom_first (c : ascii) (old new before after : string) :
  hasChar c before = false ->
  messaging.replaceFrom (String c old) new (before +:+ String c old +:+ after) O =
  before +:+ new +:+ messaging.replaceFrom (String c old) new after O.
Proof.
  intros Hc. induction before as [|d before IH].
  - change (EmptyString +:+ String c old +:+ after) with (String c (old +:+ after)).
    cbn [messaging.replaceFrom].
    change (String c (old +:+ after)) with (String c old +:+ after) at 1.
    rewrite prefix_app_refl. cbn [String.length Nat.pred].
    rewrite replaceFrom_skip. reflexivity.
  - cbn [hasChar] in Hc. apply orb_false_iff in Hc as [Hd Hbefore].
    change (String d before +:+ String c old +:+ after)
      with (String d (before +:+ String c old +:+ after)).
    cbn [messaging.replaceFrom String.prefix].
    destruct (ascii_dec c d) as [->|Hne].
    + rewrite Ascii.eqb_refl in Hd. discriminate.
    + rewrite IH by exact Hbefore. reflexivity.
Qed.

(** [renderTemplate] fails on a name that is not a template, with an empty
    content; and it puts the name of the profile in the place of the
    placeholder of a template that has no other brace, the rest of the
    template unchanged, when the name has no brace either. *)
Theorem renderTemplate_spec (templates : gmap string string) (templateName : string)
  (p : Profile) :
  (templates !! templateName = None ->
   messaging.renderTemplate templates templateName p =
     ("", Some ("template not found: " +:+ templateName))) /\
  (forall before after : string,
     templates !! templateName = Some (before +:+ "{{.Name}}" +:+ after) ->
     hasChar "{" before = false -> hasChar "{" after = false ->
     hasChar "{" (Name p) = false ->
     messaging.renderTemplate templates templateName p =
       (before +:+ Name p +:+ after, None)).
Proof.
  split.
  - intros Hnone. unfold messaging.renderTemplate. rewrite Hnone. reflexivity.
  - intros before after Hsome Hbefore Hafter Hname.
    unfold messaging.renderTemplate. rewrite Hsome. cbv zeta.
    unfold messaging.ReplaceAll.
    rewrite (replaceFrom_first "{" "{.Name}}" (Name p) before after Hbefore).
    rewrite (replaceFrom_absent _ _ after) by (apply hasChar_occursIn, Hafter).
    assert (Hclean : hasChar "{" (before +:+ Name p +:+ after) = false)
      by (rewrite !hasChar_app, Hbefore, Hname, Hafter; reflexivity).
    rewrite (replaceFrom_absent "{{.Title}}") by (apply hasChar_occursIn, Hclean).
    rewrite (replaceFrom_absent "{{.Company}}") by (apply hasChar_occursIn, Hclean).
    reflexivity.
Qed.

Lemma renderTemplate_spec_witness :
  messaging.renderTemplate messaging.defaultTemplates "follow_up_short" examples.bob =
  ("Hi Bob, thanks for connecting! Looking forward to staying in touch.", None).
Proof.
  exact (proj2 (renderTemplate_spec messaging.defaultTemplates "follow_up_short"
                  examples.bob)
           "Hi " ", thanks for connecting! Looking forward to staying in touch."
           eq_refl eq_refl eq_refl eq_refl).
Defined.

(** ** A message that is sent *)

Lemma runs_WaitForPageLoad : runs (1500 * gotime.Millisecond) stealth.WaitForPageLoad.
Proof. apply runs_pause; unfold maxMillis; lia. Qed.

Lemma runs_TypeHumanLike (cfg : config.StealthConfig) (selector text : string) :
  sane cfg ->
  runs (Z.of_nat (length (stealth.runes text 0)) *
        (config.TypingSpeedMin cfg * gotime.Millisecond))
    (stealth.TypeHumanLike cfg selector text).
Proof.
  intros Hsane. unfold stealth.TypeHumanLike.
  apply runs_then; [apply runs_Now|]. intros _.
  apply runs_first; [apply runs_typeRunes, Hsane|]. intros _. apply runs_ret.
Qed.

Lemma runs_GetMessagesByProfile (profileID : string) :
  runs 0 (storage.GetMessagesByProfile profileID).
Proof.
  intros w. destruct (GetMessagesByProfile_filter profileID w) as (messages & Hrun & _).
  eexists _, _. split; [exact Hrun|]. split; [cbn; lia|repeat split].
Qed.

Lemma navigateToConversation_returns (cfg : config.StealthConfig) (profile : ptr)
  (p : Profile) (w : World) :
  sane cfg -> heap w !! profile = Some p ->
  exists w',
    messaging.navigateToConversation cfg profile w = Returned None w' /\
    clock w + (config.ActionDelayMin cfg + 1500) * gotime.Millisecond <= clock w' /\
    kept w w'.
Proof.
  intros Hsane Hp. unfold messaging.navigateToConversation.
  unfold mbind at 1, M_bind at 1. rewrite (deref_Some _ _ _ Hp).
  step ltac:(apply runs_RandomDelay, Hsane).
  step ltac:(apply runs_WaitForPageLoad).
  exists w1. split; [reflexivity|]. split; [lia|]. eapply kept_trans; eassumption.
Qed.

Lemma typeAndSend_returns (cfg : config.StealthConfig) (content : string) (w : World) :
  sane cfg ->
  exists w',
    messaging.typeAndSend cfg content w = Returned None w' /\
    clock w +
      (2 * config.ActionDelayMin cfg + 2 * config.ThinkTimeMin cfg +
       Z.of_nat (length (stealth.runes content 0)) * config.TypingSpeedMin cfg) *
      gotime.Millisecond <= clock w' /\
    kept w w'.
Proof.
  intros Hsane. unfold messaging.typeAndSend.
  step ltac:(apply runs_MoveMouse).
  step ltac:(apply runs_RandomDelay, Hsane).
  step ltac:(apply runs_ThinkingPause, Hsane).
  step ltac:(apply runs_TypeHumanLike, Hsane).
  step ltac:(apply runs_ThinkingPause, Hsane).
  step ltac:(apply runs_MoveMouse).
  step ltac:(apply runs_RandomDelay, Hsane).
  exists w6. split; [reflexivity|]. split; [lia|].
  repeat (eapply kept_trans; [eassumption|]). apply kept_refl.
Qed.

Lemma SendMessage_returns (cfg : config.StealthConfig) (limits : config.LimitsConfig)
  (templates : gmap string string) (profile : ptr) (templateName template : string)
  (p : Profile) (w : World) :
  sane cfg -> heap w !! profile = Some p ->
  State p = StateAccepted \/ State p = StateCooledDown ->
  tally (counted "message" (gotime.startOfDay (zone w) (nextNow (afterNow w)))) (ledger w)
    < config.MessagesPerDay limits ->
  templates !! templateName = Some template ->
  let content := (messaging.renderTemplate templates templateName p).1 in
  exists w' t1 t2 t3,
    messaging.SendMessage cfg limits templates profile templateName w = Returned None w' /\
    clock w + sendingTime cfg content * gotime.Millisecond <= t1 /\
    t1 <= t2 <= t3 /\ t3 <= clock w' /\
    Messages (data w') =
      <["msg-" +:+ messaging.itoa (gotime.UnixNano t1) :=
          {| MsgID := "msg-" +:+ messaging.itoa (gotime.UnixNano t1);
             MsgProfileID := ID p; Content := content; SentAt := t2;
             Template := templateName |}]> (Messages (data w)) /\
    ledger w' = ledger w ++ [messaged t3 (ID p)] /\
    heap w' = heap w /\
    Profiles (data w') = Profiles (data w).
Proof.
  intros Hsane Hp Hstate Hlimit Htemplate content.
  unfold messaging.SendMessage.
  unfold mbind at 1, M_bind at 1. rewrite (deref_Some _ _ _ Hp).
  unfold mbind at 1, M_bind at 1. rewrite Now_eq.
  unfold mbind at 1, M_bind at 1. rewrite GetActionCountToday_eq.
  change (ActionLogs (data (afterNow w))) with (ledger w).
  change (zone (afterNow w)) with (zone w).
  replace (_ >=? config.MessagesPerDay limits) with false
    by (symmetry; rewrite Z.geb_leb; apply Z.leb_gt; exact Hlimit).
  replace (negb (String.eqb (State p) StateAccepted) &&
           negb (String.eqb (State p) StateCooledDown)) with false
    by (destruct Hstate as [-> | ->]; reflexivity).
  set (w0 := afterNow (afterNow w)).
  assert (Hw0 : clock w <= clock w0 /\ kept w w0).
  { split; [|repeat split]. unfold w0, afterNow, nextNow. cbn. unfold nextNow. lia. }
  destruct Hw0 as [Hclock0 Hkept0].
  step ltac:(apply runs_GetMessagesByProfile).
  assert (Hrender : messaging.renderTemplate templates templateName p = (content, None)).
  { unfold content, messaging.renderTemplate. rewrite Htemplate. reflexivity. }
  rewrite Hrender.
  assert (Hkept1 : kept w w1) by exact (kept_trans _ _ _ Hkept0 Hkept).
  destruct (navigateToConversation_returns cfg profile p w1 Hsane)
    as (w2 & Hnav & Hclock2 & Hkept2).
  { destruct Hkept1 as [(_ & -> & _) _]. exact Hp. }
  unfold mbind at 1, M_bind at 1. rewrite Hnav.
  destruct (typeAndSend_returns cfg content w2 Hsane) as (w3 & Htype & Hclock3 & Hkept3).
  unfold mbind at 1, M_bind at 1. rewrite Htype.
  assert (Hkept' : kept w w3)
    by exact (kept_trans _ _ _ Hkept1 (kept_trans _ _ _ Hkept2 Hkept3)).
  destruct Hkept' as [(Hdata & Hheap & _) _].
  unfold mbind at 1, M_bind at 1. rewrite Now_eq.
  unfold mbind at 1, M_bind at 1. rewrite Now_eq.
  set (t1 := nextNow w3). set (t2 := nextNow (afterNow w3)).
  set (message := {| MsgID := _; MsgProfileID := _; Content := _; SentAt := _;
                     Template := _ |}).
  destruct (SaveMessage_effect message (afterNow (afterNow w3)))
    as (e1 & w4 & Hsave & _ & Hmessages & Hledger4 & Hprofiles4 & Hheap4).
  unfold mbind at 1, M_bind at 1. rewrite Hsave.
  destruct (LogAction_effect w4 "message" (ID p) true None)
    as (e2 & w5 & Hlog & Hlogs & Hprofiles5 & Hmessages5 & Hheap5 & _).
  unfold mbind, M_bind. rewrite Hlog.
  assert (Ht12 : t1 <= t2) by (unfold t1, t2, afterNow, nextNow; cbn; lia).
  assert (Hclock4 : t2 <= clock w4).
  { revert Hsave. unfold storage.SaveMessage, mbind at 1, M_bind at 1. cbn [modify].
    intros Hsave. apply save_clock in Hsave. rewrite Hsave.
    unfold t2, nextNow, afterNow. cbn. unfold nextNow. cbn. lia. }
  assert (Hclock5 : nextNow w4 <= clock w5).
  { revert Hlog. unfold storage.LogAction, mbind at 1, M_bind at 1. rewrite Now_eq.
    unfold mbind at 1, M_bind at 1. cbn [modify].
    intros Hlog. apply save_clock in Hlog. rewrite Hlog.
    unfold nextNow, afterNow. cbn. unfold nextNow. cbn. lia. }
  exists w5, t1, t2, (nextNow w4). split; [reflexivity|].
  split; [unfold sendingTime, t1, nextNow; lia|].
  split; [unfold nextNow; lia|]. split; [exact Hclock5|].
  split; [rewrite Hmessages5, Hmessages; cbn; rewrite Hdata; reflexivity|].
  split; [unfold ledger in *; rewrite Hlogs, Hledger4; cbn; rewrite Hdata; reflexivity|].
  split; [rewrite Hheap5, Hheap4; cbn; exact Hheap|].
  rewrite Hprofiles5, Hprofiles4. cbn. rewrite Hdata. reflexivity.
Qed.

(** A message to an accepted or cooled-down profile, under the daily limit,
    with a known template and a sane configuration, is always sent:
    [SendMessage] returns nil, also when the store cannot be written. It
    takes at least three action delays, two thinking pauses, the page load
    and the typing of the content; then the message, with the rendered
    content, is in the store under its ID, no other message has moved, one
    success record "message" for the profile is appended to the ledger, and
    the profiles are as they were. *)
Theorem SendMessage_sends (cfg : config.StealthConfig) (limits : config.LimitsConfig)
  (templates : gmap string string) (profile : ptr) (templateName template : string)
  (p : Profile) (w : World) :
  sane cfg -> heap w !! profile = Some p ->
  State p = StateAccepted \/ State p = StateCooledDown ->
  tally (counted "message" (gotime.startOfDay (zone w) (nextNow (afterNow w)))) (ledger w)
    < config.MessagesPerDay limits ->
  templates !! templateName = Some template ->
  exists w' message t,
    messaging.SendMessage cfg limits templates profile templateName w = Returned None w' /\
    MsgProfileID message = ID p /\
    Content message = (messaging.renderTemplate templates templateName p).1 /\
    Template message = templateName /\
    clock w + sendingTime cfg (Content message) * gotime.Millisecond <= SentAt message /\
    SentAt message <= t <= clock w' /\
    Messages (data w') !! MsgID message = Some message /\
    (forall id, id <> MsgID message ->
       Messages (data w') !! id = Messages (data w) !! id) /\
    ledger w' = ledger w ++ [messaged t (ID p)] /\
    heap w' = heap w.
Proof.
  intros Hsane Hp Hstate Hlimit Htemplate.
  destruct (SendMessage_returns cfg limits templates profile templateName template p w
              Hsane Hp Hstate Hlimit Htemplate)
    as (w' & t1 & t2 & t3 & Hrun & Hclock & Ht & Ht3 & Hmessages & Hledger & Hheap & _).
  exists w',
    {| MsgID := "msg-" +:+ messaging.itoa (gotime.UnixNano t1);
       MsgProfileID := ID p;
       Content := (messaging.renderTemplate templates templateName p).1;
       SentAt := t2; Template := templateName |}, t3.
  cbn [MsgID MsgProfileID Content SentAt Template].
  split; [exact Hrun|]. split; [reflexivity|]. split; [reflexivity|].
  split; [reflexivity|]. split; [lia|]. split; [lia|].
  split; [rewrite Hmessages; apply lookup_insert_eq|].
  split; [intros id Hid; rewrite Hmessages; apply lookup_insert_ne; congruence|].
  split; [exact Hledger|exact Hheap].
Qed.

Lemma SendMessage_sends_witness :
  exists w' message t,
    messaging.SendMessage config.defaultStealth config.defaultLimits
      messaging.defaultTemplates 2%positive "follow_up_short"
      (examples.world (examples.at_ 10 0) [] [Some "disk full"; Some "disk full"]) =
      Returned None w' /\
    Content message =
      "Hi Bob, thanks for connecting! Looking forward to staying in touch." /\
    Messages (data w') !! MsgID message = Some message /\
    ledger w' = [messaged t "p-bob"].
Proof.
  destruct (SendMessage_sends config.defaultStealth config.defaultLimits
              messaging.defaultTemplates 2%positive "follow_up_short"
              "Hi {{.Name}}, thanks for connecting! Looking forward to staying in touch."
              examples.bob
              (examples.world (examples.at_ 10 0) [] [Some "disk full"; Some "disk full"])
              defaultStealth_sane eq_refl)
    as (w' & message & t & Hrun & _ & Hcontent & _ & _ & _ & Hstored & _ & Hledger & _).
  - left. reflexivity.
  - vm_compute. reflexivity.
  - reflexivity.
  - exists w', message, t. split; [exact Hrun|]. split; [exact Hcontent|].
    split; [exact Hstored|exact Hledger].
Defined.

(** ** The path of the mouse *)

Lemma forRange_Sleep (n : nat) (i : Z) (d : Duration) (w : World) :
  0 < d ->
  exists w',
    stealth.forRange n i (fun _ => Sleep d) w = Returned tt w' /\
    sleeps w' = sleeps w ++ replicate n d /\
    clock w' = clock w + Z.of_nat n * d /\
    kept w w'.
Proof.
  intros Hd. revert i w. induction n as [|n IH]; intros i w.
  - exists w. split; [reflexivity|]. split; [rewrite app_nil_r; reflexivity|].
    split; [lia|apply kept_refl].
  - cbn [stealth.forRange]. unfold mbind at 1, M_bind at 1, Sleep at 1.
    replace (d <=? 0) with false by (symmetry; apply Z.leb_gt; exact Hd).
    destruct (IH (i + 1) (with_sleep (clock w + d) (sleeps w ++ [d]) w))
      as (w' & Hrun & Hsleeps & Hclock & Hkept).
    exists w'. split; [exact Hrun|]. split; [|split].
    + rewrite Hsleeps. cbn [sleeps with_sleep replicate]. rewrite <- app_assoc. reflexivity.
    + rewrite Hclock. cbn [clock with_sleep]. lia.
    + eapply kept_trans; [|exact Hkept]. repeat split.
Qed.

Lemma generateBezierControlPoints_returns (x1 y1 x2 y2 : float64) (w : World) :
  exists cps,
    stealth.generateBezierControlPoints x1 y1 x2 y2 w =
    Returned cps (with_rng (tl (tl (tl (tl (rng w))))) w).
Proof.
  unfold stealth.generateBezierControlPoints, stealth.randomFloat, mbind, M_bind,
    mret, M_ret, Float64.
  eexists. reflexivity.
Qed.

(** [MoveMouse] goes along the curve in 10 to 100 steps, whatever the target
    (also when a coordinate is infinite or not a number), and waits after
    each of the [steps + 1] points for the whole number of milliseconds in
    [1000 / MouseSpeed]; it returns nil and leaves the store alone. *)
Theorem MoveMouse_steps (cfg : config.StealthConfig) (toX toY : float64) (w : World) :
  let steps :=
    stealth.calculateSteps (float64.of_int 100) (float64.of_int 100) toX toY in
  let delay :=
    goint.mul (float64.to_int (float64.div (float64.of_int 1000) (config.MouseSpeed cfg)))
      gotime.Millisecond in
  10 <= steps <= 100 /\
  (0 < delay ->
   exists w',
     stealth.MoveMouse cfg toX toY w = Returned None w' /\
     sleeps w' = sleeps w ++ replicate (Z.to_nat (steps + 1)) delay /\
     clock w + (steps + 1) * delay <= clock w' /\
     kept w w').
Proof.
  intros steps delay.
  assert (Hsteps : 10 <= steps <= 100).
  { unfold steps, stealth.calculateSteps. cbv zeta.
    destruct (_ <? 10) eqn:Hlow; [cbn; lia|].
    apply Z.ltb_ge in Hlow.
    destruct (_ >? 100) eqn:Hhigh; [lia|].
    rewrite Z.gtb_ltb in Hhigh. apply Z.ltb_ge in Hhigh. lia. }
  split; [exact Hsteps|].
  - intros Hdelay. unfold stealth.MoveMouse.
    unfold mbind at 1, M_bind at 1. rewrite Now_eq.
    unfold stealth.getCurrentMousePosition. cbv beta iota.
    destruct (generateBezierControlPoints_returns (float64.of_int 100) (float64.of_int 100)
                toX toY (afterNow w)) as (cps & Hgen).
    unfold mbind at 1, M_bind at 1. rewrite Hgen.
    cbv zeta. fold steps. fold delay.
    set (w1 := with_rng _ (afterNow w)).
    destruct (forRange_Sleep (Z.to_nat (steps + 1)) 0 delay w1 Hdelay)
      as (w' & Hrun & Hsleeps & Hclock & Hkept).
    unfold mbind, M_bind. rewrite Hrun. exists w'. split; [reflexivity|].
    split; [exact Hsleeps|]. split.
    + rewrite Hclock, Z2Nat.id by lia. unfold w1, afterNow, nextNow. cbn. lia.
    + eapply kept_trans; [|exact Hkept]. repeat split.
Qed.

Lemma MoveMouse_steps_witness :
  exists w',
    stealth.MoveMouse config.defaultStealth (float64.of_int 800) (float64.of_int 400)
      (examples.world (examples.at_ 10 0) [] []) = Returned None w' /\
    sleeps w' = replicate 101 (3 * gotime.Millisecond).
Proof.
  destruct (MoveMouse_steps config.defaultStealth (float64.of_int 800) (float64.of_int 400)
              (examples.world (examples.at_ 10 0) [] [])) as [_ Hmove].
  destruct Hmove as (w' & Hrun & Hsleeps & _); [vm_compute; reflexivity|].
  exists w'. split; [exact Hrun|]. rewrite Hsleeps. vm_compute. reflexivity.
Defined.

(** ** Waiting for the gate *)

(** With a start of the business window written with one digit for the
    hour, [WaitForBusinessHours] never comes to an end: however many times
    it checks the gate, it finds it closed and sleeps another 15 minutes. *)
Theorem WaitForBusinessHours_never_returns (cfg : config.StealthConfig) (c : ascii)
  (rest : string) (fuel : nat) (w : World) :
  config.BusinessHoursEnabled cfg = true ->
  config.BusinessHoursStart cfg = String c rest ->
  (50 < N_of_ascii c)%N ->
  exists w',
    stealth.WaitForBusinessHours cfg fuel w = Returned false w' /\
    sleeps w' = sleeps w ++ replicate fuel (15 * gotime.Minute) /\
    clock w + Z.of_nat fuel * (15 * gotime.Minute) <= clock w'.
Proof.
  intros Hon Hstart Hc. revert w. induction fuel as [|fuel IH]; intros w.
  - exists w. split; [reflexivity|]. split; [rewrite app_nil_r; reflexivity|]. lia.
  - cbn [stealth.WaitForBusinessHours].
    assert (Hclosed : stealth.CheckBusinessHours cfg w = Returned false (afterNow w)).
    { unfold stealth.CheckBusinessHours. rewrite Hon. cbn [negb].
      unfold mbind, M_bind, mret, M_ret. rewrite Now_eq. cbn [get].
      change (zone (afterNow w)) with (zone w).
      rewrite Hstart, isTimeInRange_unpadded by exact Hc. reflexivity. }
    unfold mbind at 1, M_bind at 1. rewrite Hclosed.
    unfold mbind at 1, M_bind at 1, Sleep at 1.
    change (15 * gotime.Minute <=? 0) with false. cbv iota.
    destruct (IH (with_sleep (clock (afterNow w) + 15 * gotime.Minute)
                    (sleeps (afterNow w) ++ [15 * gotime.Minute]) (afterNow w)))
      as (w' & Hrun & Hsleeps & Hclock).
    exists w'. split; [exact Hrun|]. split.
    + rewrite Hsleeps. cbn [sleeps with_sleep afterNow with_clock replicate].
      rewrite <- app_assoc. reflexivity.
    + revert Hclock. cbn [clock with_sleep afterNow with_clock]. unfold nextNow. lia.
Qed.

Lemma WaitForBusinessHours_never_returns_witness :
  let early :=
    {| config.MouseSpeed := config.MouseSpeed config.defaultStealth;
       config.MouseWanderEnabled := false;
       config.MouseWanderChance := config.MouseWanderChance config.defaultStealth;
       config.TypingSpeedMin := 80; config.TypingSpeedMax := 200;
       config.TypoChance := config.TypoChance config.defaultStealth;
       config.TypoCorrection := true;
       config.ActionDelayMin := 500; config.ActionDelayMax := 2000;
       config.ThinkTimeMin := 2000; config.ThinkTimeMax := 5000;
       config.ScrollEnabled := false;
       config.ScrollChance := config.ScrollChance config.defaultStealth;
       config.ScrollDistance := 300;
       config.ScrollAcceleration := config.ScrollAcceleration config.defaultStealth;
       config.BusinessHoursEnabled := true;
       config.BusinessHoursStart := "9:00"; config.BusinessHoursEnd := "17:00";
       config.BreakTimeEnabled := false;
       config.BreakTimeStart := "12:00"; config.BreakTimeEnd := "13:00";
       config.MaskWebDriver := true; config.MaskChrome := true;
       config.RandomViewport := false;
       config.ViewportWidthMin := 1200; config.ViewportWidthMax := 1920;
       config.ViewportHeightMin := 800; config.ViewportHeightMax := 1080 |} in
  exists w',
    stealth.WaitForBusinessHours early 96 (examples.world (examples.at_ 10 30) [] []) =
      Returned false w' /\
    sleeps w' = replicate 96 (15 * gotime.Minute).
Proof.
  intros early.
  destruct (WaitForBusinessHours_never_returns early "9" ":00" 96
              (examples.world (examples.at_ 10 30) [] []) eq_refl eq_refl eq_refl)
    as (w' & Hrun & Hsleeps & _).
  exists w'. split; [exact Hrun|exact Hsleeps].
Defined.

(** ** Following up once *)

Lemma unmessagedOf_none (accepted : list ptr) (w : World) :
  (forall profile, profile ∈ accepted ->
     exists p id message,
       heap w !! profile = Some p /\
       Messages (data w) !! id = Some message /\ MsgProfileID message = ID p) ->
  exists o, messaging.unmessagedOf accepted w = Returned [] (with_order o w).
Proof.
  revert w. induction accepted as [|profile rest IH]; intros w Hall.
  - exists (order w). destruct w. reflexivity.
  - cbn [messaging.unmessagedOf].
    destruct (Hall profile) as (p & id & message & Hp & Hmessage & Hid); [left|].
    unfold mbind at 1, M_bind at 1. rewrite (deref_Some _ _ _ Hp).
    destruct (GetMessagesByProfile_filter (ID p) w) as (messages & Hget & Hperm).
    unfold mbind at 1, M_bind at 1. rewrite Hget.
    assert (Hin : message ∈ messages).
    { rewrite Hperm. apply list_elem_of_filter. split; [apply String.eqb_eq, Hid|].
      apply list_elem_of_fmap. exists (id, message). split; [reflexivity|].
      apply elem_of_map_to_list, Hmessage. }
    destruct (IH (afterRange (size (Messages (data w))) w)) as (o & Hrest).
    { intros c Hc. apply Hall. right. exact Hc. }
    unfold mbind, M_bind. rewrite Hrest. exists o.
    destruct messages as [|m ms]; [inversion Hin|]. reflexivity.
Qed.

(** No follow-up is sent twice. When every accepted profile of the store
    already has a message, [ProcessAcceptedConnections] returns nil at once:
    it sends nothing, sleeps for nothing, reads no clock and leaves the store
    and the ledger as they are; only the order of the next map traversal may
    differ. *)
Theorem ProcessAcceptedConnections_sends_once (cfg : config.StealthConfig)
  (limits : config.LimitsConfig) (templates : gmap string string) (w : World) :
  live w ->
  (forall id profile p,
     Profiles (data w) !! id = Some profile -> heap w !! profile = Some p ->
     State p = StateAccepted ->
     exists mid message,
       Messages (data w) !! mid = Some message /\ MsgProfileID message = ID p) ->
  exists o,
    messaging.ProcessAcceptedConnections cfg limits templates w =
    Returned None (with_order o w).
Proof.
  intros Hlive Hmessaged. unfold messaging.ProcessAcceptedConnections.
  destruct (GetProfilesByState_returns StateAccepted w Hlive) as (accepted & Hget & Hperm).
  unfold mbind at 1, M_bind at 1. rewrite Hget.
  destruct (unmessagedOf_none accepted (afterRange (size (Profiles (data w))) w))
    as (o & Hrun).
  { intros profile Hprofile. rewrite Hperm in Hprofile.
    apply elem_of_stored in Hprofile as (id & p & Hid & Hp & Hstate).
    destruct (Hmessaged id profile p Hid Hp Hstate) as (mid & message & Hm & Hpid).
    exists p, mid, message. auto. }
  unfold mbind, M_bind. rewrite Hrun. exists o. reflexivity.
Qed.

Lemma ProcessAcceptedConnections_sends_once_witness :
  let hello :=
    {| MsgID := "msg-1"; MsgProfileID := "p-bob"; Content := "Hi Bob";
       SentAt := examples.at_ 9 30; Template := "follow_up_short" |} in
  let w0 := examples.world (examples.at_ 10 0) [] [] in
  let w := with_data (storage.setMessages (<["msg-1" := hello]> ∅) (data w0)) w0 in
  exists o,
    messaging.ProcessAcceptedConnections config.defaultStealth config.defaultLimits
      messaging.defaultTemplates w = Returned None (with_order o w).
Proof.
  intros hello w0 w.
  apply ProcessAcceptedConnections_sends_once.
  - exact (examples_live (examples.at_ 10 0) [] []).
  - intros id profile p Hid Hp Hstate. exists "msg-1", hello.
    split; [reflexivity|].
    cbn in Hid.
    apply lookup_insert_Some in Hid as [[_ <-]|[_ Hid]].
    { cbn in Hp. injection Hp as <-. discriminate Hstate. }
    apply lookup_insert_Some in Hid as [[_ <-]|[_ Hid]].
    { cbn in Hp. injection Hp as <-. reflexivity. }
    rewrite lookup_empty in Hid. discriminate.
Defined.

(** ** Runes and bytes *)

Lemma land_shiftl_small (x y n : Z) :
  0 <= n -> 0 <= y < 2 ^ n -> Z.land (Z.shiftl x n) y = 0.
Proof.
  intros Hn Hy. apply Z.bits_inj'. intros m Hm.
  rewrite Z.land_spec, Z.bits_0.
  destruct (Z.ltb_spec m n) as [Hlt|Hge].
  - rewrite Z.shiftl_spec_low by exact Hlt. reflexivity.
  - replace (Z.testbit y m) with false; [apply andb_false_r|].
    symmetry. destruct (Z.eq_dec y 0) as [->|Hy0]; [apply Z.bits_0|].
    apply Z.bits_above_log2; [lia|].
    assert (Z.log2 y < n) by (apply Z.log2_lt_pow2; lia). lia.
Qed.

Lemma lor_shiftl (x y n : Z) :
  0 <= n -> 0 <= y < 2 ^ n -> Z.lor (Z.shiftl x n) y = x * 2 ^ n + y.
Proof.
  intros Hn Hy. pose proof (land_shiftl_small x y n Hn Hy) as Hland.
  rewrite <- (Z.lxor_lor _ _ Hland), <- (Z.add_nocarry_lxor _ _ Hland).
  rewrite Z.shiftl_mul_pow2 by exact Hn. reflexivity.
Qed.

Lemma land_low (v n : Z) : 0 <= n -> Z.land v (Z.ones n) = v mod 2 ^ n.
Proof. intros Hn. apply Z.land_ones, Hn. Qed.

Lemma byte_range (c : ascii) : 0 <= stealth.byte c < 256.
Proof.
  unfold stealth.byte. pose proof (N_ascii_bounded c). lia.
Qed.

Lemma byte_at (c : ascii) : stealth.byte c = 64 <-> c = "@"%char.
Proof.
  unfold stealth.byte. split.
  - intros Hc. rewrite <- (ascii_N_embedding c).
    replace (N_of_ascii c) with 64%N by lia. reflexivity.
  - intros ->. reflexivity.
Qed.

Lemma inRange_byte (lo hi : Z) (j : nat) (rest : string) :
  stealth.inRange lo hi (stealth.nthByte j rest) = true ->
  exists d, String.get j rest = Some d /\ lo <= stealth.byte d <= hi.
Proof.
  unfold stealth.inRange, stealth.nthByte.
  destruct (String.get j rest) as [d|]; [|discriminate]. cbn.
  intros H. apply andb_true_iff in H as [Hlo Hhi].
  apply Z.leb_le in Hlo, Hhi. eauto.
Qed.

Lemma cont_byte (j : nat) (rest : string) (d : ascii) :
  String.get j rest = Some d ->
  Z.land (default 0 (stealth.nthByte j rest)) 63 = stealth.byte d mod 64.
Proof.
  intros Hd. unfold stealth.nthByte. rewrite Hd. cbn [fmap option_fmap option_map default].
  change 63 with (Z.ones 6). apply Z.land_ones. lia.
Qed.

Lemma high_byte_clear (d : ascii) : 128 <= stealth.byte d -> d <> "@"%char.
Proof. intros Hd ->. revert Hd. vm_compute. intros H. apply H. reflexivity. Qed.

Lemma clearOf_1 (rest : string) (d : ascii) :
  String.get 0 rest = Some d -> 128 <= stealth.byte d -> clearOf "@" 1 rest.
Proof.
  destruct rest as [|c rest]; [discriminate|]. cbn. intros [= ->] Hd.
  split; [apply high_byte_clear, Hd|]. destruct rest; exact I.
Qed.

Lemma clearOf_2 (rest : string) (d0 d1 : ascii) :
  String.get 0 rest = Some d0 -> 128 <= stealth.byte d0 ->
  String.get 1 rest = Some d1 -> 128 <= stealth.byte d1 ->
  clearOf "@" 2 rest.
Proof.
  destruct rest as [|c rest]; [discriminate|]. cbn [String.get clearOf].
  intros [= ->] Hd0 H1 Hd1. split; [apply high_byte_clear, Hd0|].
  exact (clearOf_1 rest d1 H1 Hd1).
Qed.

Lemma clearOf_3 (rest : string) (d0 d1 d2 : ascii) :
  String.get 0 rest = Some d0 -> 128 <= stealth.byte d0 ->
  String.get 1 rest = Some d1 -> 128 <= stealth.byte d1 ->
  String.get 2 rest = Some d2 -> 128 <= stealth.byte d2 ->
  clearOf "@" 3 rest.
Proof.
  destruct rest as [|c rest]; [discriminate|]. cbn [String.get clearOf].
  intros [= ->] Hd0 H1 Hd1 H2 Hd2. split; [apply high_byte_clear, Hd0|].
  exact (clearOf_2 rest d1 d2 H1 Hd1 H2 Hd2).
Qed.

Ltac pow2 :=
  change (2 ^ 3) with 8 in *; change (2 ^ 4) with 16 in *; change (2 ^ 5) with 32 in *;
  change (2 ^ 6) with 64 in *; change (2 ^ 12) with 4096 in *;
  change (2 ^ 18) with 262144 in *; Z.div_mod_to_equations; lia.

(** A rune that does not start with the byte of [@] is not [@], and the
    bytes that follow its first byte are not [@] either. *)
Lemma decodeRune_other (b0 : Z) (rest : string) :
  0 <= b0 < 256 -> b0 <> 64 ->
  (stealth.decodeRune b0 rest).1 <> 64 /\
  clearOf "@" (Nat.pred (stealth.decodeRune b0 rest).2) rest.
Proof.
  intros Hb0 Hne. unfold stealth.decodeRune. cbv zeta.
  destruct (b0 <? 128) eqn:H1; [cbn; split; [exact Hne|destruct rest; exact I]|].
  apply Z.ltb_ge in H1.
  assert (Herror : (stealth.RuneError, 1%nat).1 <> 64 /\
                   clearOf "@" (Nat.pred (stealth.RuneError, 1%nat).2) rest)
    by (cbn; split; [discriminate|destruct rest; exact I]).
  destruct ((194 <=? b0) && (b0 <=? 223)) eqn:H2.
  { apply andb_true_iff in H2 as [Hlo Hhi]. apply Z.leb_le in Hlo, Hhi.
    destruct (stealth.inRange 128 191 (stealth.nthByte 0 rest)) eqn:Hb1; [|exact Herror].
    apply inRange_byte in Hb1 as (d1 & Hd1 & Hr1).
    cbn [fst snd Nat.pred]. split; [|apply (clearOf_1 rest d1 Hd1); lia].
    rewrite (cont_byte 0 rest d1 Hd1). change 31 with (Z.ones 5).
    rewrite Z.land_ones by lia. rewrite lor_shiftl by pow2. pow2. }
  destruct ((224 <=? b0) && (b0 <=? 239)) eqn:H3.
  { apply andb_true_iff in H3 as [Hlo Hhi]. apply Z.leb_le in Hlo, Hhi.
    destruct (stealth.inRange _ _ _ && stealth.inRange _ _ _) eqn:Hvalid; [|exact Herror].
    apply andb_true_iff in Hvalid as [Hb1 Hb2].
    apply inRange_byte in Hb1 as (d1 & Hd1 & Hr1).
    apply inRange_byte in Hb2 as (d2 & Hd2 & Hr2).
    assert (Hr1' : 128 <= stealth.byte d1 <= 191 /\
                   (b0 = 224 -> 160 <= stealth.byte d1))
      by (revert Hr1; destruct (Z.eqb_spec b0 224), (Z.eqb_spec b0 237); lia).
    cbn [fst snd Nat.pred]. split; [|apply (clearOf_2 rest d1 d2 Hd1 ltac:(lia) Hd2); lia].
    rewrite (cont_byte 0 rest d1 Hd1), (cont_byte 1 rest d2 Hd2).
    change 15 with (Z.ones 4). rewrite Z.land_ones by lia.
    rewrite (Z.shiftl_mul_pow2 (stealth.byte d1 mod 64)) by lia.
    rewrite (lor_shiftl _ _ 12) by pow2.
    replace (b0 mod 2 ^ 4 * 2 ^ 12 + stealth.byte d1 mod 64 * 2 ^ 6)
      with (Z.shiftl (b0 mod 16 * 64 + stealth.byte d1 mod 64) 6)
      by (rewrite Z.shiftl_mul_pow2 by lia; pow2).
    rewrite lor_shiftl by pow2. pow2. }
  destruct ((240 <=? b0) && (b0 <=? 244)) eqn:H4; [|exact Herror].
  apply andb_true_iff in H4 as [Hlo Hhi]. apply Z.leb_le in Hlo, Hhi.
  destruct (stealth.inRange _ _ _ && stealth.inRange _ _ _ && stealth.inRange _ _ _)
    eqn:Hvalid; [|exact Herror].
  apply andb_true_iff in Hvalid as [Hvalid Hb3].
  apply andb_true_iff in Hvalid as [Hb1 Hb2].
  apply inRange_byte in Hb1 as (d1 & Hd1 & Hr1).
  apply inRange_byte in Hb2 as (d2 & Hd2 & Hr2).
  apply inRange_byte in Hb3 as (d3 & Hd3 & Hr3).
  assert (Hr1' : 128 <= stealth.byte d1 <= 191 /\
                 (b0 = 240 -> 144 <= stealth.byte d1))
    by (revert Hr1; destruct (Z.eqb_spec b0 240), (Z.eqb_spec b0 244); lia).
  cbn [fst snd Nat.pred].
  split; [|apply (clearOf_3 rest d1 d2 d3 Hd1 ltac:(lia) Hd2 ltac:(lia) Hd3); lia].
  rewrite (cont_byte 0 rest d1 Hd1), (cont_byte 1 rest d2 Hd2), (cont_byte 2 rest d3 Hd3).
  change 7 with (Z.ones 3). rewrite Z.land_ones by lia.
  rewrite (Z.shiftl_mul_pow2 (stealth.byte d1 mod 64)) by lia.
  rewrite (Z.shiftl_mul_pow2 (stealth.byte d2 mod 64)) by lia.
  rewrite (lor_shiftl _ _ 18) by pow2.
  replace (b0 mod 2 ^ 3 * 2 ^ 18 + stealth.byte d1 mod 64 * 2 ^ 12)
    with (Z.shiftl (b0 mod 8 * 64 + stealth.byte d1 mod 64) 12)
    by (rewrite Z.shiftl_mul_pow2 by lia; pow2).
  rewrite (lor_shiftl _ _ 12) by pow2.
  replace ((b0 mod 8 * 64 + stealth.byte d1 mod 64) * 2 ^ 12 + stealth.byte d2 mod 64 * 2 ^ 6)
    with (Z.shiftl ((b0 mod 8 * 64 + stealth.byte d1 mod 64) * 64 + stealth.byte d2 mod 64) 6)
    by (rewrite Z.shiftl_mul_pow2 by lia; pow2).
  rewrite lor_shiftl by pow2. pow2.
Qed.

Lemma findAt_indexOf (email : string) (skip : nat) (i : Z) :
  clearOf "@" skip email ->
  auth.findAt email skip i =
  match indexOf "@" email with
  | Some k => i + Z.of_nat k
  | None => -1
  end.
Proof.
  revert skip i. induction email as [|c rest IH]; intros skip i Hclear; [reflexivity|].
  cbn [auth.findAt indexOf]. destruct skip as [|k].
  - destruct (Ascii.eqb c "@") eqn:Hc.
    + apply Ascii.eqb_eq in Hc. subst c.
      change (stealth.decodeRune (stealth.byte "@") rest) with (64, 1%nat).
      cbv beta iota. change (64 =? 64) with true. cbv iota. cbn [Z.of_nat]. lia.
    + apply Ascii.eqb_neq in Hc.
      assert (Hbyte : stealth.byte c <> 64) by (rewrite byte_at; exact Hc).
      destruct (decodeRune_other (stealth.byte c) rest (byte_range c) Hbyte) as [Hr Hrest].
      destruct (stealth.decodeRune (stealth.byte c) rest) as [r width].
      cbn [fst snd] in Hr, Hrest.
      replace (r =? 64) with false by (symmetry; apply Z.eqb_neq; exact Hr).
      rewrite (IH _ _ Hrest). destruct (indexOf "@" rest); cbn; lia.
  - cbn [clearOf] in Hclear. destruct Hclear as [Hc Hrest].
    replace (Ascii.eqb c "@") with false by (symmetry; apply Ascii.eqb_neq; exact Hc).
    rewrite (IH _ _ Hrest). destruct (indexOf "@" rest); cbn; lia.
Qed.

Lemma append_nil_r (s : string) : s +:+ "" = s.
Proof.
  induction s as [|c s IH]; [reflexivity|].
  change (String c s +:+ "") with (String c (s +:+ "")). rewrite IH. reflexivity.
Qed.

(** [maskEmail] keeps the first two bytes of an address of three bytes or
    more, writes three stars, and keeps what follows from the first [@] byte
    on, when there is one after the first byte; the runes that the loop
    visits never hide or invent an [@], whatever the encoding of the text.
    A shorter address is three stars. *)
Theorem maskEmail_spec (email : string) :
  auth.maskEmail email =
  if (String.length email <? 3)%nat then "***"
  else
    String.substring 0 2 email +:+ "***" +:+
    match indexOf "@" email with
    | Some (S k) => String.substring (S k) (String.length email - S k) email
    | _ => ""
    end.
Proof.
  unfold auth.maskEmail. cbv zeta.
  destruct (String.length email <? 3)%nat; [reflexivity|].
  rewrite (findAt_indexOf email 0 0) by (destruct email; exact I).
  destruct (indexOf "@" email) as [[|k]|].
  - cbn. rewrite append_nil_r. reflexivity.
  - replace (0 + Z.of_nat (S k) <=? 0) with false by (symmetry; apply Z.leb_gt; lia).
    rewrite Z.add_0_l, Nat2Z.id. reflexivity.
  - cbn. rewrite append_nil_r. reflexivity.
Qed.

Example maskEmail_examples :
  auth.maskEmail "alice@example.com" = "al***@example.com" /\
  auth.maskEmail "a@b.co" = "a@***@b.co" /\
  auth.maskEmail "no-at-sign" = "no***" /\
  auth.maskEmail "ab" = "***".
Proof. vm_compute. repeat split; reflexivity. Qed.

(** ** What reaches the disk *)

(** [save] stamps the data, attempts one write of the data as they are, with
    the profiles read through their pointers, and passes the outcome on. *)
Lemma save_writes (w : World) :
  let stamped := with_data (storage.setLastSync (nextNow w) (data w)) (afterNow w) in
  exists w',
    storage.save w = Returned (hd None (disk w)) w' /\
    writes w' =
      writes w ++
      [match hd None (disk w) with
       | None => Wrote (storage.snapshot stamped)
       | Some msg => WriteFailed (storage.snapshot stamped) msg
       end] /\
    disk w' = tl (disk w) /\
    heap w' = heap w /\
    data w' = data stamped.
Proof.
  cbv zeta. unfold storage.save, mbind, M_bind. rewrite Now_eq. cbn [modify].
  unfold storage.writeFile.
  set (stamped := with_data _ (afterNow w)).
  change (disk stamped) with (disk w). change (writes stamped) with (writes w).
  destruct (hd None (disk w)); eexists; (split; [reflexivity|]); repeat split.
Qed.

(** [SaveProfile] attempts one write of the store with the profile
    registered under its ID, whatever the outcome. *)
Lemma SaveProfile_writes (profile : ptr) (p : Profile) (w : World) :
  heap w !! profile = Some p ->
  exists w' s,
    storage.SaveProfile profile w = Returned (hd None (disk w)) w' /\
    writes w' =
      writes w ++
      [match hd None (disk w) with
       | None => Wrote s
       | Some msg => WriteFailed s msg
       end] /\
    disk w' = tl (disk w) /\
    heap w' = heap w /\
    Profiles (data w') = <[ID p := profile]> (Profiles (data w)) /\
    ledger w' = ledger w.
Proof.
  intros Hp. unfold storage.SaveProfile.
  unfold mbind at 1, M_bind at 1. rewrite (deref_Some _ _ _ Hp).
  unfold mbind at 1, M_bind at 1. cbn [modify].
  set (w1 := with_data _ w).
  destruct (save_writes w1) as (w' & Hsave & Hwrites & Hdisk & Hheap & Hdata).
  eexists w', _. split; [exact Hsave|]. split; [exact Hwrites|].
  split; [exact Hdisk|]. split; [exact Hheap|].
  unfold ledger. rewrite Hdata. split; reflexivity.
Qed.

(** [LogAction] appends its record and attempts one write of the store as it
    then is: the profiles as the pointers show them, the ledger with the new
    record. *)
Lemma LogAction_writes (action profileID : string) (success : bool) (err : error)
  (w : World) :
  exists w' s,
    storage.LogAction action profileID success err w = Returned (hd None (disk w)) w' /\
    writes w' =
      writes w ++
      [match hd None (disk w) with
       | None => Wrote s
       | Some msg => WriteFailed s msg
       end] /\
    snapProfiles s = (fun p => heap w !! p) <$> Profiles (data w) /\
    snapActionLogs s =
      ledger w ++
      [{| Action := action; Timestamp := nextNow w; LogProfileID := profileID;
          Success := success;
          Error := match err with Some msg => msg | None => "" end |}].
Proof.
  unfold storage.LogAction.
  unfold mbind at 1, M_bind at 1. rewrite Now_eq.
  unfold mbind at 1, M_bind at 1. cbn [modify].
  set (w1 := with_data _ (afterNow w)).
  destruct (save_writes w1) as (w' & Hsave & Hwrites & _).
  eexists w', _. split; [exact Hsave|]. split; [exact Hwrites|].
  split; reflexivity.
Qed.

Lemma onDisk_last (w : World) (events : list WriteEvent) (s : Snapshot) :
  writes w = events ++ [Wrote s] -> onDisk w = Some s.
Proof.
  intros H. unfold onDisk. rewrite H, foldl_app. reflexivity.
Qed.

(** X25. A connection request that fails reaches the database file as a
    request made. When the write of [SendConnectionRequest] fails and the
    next one, that of the failure record, goes through, the loop of
    [ProcessDailyConnections] returns with the number of sent requests
    unchanged, and the file then holds the profile in state requested, with
    the time of the request, together with a ledger whose only new record is
    the failure: no count of successful requests has moved. *)
Theorem failed_request_reaches_the_file (cfg : config.StealthConfig) (profile : ptr)
  (p : Profile) (cause : string) (later : list error) (sent maxToSend : Z)
  (w : World) :
  sane cfg ->
  heap w !! profile = Some p ->
  sent < maxToSend ->
  disk w = Some cause :: None :: later ->
  exists (w' : World) (file : Snapshot) (q : Profile) (at_ logged : Time),
    connect.processCandidates cfg [profile] sent maxToSend w = Returned sent w' /\
    onDisk w' = Some file /\
    snapProfiles file !! ID p = Some (Some q) /\
    q = setRequest StateRequested (Some at_) p /\
    snapActionLogs file =
      ledger w ++
      [{| Action := "connection"; Timestamp := logged; LogProfileID := ID p;
          Success := false;
          Error := connect.wrapError "failed to update profile state" cause |}] /\
    forall action since,
      storage.countSince action since (snapActionLogs file) =
      storage.countSince action since (ledger w).
Proof.
  intros Hsane Hp Hbudget Hdisk.
  destruct (SendConnectionRequest_pacing cfg profile p w Hsane Hp)
    as (w1 & [(Hdata1 & Hheap1 & Hwrites1) Hdisk1] & _ & Hrun).
  set (q := setRequest StateRequested (Some (nextNow w1)) p).
  set (w2 := with_heap (<[profile := q]> (heap (afterNow w1))) (afterNow w1)).
  assert (Hq : heap w2 !! profile = Some q) by apply lookup_insert_eq.
  destruct (SaveProfile_writes profile q w2 Hq)
    as (w3 & s3 & Hsave & Hwrites3 & Hdisk3 & Hheap3 & Hprofiles3 & Hledger3).
  change (disk w2) with (disk w1) in Hsave, Hwrites3, Hdisk3.
  rewrite Hdisk1, Hdisk in Hsave, Hwrites3, Hdisk3. cbn [hd tl] in Hsave, Hwrites3, Hdisk3.
  destruct (LogAction_writes "connection" (ID q) false
              (Some (connect.wrapError "failed to update profile state" cause)) w3)
    as (w4 & s4 & Hlog & Hwrites4 & Hsnap & Hlogs).
  rewrite Hdisk3 in Hlog, Hwrites4. cbn [hd] in Hlog, Hwrites4.
  exists w4, s4, q, (nextNow w1), (nextNow w3).
  split; [|split; [|split; [|split; [|split]]]].
  - cbn [connect.processCandidates].
    replace (sent >=? maxToSend) with false
      by (symmetry; rewrite Z.geb_leb; apply Z.leb_gt; lia).
    unfold mbind at 1, M_bind at 1. rewrite Hrun.
    unfold mbind at 1, M_bind at 1. rewrite Now_eq.
    unfold mbind at 1, M_bind at 1, assign at 1.
    change (heap (afterNow w1)) with (heap w1). rewrite Hheap1, Hp.
    rewrite <- Hheap1. change (heap w1) with (heap (afterNow w1)). fold q. fold w2.
    unfold mbind at 1, M_bind at 1. rewrite Hsave.
    cbv [mret M_ret].
    unfold mbind at 1, M_bind at 1.
    assert (Hq3 : heap w3 !! profile = Some q) by (rewrite Hheap3; exact Hq).
    rewrite (deref_Some _ _ _ Hq3).
    unfold mbind at 1, M_bind at 1. rewrite Hlog. reflexivity.
  - apply (onDisk_last w4 (writes w3) s4). exact Hwrites4.
  - rewrite Hsnap, lookup_fmap, Hprofiles3.
    change (ID q) with (ID p). rewrite lookup_insert_eq. cbn.
    rewrite Hheap3, Hq. reflexivity.
  - reflexivity.
  - rewrite Hlogs, Hledger3. unfold ledger. change (data w2) with (data w1).
    rewrite Hdata1. reflexivity.
  - intros action since. rewrite Hlogs, Hledger3. unfold ledger.
    change (data w2) with (data w1). rewrite Hdata1.
    rewrite !countSince_tally, tally_app.
    replace (tally (counted action since) [_]) with 0; [lia|].
    unfold tally, counted. cbn. rewrite andb_false_r. reflexivity.
Qed.

Lemma failed_request_reaches_the_file_witness :
  let w := examples.world (examples.at_ 10 0) [] [Some "disk full"; None] in
  exists (w' : World) (file : Snapshot),
    connect.processCandidates config.defaultStealth [1%positive] 0 2 w = Returned 0 w' /\
    onDisk w' = Some file /\
    fmap (M := option) State <$> snapProfiles file !! "p-alice" =
      Some (Some StateRequested) /\
    length (snapActionLogs file) = 1%nat.
Proof.
  intros w.
  assert (Hp : exists p, heap w !! 1%positive = Some p /\ ID p = "p-alice")
    by (eexists; split; vm_compute; reflexivity).
  destruct Hp as (p & Hp & Hid).
  destruct (failed_request_reaches_the_file config.defaultStealth 1%positive p
              "disk full" [] 0 2 w defaultStealth_sane Hp ltac:(lia) eq_refl)
    as (w' & file & q & at_ & logged & Hrun & Hfile & Hprofile & Hq & Hlogs & _).
  exists w', file. split; [exact Hrun|]. split; [exact Hfile|].
  rewrite <- Hid, Hprofile, Hlogs, Hq. split; reflexivity.
Defined.

(** ** A batch of messages *)

(** [SendMessage] returns, with or without an error, whenever the profile is
    there; it leaves the profiles alone, and the ledger too unless the
    message was sent. *)
Lemma SendMessage_total (cfg : config.StealthConfig) (limits : config.LimitsConfig)
  (templates : gmap string string) (profile : ptr) (templateName : string)
  (p : Profile) (w : World) :
  sane cfg -> heap w !! profile = Some p ->
  exists e w',
    messaging.SendMessage cfg limits templates profile templateName w = Returned e w' /\
    heap w' = heap w /\
    Profiles (data w') = Profiles (data w) /\
    ((e <> None /\ ledger w' = ledger w) \/
     (e = None /\ exists t, ledger w' = ledger w ++ [messaged t (ID p)])).
Proof.
  intros Hsane Hp.
  destruct (Z.ltb_spec
              (tally (counted "message"
                        (gotime.startOfDay (zone w) (nextNow (afterNow w)))) (ledger w))
              (config.MessagesPerDay limits)) as [Hlimit|Hlimit];
    [destruct (negb (String.eqb (State p) StateAccepted) &&
               negb (String.eqb (State p) StateCooledDown)) eqn:Hstate;
     [|destruct (templates !! templateName) as [template|] eqn:Htemplate]|].
  - (* the profile is in no state to be messaged *)
    unfold messaging.SendMessage.
    unfold mbind at 1, M_bind at 1. rewrite (deref_Some _ _ _ Hp).
    unfold mbind at 1, M_bind at 1. rewrite Now_eq.
    unfold mbind at 1, M_bind at 1. rewrite GetActionCountToday_eq.
    change (ActionLogs (data (afterNow w))) with (ledger w).
    change (zone (afterNow w)) with (zone w).
    replace (_ >=? config.MessagesPerDay limits) with false
      by (symmetry; rewrite Z.geb_leb; apply Z.leb_gt; exact Hlimit).
    rewrite Hstate. eexists _, _. split; [reflexivity|].
    split; [reflexivity|]. split; [reflexivity|]. left. split; [discriminate|reflexivity].
  - (* the message is sent *)
    assert (Hstate' : State p = StateAccepted \/ State p = StateCooledDown).
    { apply andb_false_iff in Hstate as [H|H]; apply negb_false_iff, String.eqb_eq in H;
        [left|right]; exact H. }
    destruct (SendMessage_returns cfg limits templates profile templateName template p w
                Hsane Hp Hstate' Hlimit Htemplate)
      as (w' & t1 & t2 & t3 & Hrun & _ & _ & _ & _ & Hledger & Hheap & Hprofiles).
    exists None, w'. split; [exact Hrun|]. split; [exact Hheap|].
    split; [exact Hprofiles|]. right. split; [reflexivity|]. exists t3. exact Hledger.
  - (* the template is not there *)
    unfold messaging.SendMessage.
    unfold mbind at 1, M_bind at 1. rewrite (deref_Some _ _ _ Hp).
    unfold mbind at 1, M_bind at 1. rewrite Now_eq.
    unfold mbind at 1, M_bind at 1. rewrite GetActionCountToday_eq.
    change (ActionLogs (data (afterNow w))) with (ledger w).
    change (zone (afterNow w)) with (zone w).
    replace (_ >=? config.MessagesPerDay limits) with false
      by (symmetry; rewrite Z.geb_leb; apply Z.leb_gt; exact Hlimit).
    rewrite Hstate.
    step ltac:(apply runs_GetMessagesByProfile).
    unfold messaging.renderTemplate. rewrite Htemplate.
    destruct Hkept as [(Hdata & Hheap & _) _].
    eexists _, _. split; [reflexivity|].
    split; [exact Hheap|]. split; [rewrite Hdata; reflexivity|].
    left. split; [discriminate|]. unfold ledger. rewrite Hdata. reflexivity.
  - (* the daily limit is reached *)
    unfold messaging.SendMessage.
    unfold mbind at 1, M_bind at 1. rewrite (deref_Some _ _ _ Hp).
    unfold mbind at 1, M_bind at 1. rewrite Now_eq.
    unfold mbind at 1, M_bind at 1. rewrite GetActionCountToday_eq.
    change (ActionLogs (data (afterNow w))) with (ledger w).
    change (zone (afterNow w)) with (zone w).
    replace (_ >=? config.MessagesPerDay limits) with true
      by (symmetry; rewrite Z.geb_leb; apply Z.leb_le; exact Hlimit).
    eexists _, _. split; [reflexivity|].
    split; [reflexivity|]. split; [reflexivity|]. left. split; [discriminate|reflexivity].
Qed.

Lemma sentTo_cons (w w0 : World) (profile : ptr) (rest : list ptr) (log : ActionLog) :
  heap w0 = heap w -> sentTo w0 rest log -> sentTo w (profile :: rest) log.
Proof.
  intros Hheap (Haction & Hsuccess & q & p & Hin & Hq & Hid).
  split; [exact Haction|]. split; [exact Hsuccess|].
  exists q, p. split; [right; exact Hin|]. split; [rewrite <- Hheap; exact Hq|exact Hid].
Qed.

(** The loop of [SendBulkMessages] returns whatever the sends do. *)
Lemma bulkLoop_returns (cfg : config.StealthConfig) (limits : config.LimitsConfig)
  (templates : gmap string string) (templateName : string) (profiles : list ptr) :
  sane cfg ->
  forall (sent failed : Z) (w : World),
    Forall (fun profile => is_Some (heap w !! profile)) profiles ->
    exists counts w' added,
      messaging.bulkLoop cfg limits templates profiles templateName sent failed w =
        Returned counts w' /\
      heap w' = heap w /\
      Profiles (data w') = Profiles (data w) /\
      ledger w' = ledger w ++ added /\
      (length added <= length profiles)%nat /\
      Forall (sentTo w profiles) added.
Proof.
  intros Hsane. induction profiles as [|profile rest IH]; intros sent failed w Hlive.
  - exists (sent, failed), w, []. split; [reflexivity|]. split; [reflexivity|].
    split; [reflexivity|]. split; [rewrite app_nil_r; reflexivity|].
    split; [reflexivity|constructor].
  - apply Forall_cons in Hlive as [[p Hp] Hrest].
    cbn [messaging.bulkLoop].
    unfold mbind at 1, M_bind at 1. rewrite GetActionCountToday_eq.
    destruct (_ >=? config.MessagesPerDay limits).
    { exists (sent, failed), (afterNow w), []. split; [reflexivity|].
      split; [reflexivity|]. split; [reflexivity|].
      split; [rewrite app_nil_r; reflexivity|]. split; [cbn; lia|constructor]. }
    destruct (SendMessage_total cfg limits templates profile templateName p (afterNow w)
                Hsane Hp) as (e & w1 & Hsend & Hheap1 & Hprofiles1 & Hcase).
    unfold mbind at 1, M_bind at 1. rewrite Hsend.
    destruct Hcase as [[He Hledger1] | [-> (t & Hledger1)]].
    + destruct e as [msg|]; [|congruence].
      destruct (IH sent (failed + 1) w1)
        as (counts & w' & added & Hrun & Hheap & Hprofiles & Hledger & Hlen & Hadded).
      { rewrite Hheap1. exact Hrest. }
      exists counts, w', added. split; [exact Hrun|].
      split; [rewrite Hheap, Hheap1; reflexivity|].
      split; [rewrite Hprofiles, Hprofiles1; reflexivity|].
      split; [rewrite Hledger, Hledger1; reflexivity|].
      split; [cbn; lia|].
      eapply Forall_impl; [exact Hadded|]. intros log. apply sentTo_cons.
      rewrite Hheap1. reflexivity.
    + destruct (EnforceCooldown_returns "message" 60 w1) as (w2 & Hcool & _ & Hkept).
      unfold mbind at 1, M_bind at 1. rewrite Hcool.
      destruct Hkept as [(Hdata2 & Hheap2 & _) _].
      destruct (IH (sent + 1) failed w2)
        as (counts & w' & added & Hrun & Hheap & Hprofiles & Hledger & Hlen & Hadded).
      { rewrite Hheap2, Hheap1. exact Hrest. }
      exists counts, w', (messaged t (ID p) :: added). split; [exact Hrun|].
      split; [rewrite Hheap, Hheap2, Hheap1; reflexivity|].
      split; [rewrite Hprofiles, Hdata2, Hprofiles1; reflexivity|].
      split.
      { rewrite Hledger. unfold ledger at 1. rewrite Hdata2. fold (ledger w1).
        rewrite Hledger1, <- app_assoc. reflexivity. }
      split; [cbn; lia|].
      constructor.
      * split; [reflexivity|]. split; [reflexivity|].
        exists profile, p. split; [left|]. split; [exact Hp|reflexivity].
      * eapply Forall_impl; [exact Hadded|]. intros log. apply sentTo_cons.
        rewrite Hheap2, Hheap1. reflexivity.
Qed.

(** X26. A batch of messages never fails. With a sane configuration and
    profiles that are there, [SendBulkMessages] returns nil whatever happens
    to the single sends (limit reached, wrong state, unknown template, store
    not writable); it changes no profile, and what it adds to the ledger is
    at most one record per listed profile, each a success record "message"
    for one of them: a send that failed leaves no record. *)
Theorem SendBulkMessages_never_fails (cfg : config.StealthConfig)
  (limits : config.LimitsConfig) (templates : gmap string string)
  (profiles : list ptr) (templateName : string) (w : World) :
  sane cfg ->
  Forall (fun profile => is_Some (heap w !! profile)) profiles ->
  exists w' added,
    messaging.SendBulkMessages cfg limits templates profiles templateName w =
      Returned None w' /\
    heap w' = heap w /\
    Profiles (data w') = Profiles (data w) /\
    ledger w' = ledger w ++ added /\
    (length added <= length profiles)%nat /\
    Forall (sentTo w profiles) added.
Proof.
  intros Hsane Hlive.
  destruct (bulkLoop_returns cfg limits templates templateName profiles Hsane 0 0 w Hlive)
    as (counts & w' & added & Hrun & Hrest).
  exists w', added. split; [|exact Hrest].
  unfold messaging.SendBulkMessages, mbind, M_bind. rewrite Hrun. reflexivity.
Qed.

Lemma SendBulkMessages_never_fails_witness :
  let w := examples.world (examples.at_ 10 0) [] [Some "disk full"] in
  exists w' added,
    messaging.SendBulkMessages config.defaultStealth config.defaultLimits
      messaging.defaultTemplates [1%positive; 2%positive] "no_such_template" w =
      Returned None w' /\
    ledger w' = ledger w ++ added /\
    (length added <= 2)%nat.
Proof.
  intros w.
  assert (Hlive : Forall (fun profile => is_Some (heap w !! profile))
                    [1%positive; 2%positive])
    by (repeat constructor; eexists; vm_compute; reflexivity).
  destruct (SendBulkMessages_never_fails config.defaultStealth config.defaultLimits
              messaging.defaultTemplates [1%positive; 2%positive] "no_such_template" w
              defaultStealth_sane Hlive)
    as (w' & added & Hrun & _ & _ & Hledger & Hlen & _).
  exists w', added. split; [exact Hrun|]. split; [exact Hledger|exact Hlen].
Defined.
